(** * HomeStore: the engine facade and the log-store interface

    A shallow embedding of [engine/homestore.hpp] (the [HomeStore] facade that
    binds device manager, cache and the five block stores) and of the
    [HomeLogStore] interface of [homestore/logstore/log_store.hpp].

    The facade is stateful and throws: its methods are embedded in a small
    state-and-exception monad over the record [HomeStore].  A C++ exception
    leaves the object as it was at the [throw], so an outcome is always paired
    with the state reached. *)

From Stdlib Require Import ZArith List String Bool Lia.
Import ListNotations.
Local Open Scope Z_scope.

(** ** Machine integers *)

Definition u64 (z : Z) : Z := z mod 2 ^ 64.
Definition u32 (z : Z) : Z := z mod 2 ^ 32.

(** Modelled from the spec: [sisl::round_up] is declared in [fds/utils.hpp],
    outside the given sources; first-boot sizes "are rounded up to the
    physical page size", that is to the least multiple of it that is not below
    the size. *)
Definition round_up (num_to_round multiple : Z) : Z :=
  ((num_to_round + multiple - 1) / multiple) * multiple.

Module Engine.

(** ** Data model of the facade *)

(** [VENUM(blkstore_type, uint32_t, DATA_STORE = 1, INDEX_STORE = 2,
    SB_STORE = 3, LOGDEV_STORE = 4, META_STORE = 5)]. *)
Inductive blkstore_type : Set :=
| DATA_STORE | INDEX_STORE | SB_STORE | LOGDEV_STORE | META_STORE.

Definition blkstore_type_val (t : blkstore_type) : Z :=
  match t with
  | DATA_STORE => 1 | INDEX_STORE => 2 | SB_STORE => 3
  | LOGDEV_STORE => 4 | META_STORE => 5
  end.

Definition blkstore_type_eqb (a b : blkstore_type) : bool :=
  blkstore_type_val a =? blkstore_type_val b.

(** The store type a 32-bit tag stands for, if any. *)
Definition blkstore_type_of_val (z : Z) : option blkstore_type :=
  if z =? 1 then Some DATA_STORE
  else if z =? 2 then Some INDEX_STORE
  else if z =? 3 then Some SB_STORE
  else if z =? 4 then Some LOGDEV_STORE
  else if z =? 5 then Some META_STORE
  else None.

(** Modelled from the spec: the class [BlkId] is declared outside the given
    sources; it is "a triple: chunk index within the vdev, offset within the
    chunk, and number of contiguous pages", and "the invalid sentinel is a
    distinguished value". *)
Inductive BlkId : Set :=
| BlkId_invalid
| BlkId_at (chunk_num blk_num nblks : Z).

(** Modelled from the spec: [BlkId::is_valid], false exactly on the invalid
    sentinel. *)
Definition is_valid (b : BlkId) : bool :=
  match b with BlkId_invalid => false | BlkId_at _ _ _ => true end.

(** [struct blkstore_blob { enum blkstore_type type; }] and
    [struct sb_blkstore_blob : blkstore_blob { BlkId blkid; }]. *)
Record blkstore_blob : Set := { type : blkstore_type }.
Record sb_blkstore_blob : Set := { sb_base : blkstore_blob; blkid : BlkId }.

(** What a constructor receives as [(char* )&blob, sizeof(...)]: the bytes of
    a [blkstore_blob] or of the longer [sb_blkstore_blob]. *)
Inductive context_blob : Set :=
| plain_blob (b : blkstore_blob)
| sb_blob (b : sb_blkstore_blob).

Definition context_blob_type (c : context_blob) : blkstore_type :=
  match c with plain_blob b => type b | sb_blob b => type (sb_base b) end.

(** The [context_data] array of a persisted vdev record, as the facade reads
    it.  The device manager is built with a context size of
    [sizeof(sb_blkstore_blob)], so the array always decodes as a 32-bit tag
    followed by a [BlkId]; the tag read from media may be any 32-bit value. *)
Record vdev_context : Set := { ctx_type : Z; ctx_blkid : BlkId }.

(** [vdev_info_block]: only [context_data] and [failed] are read here. *)
Record vdev_info_block : Set := {
  vdev_id : Z;
  context_data : vdev_context;
  failed : bool
}.

Inductive BlkStoreCacheType : Set :=
| PASS_THRU | WRITEBACK_CACHE | RD_MODIFY_WRITEBACK_CACHE.

(** The completion hook given to a block store, when one is given. *)
Inductive comp_callback : Set :=
| data_completion_cb
| process_logdev_completions.

(** The two constructor forms of [BlkStore] the facade uses: creation of a
    new vdev (size, cache type, mirrors, context blob, page size, name,
    auto-recovery, completion hook) and reattach to a vdev found on media
    (vdev record, cache type, page size, name, failed, auto-recovery, hook). *)
Inductive BlkStoreCtor : Set :=
| ctor_create (size : Z) (cache_type : BlkStoreCacheType) (mirrors : Z)
    (blob : context_blob) (page_size : Z) (name : string)
    (auto_recovery : bool) (comp_cb : option comp_callback)
| ctor_load (vb : vdev_info_block) (cache_type : BlkStoreCacheType)
    (page_size : Z) (name : string) (is_failed : bool)
    (auto_recovery : bool) (comp_cb : option comp_callback).

(** Modelled from the spec: the class [BlkStore] is outside the given
    sources; it is "a typed view over one vdev" with a "configuration at
    construction".  A block store is kept as the facade sees it: how it was
    constructed, the context written by [update_vb_context], the contiguous
    allocations granted, and the number of [recovery_done()] calls received. *)
Record BlkStore : Set := {
  bs_ctor : BlkStoreCtor;
  bs_vb_context : option sb_blkstore_blob;
  bs_allocated : list (Z * BlkId);
  bs_recovery_done : nat
}.

(** Modelled from the spec: a store right after its construction. *)
Definition make_blkstore (c : BlkStoreCtor) : BlkStore :=
  {| bs_ctor := c; bs_vb_context := None; bs_allocated := []; bs_recovery_done := 0 |}.

(** Modelled from the spec: [update_vb_context] "rewrites the vdev's
    [context_data] atomically". *)
Definition update_vb_context (blob : sb_blkstore_blob) (b : BlkStore) : BlkStore :=
  {| bs_ctor := bs_ctor b; bs_vb_context := Some blob;
     bs_allocated := bs_allocated b; bs_recovery_done := bs_recovery_done b |}.

(** Modelled from the spec: the store after [alloc_contiguous_blk] has
    granted [bid] for [sz] bytes. *)
Definition record_alloc (sz : Z) (bid : BlkId) (b : BlkStore) : BlkStore :=
  {| bs_ctor := bs_ctor b; bs_vb_context := bs_vb_context b;
     bs_allocated := (sz, bid) :: bs_allocated b;
     bs_recovery_done := bs_recovery_done b |}.

(** Modelled from the spec: [recovery_done] "marks the allocator's on-disk
    state as consistent"; the call is counted. *)
Definition recovery_done (b : BlkStore) : BlkStore :=
  {| bs_ctor := bs_ctor b; bs_vb_context := bs_vb_context b;
     bs_allocated := bs_allocated b;
     bs_recovery_done := S (bs_recovery_done b) |}.

(** Modelled from the spec: [BlkAllocStatus] is declared outside the given
    sources; the facade tells [SUCCESS] from every other status
    ("[alloc_contiguous_blk(sz, hints)] -> BlkId | OutOfSpace"). *)
Inductive BlkAllocStatus : Set :=
| SUCCESS
| ALLOC_FAILED (code : Z).

Definition is_success (s : BlkAllocStatus) : bool :=
  match s with SUCCESS => true | ALLOC_FAILED _ => false end.

(** [blk_alloc_hints], with the three fields [alloc_sb_blk] sets. *)
Record blk_alloc_hints : Set := {
  desired_temp : Z;
  dev_id_hint : Z;
  is_contiguous : bool
}.

(** [iomgr::drive_attributes], with the two page sizes the facade reads. *)
Record drive_attributes : Set := {
  phys_page_size : Z;
  atomic_phys_page_size : Z
}.

(** [dev_info] and [hs_input_params], with the fields the facade reads. *)
Record dev_info : Set := { dev_names : string }.

Record hs_input_params : Set := {
  devices : list dev_info;
  device_type : Z;
  input_drive_attr : option drive_attributes;
  min_virtual_page_size : Z;
  is_restricted_mode : bool
}.

(** [HomeStoreStaticConfig]: the input, the drive attributes and
    [engine.min_io_size]. *)
Record HomeStoreStaticConfig : Set := {
  input : hs_input_params;
  drive_attr : drive_attributes;
  engine_min_io_size : Z
}.

(** [cap_attrs], with the four fields [get_system_capacity] fills; they are
    64-bit unsigned. *)
Record cap_attrs : Set := {
  used_data_size : Z;
  used_index_size : Z;
  used_total_size : Z;
  initial_total_size : Z
}.

(** The cache, as constructed: its size and its page size. *)
Record Cache : Set := { cache_size : Z; cache_page_size : Z }.

(** Modelled from the spec: the class [DeviceManager] is outside the given
    sources.  It "owns raw devices", is constructed with the size of the
    context blob, the device type and the restricted-mode flag, learns from
    [add_devices] whether this is a first boot and what the total capacity
    is, and is told [init_done] at the end of start-up. *)
Record DeviceManager : Set := {
  dm_context_size_is_sb_blob : bool;
  dm_device_type : Z;
  dm_restricted_mode : bool;
  dm_first_time_boot : bool;
  dm_total_cap : Z;
  dm_init_done : bool
}.

(** Modelled from the spec: what is on the raw devices when they are
    attached, either a fresh fleet or "a previously initialized fleet" with
    its "vdev catalog: an array of vdev records". *)
Record Media : Set := {
  media_formatted : bool;
  media_total_cap : Z;
  media_vdevs : list vdev_info_block
}.

(** The device manager [init] constructs: context size
    [sizeof(sb_blkstore_blob)], the device type and the restricted-mode flag
    of the input; no device is attached yet. *)
Definition DeviceManager_new (inp : hs_input_params) : DeviceManager :=
  {| dm_context_size_is_sb_blob := true;
     dm_device_type := device_type inp;
     dm_restricted_mode := is_restricted_mode inp;
     dm_first_time_boot := false;
     dm_total_cap := 0;
     dm_init_done := false |}.

(** Modelled from the spec: the device manager after [add_devices] has
    opened the devices. *)
Definition dm_attach (disk : Media) (dm : DeviceManager) : DeviceManager :=
  {| dm_context_size_is_sb_blob := dm_context_size_is_sb_blob dm;
     dm_device_type := dm_device_type dm;
     dm_restricted_mode := dm_restricted_mode dm;
     dm_first_time_boot := negb (media_formatted disk);
     dm_total_cap := media_total_cap disk;
     dm_init_done := dm_init_done dm |}.

(** Modelled from the spec: the device manager after [init_done]. *)
Definition dm_mark_init_done (dm : DeviceManager) : DeviceManager :=
  {| dm_context_size_is_sb_blob := dm_context_size_is_sb_blob dm;
     dm_device_type := dm_device_type dm;
     dm_restricted_mode := dm_restricted_mode dm;
     dm_first_time_boot := dm_first_time_boot dm;
     dm_total_cap := dm_total_cap dm;
     dm_init_done := true |}.

(** The arguments of [meta_blk_mgr->start(store, sb_blob, init)]; the store is
    always [m_meta_blk_store]. *)
Record meta_blk_mgr_start : Set := {
  meta_sb_blob : option vdev_context;
  meta_init : bool
}.

(** The enumeration [homestore_error] is declared outside the given
    sources; [space_not_avail] and [init_failed] are the two codes the
    facade names (homestore.hpp:118 and 298). *)
Inductive homestore_error : Set :=
| space_not_avail
| init_failed.

(** The exceptions the facade throws: two standard ones, which carry a
    message only, and [homestore_exception], which carries an error code. *)
Inductive exn : Set :=
| std_invalid_argument (what : string)
| std_runtime_error (what : string)
| homestore_exception (what : string) (err : homestore_error).

(** Executions the C++ leaves undefined or aborts: a null [unique_ptr] is
    dereferenced, a vector is indexed past its end, or an [HS_ASSERT] that
    does not hold stops the process (whether it does is the parameter
    [logmsg_assert_stops] below). *)
Inductive fault : Set :=
| null_dereference (member : string)
| index_out_of_range (container : string)
| assert_failure (msg : string).

(** The facade object together with the process-wide singletons it writes
    ([HomeStoreStaticConfig::instance()], [meta_blk_mgr], [ResourceMgr]). *)
Record HomeStore : Set := mkHomeStore {
  m_vdev_failed : bool;
  m_print_checksum : bool;
  m_data_blk_store : option BlkStore;
  m_index_blk_store : option BlkStore;
  m_sb_blk_store : option BlkStore;
  m_logdev_blk_store : option BlkStore;
  m_meta_blk_store : option BlkStore;
  m_dev_mgr : option DeviceManager;
  m_cache : option Cache;
  m_size_avail : Z;
  m_data_pagesz : Z;
  hs_config : HomeStoreStaticConfig;
  meta_blk_mgr : option meta_blk_mgr_start;
  resource_total_cap : option Z
}.

Definition HomeStore_default : HomeStore :=
  {| m_vdev_failed := false;
     m_print_checksum := true;
     m_data_blk_store := None;
     m_index_blk_store := None;
     m_sb_blk_store := None;
     m_logdev_blk_store := None;
     m_meta_blk_store := None;
     m_dev_mgr := None;
     m_cache := None;
     m_size_avail := 0;
     m_data_pagesz := 0;
     hs_config :=
       {| input := {| devices := []; device_type := 0; input_drive_attr := None;
                      min_virtual_page_size := 0; is_restricted_mode := false |};
          drive_attr := {| phys_page_size := 0; atomic_phys_page_size := 0 |};
          engine_min_io_size := 0 |};
     meta_blk_mgr := None;
     resource_total_cap := None |}.

(** Field updates. *)
Definition set_vdev_failed (v : bool) (s : HomeStore) : HomeStore :=
  mkHomeStore v (m_print_checksum s) (m_data_blk_store s) (m_index_blk_store s)
    (m_sb_blk_store s) (m_logdev_blk_store s) (m_meta_blk_store s) (m_dev_mgr s)
    (m_cache s) (m_size_avail s) (m_data_pagesz s) (hs_config s)
    (meta_blk_mgr s) (resource_total_cap s).

Definition set_data_blk_store (v : option BlkStore) (s : HomeStore) : HomeStore :=
  mkHomeStore (m_vdev_failed s) (m_print_checksum s) v (m_index_blk_store s)
    (m_sb_blk_store s) (m_logdev_blk_store s) (m_meta_blk_store s) (m_dev_mgr s)
    (m_cache s) (m_size_avail s) (m_data_pagesz s) (hs_config s)
    (meta_blk_mgr s) (resource_total_cap s).

Definition set_index_blk_store (v : option BlkStore) (s : HomeStore) : HomeStore :=
  mkHomeStore (m_vdev_failed s) (m_print_checksum s) (m_data_blk_store s) v
    (m_sb_blk_store s) (m_logdev_blk_store s) (m_meta_blk_store s) (m_dev_mgr s)
    (m_cache s) (m_size_avail s) (m_data_pagesz s) (hs_config s)
    (meta_blk_mgr s) (resource_total_cap s).

Definition set_sb_blk_store (v : option BlkStore) (s : HomeStore) : HomeStore :=
  mkHomeStore (m_vdev_failed s) (m_print_checksum s) (m_data_blk_store s)
    (m_index_blk_store s) v (m_logdev_blk_store s) (m_meta_blk_store s) (m_dev_mgr s)
    (m_cache s) (m_size_avail s) (m_data_pagesz s) (hs_config s)
    (meta_blk_mgr s) (resource_total_cap s).

Definition set_logdev_blk_store (v : option BlkStore) (s : HomeStore) : HomeStore :=
  mkHomeStore (m_vdev_failed s) (m_print_checksum s) (m_data_blk_store s)
    (m_index_blk_store s) (m_sb_blk_store s) v (m_meta_blk_store s) (m_dev_mgr s)
    (m_cache s) (m_size_avail s) (m_data_pagesz s) (hs_config s)
    (meta_blk_mgr s) (resource_total_cap s).

Definition set_meta_blk_store (v : option BlkStore) (s : HomeStore) : HomeStore :=
  mkHomeStore (m_vdev_failed s) (m_print_checksum s) (m_data_blk_store s)
    (m_index_blk_store s) (m_sb_blk_store s) (m_logdev_blk_store s) v (m_dev_mgr s)
    (m_cache s) (m_size_avail s) (m_data_pagesz s) (hs_config s)
    (meta_blk_mgr s) (resource_total_cap s).

Definition set_dev_mgr (v : option DeviceManager) (s : HomeStore) : HomeStore :=
  mkHomeStore (m_vdev_failed s) (m_print_checksum s) (m_data_blk_store s)
    (m_index_blk_store s) (m_sb_blk_store s) (m_logdev_blk_store s)
    (m_meta_blk_store s) v
    (m_cache s) (m_size_avail s) (m_data_pagesz s) (hs_config s)
    (meta_blk_mgr s) (resource_total_cap s).

Definition set_cache (v : option Cache) (s : HomeStore) : HomeStore :=
  mkHomeStore (m_vdev_failed s) (m_print_checksum s) (m_data_blk_store s)
    (m_index_blk_store s) (m_sb_blk_store s) (m_logdev_blk_store s)
    (m_meta_blk_store s) (m_dev_mgr s)
    v (m_size_avail s) (m_data_pagesz s) (hs_config s)
    (meta_blk_mgr s) (resource_total_cap s).

Definition set_available_size (sz : Z) (s : HomeStore) : HomeStore :=
  mkHomeStore (m_vdev_failed s) (m_print_checksum s) (m_data_blk_store s)
    (m_index_blk_store s) (m_sb_blk_store s) (m_logdev_blk_store s)
    (m_meta_blk_store s) (m_dev_mgr s)
    (m_cache s) sz (m_data_pagesz s) (hs_config s)
    (meta_blk_mgr s) (resource_total_cap s).

Definition set_data_pagesz (v : Z) (s : HomeStore) : HomeStore :=
  mkHomeStore (m_vdev_failed s) (m_print_checksum s) (m_data_blk_store s)
    (m_index_blk_store s) (m_sb_blk_store s) (m_logdev_blk_store s)
    (m_meta_blk_store s) (m_dev_mgr s)
    (m_cache s) (m_size_avail s) v (hs_config s)
    (meta_blk_mgr s) (resource_total_cap s).

Definition set_hs_config (v : HomeStoreStaticConfig) (s : HomeStore) : HomeStore :=
  mkHomeStore (m_vdev_failed s) (m_print_checksum s) (m_data_blk_store s)
    (m_index_blk_store s) (m_sb_blk_store s) (m_logdev_blk_store s)
    (m_meta_blk_store s) (m_dev_mgr s)
    (m_cache s) (m_size_avail s) (m_data_pagesz s) v
    (meta_blk_mgr s) (resource_total_cap s).

Definition set_meta_blk_mgr (v : option meta_blk_mgr_start) (s : HomeStore) : HomeStore :=
  mkHomeStore (m_vdev_failed s) (m_print_checksum s) (m_data_blk_store s)
    (m_index_blk_store s) (m_sb_blk_store s) (m_logdev_blk_store s)
    (m_meta_blk_store s) (m_dev_mgr s)
    (m_cache s) (m_size_avail s) (m_data_pagesz s) (hs_config s)
    v (resource_total_cap s).

Definition set_resource_total_cap (v : option Z) (s : HomeStore) : HomeStore :=
  mkHomeStore (m_vdev_failed s) (m_print_checksum s) (m_data_blk_store s)
    (m_index_blk_store s) (m_sb_blk_store s) (m_logdev_blk_store s)
    (m_meta_blk_store s) (m_dev_mgr s)
    (m_cache s) (m_size_avail s) (m_data_pagesz s) (hs_config s)
    (meta_blk_mgr s) v.

(** The store member that belongs to a store type. *)
Definition blk_store_of (t : blkstore_type) (s : HomeStore) : option BlkStore :=
  match t with
  | DATA_STORE => m_data_blk_store s
  | INDEX_STORE => m_index_blk_store s
  | SB_STORE => m_sb_blk_store s
  | LOGDEV_STORE => m_logdev_blk_store s
  | META_STORE => m_meta_blk_store s
  end.

(** ** The state-and-exception monad *)

Inductive outcome (A : Type) : Type :=
| Ret (a : A)
| Throw (e : exn)
| Fault (f : fault).
Arguments Ret {A} a.
Arguments Throw {A} e.
Arguments Fault {A} f.

Definition M (A : Type) : Type := HomeStore -> outcome A * HomeStore.

Definition ret {A} (a : A) : M A := fun s => (Ret a, s).

Definition bind {A B} (c : M A) (k : A -> M B) : M B :=
  fun s =>
    match c s with
    | (Ret a, s') => k a s'
    | (Throw e, s') => (Throw e, s')
    | (Fault f, s') => (Fault f, s')
    end.

Definition throw {A} (e : exn) : M A := fun s => (Throw e, s).
Definition abort {A} (f : fault) : M A := fun s => (Fault f, s).
Definition gets {A} (f : HomeStore -> A) : M A := fun s => (Ret (f s), s).
Definition modify (f : HomeStore -> HomeStore) : M unit := fun s => (Ret tt, f s).

Declare Scope hs_scope.
Delimit Scope hs_scope with hs.
Notation "x <- c ;; k" := (bind c (fun x => k))
  (at level 61, c at next level, right associativity) : hs_scope.
Notation "c ;; k" := (bind c (fun _ => k))
  (at level 61, right associativity) : hs_scope.
Local Open Scope hs_scope.

(** [p.get()->...] on a [unique_ptr] member. *)
Definition deref {A} (member : string) (f : HomeStore -> option A) : M A :=
  fun s =>
    match f s with
    | Some a => (Ret a, s)
    | None => (Fault (null_dereference member), s)
    end.

(** Runs [f] on every element in order; the first exception or fault ends
    the loop. *)
Fixpoint for_each {A} (f : A -> M unit) (l : list A) : M unit :=
  match l with
  | [] => ret tt
  | x :: rest => f x ;; for_each f rest
  end.

(** ** What the facade takes from outside the given sources

    Constants of [homestore_config.hpp] and [meta_interface.hpp], the drive
    interface of the I/O manager, [ResourceMgr::get_cache_size], the queries
    and the allocator of [BlkStore], and the assertion macros: the sources
    use [HS_ASSERT(LOGMSG, ...)] and [HS_ASSERT_CMP(LOGMSG, ...)] without
    defining them, so what a failed one does is left open:
    [logmsg_assert_stops] is [true] where it ends the process and [false]
    where it logs the message and execution goes on. *)
Record Collaborators : Type := {
  logmsg_assert_stops : bool;
  MIN_DISK_CAP_SUPPORTED : Z;
  MAX_SUPPORTED_CAP : Z;
  META_BLK_PAGE_SZ : Z;
  get_attributes : string -> Z -> drive_attributes;
  get_cache_size : Z;
  alloc_contiguous_blk : BlkStore -> Z -> blk_alloc_hints -> BlkAllocStatus * BlkId;
  get_size : BlkStore -> Z;
  get_used_size : BlkStore -> Z
}.

Section Facade.

Variable env : Collaborators.

(** [HS_ASSERT(LOGMSG, cond, msg)] and [HS_ASSERT_CMP(LOGMSG, a, op, b)]: an
    assertion that holds does nothing; one that does not hold stops the run
    or lets it go on, as [logmsg_assert_stops] says. *)
Definition hs_assert (cond : bool) (msg : string) : M unit :=
  if cond || negb (logmsg_assert_stops env) then ret tt
  else abort (assert_failure msg).

(** ** [HomeStore] member functions *)

(** [get_drive_attrs]: the attributes of the first device (the comparison
    with the other devices is compiled in debug builds only). *)
Definition get_drive_attrs (devs : list dev_info) (drive_type : Z) : M drive_attributes :=
  match devs with
  | [] => abort (index_out_of_range "devices")
  | d :: _ => ret (get_attributes env (dev_names d) drive_type)
  end.

(** [init]; logging, the dynamic settings, the debug-only validation and the
    memory release rate leave no trace in the state kept here. *)
Definition init (inp : hs_input_params) : M unit :=
  if (List.length (devices inp) =? 0)%nat then
    throw (std_invalid_argument "null device list")
  else
    attr <- match input_drive_attr inp with
            | Some a => ret a
            | None => get_drive_attrs (devices inp) (device_type inp)
            end ;;
    modify (set_hs_config
              {| input := inp; drive_attr := attr;
                 engine_min_io_size :=
                   Z.min (min_virtual_page_size inp) (u32 (atomic_phys_page_size attr)) |}) ;;
    modify (set_data_pagesz (min_virtual_page_size inp)) ;;
    modify (set_cache (Some {| cache_size := get_cache_size env;
                               cache_page_size := atomic_phys_page_size attr |})) ;;
    modify (set_dev_mgr (Some (DeviceManager_new inp))).

Definition vdev_in_failed_state_exn : exn := std_runtime_error "vdev in failed state".

Definition init_was_failed_exn : exn :=
  homestore_exception "init was failed last time. Should retry it with init" init_failed.

Definition space_not_available_exn : exn :=
  homestore_exception "space not available" space_not_avail.

Definition get_data_blkstore : M BlkStore := deref "m_data_blk_store" m_data_blk_store.
Definition get_index_blkstore : M BlkStore := deref "m_index_blk_store" m_index_blk_store.

Definition get_system_capacity : M cap_attrs :=
  d <- get_data_blkstore ;;
  let used_data := get_used_size env d in
  i <- get_index_blkstore ;;
  let used_index := get_used_size env i in
  let used_total := u64 (used_data + used_index) in
  d' <- get_data_blkstore ;;
  i' <- get_index_blkstore ;;
  ret {| used_data_size := used_data;
         used_index_size := used_index;
         used_total_size := used_total;
         initial_total_size := u64 (get_size env d' + get_size env i') |}.

Definition alloc_sb_blk (sz : Z) : M BlkId :=
  let hints := {| desired_temp := 0; dev_id_hint := -1; is_contiguous := true |} in
  sb <- deref "m_sb_blk_store" m_sb_blk_store ;;
  let (status, bid) := alloc_contiguous_blk env sb sz hints in
  if negb (is_success status) then throw space_not_available_exn
  else
    modify (set_sb_blk_store (Some (record_alloc sz bid sb))) ;;
    ret bid.

(** [m_dev_mgr->get_total_cap()] and [m_dev_mgr->is_first_time_boot()]. *)
Definition get_total_cap : M Z :=
  dm <- deref "m_dev_mgr" m_dev_mgr ;; ret (dm_total_cap dm).

Definition is_first_time_boot : M bool :=
  dm <- deref "m_dev_mgr" m_dev_mgr ;; ret (dm_first_time_boot dm).

Definition vdev_in_failed_state {A} : M A := throw vdev_in_failed_state_exn.

Definition init_was_failed {A} : M A := throw init_was_failed_exn.

Definition create_data_blkstore (vb : option vdev_info_block) : M unit :=
  match vb with
  | None =>
      let blob := {| type := DATA_STORE |} in
      cap <- get_total_cap ;;
      cfg <- gets hs_config ;;
      let size := u64 (90 * cap) / 100 in
      let size := round_up size (phys_page_size (drive_attr cfg)) in
      modify (set_available_size size) ;;
      pagesz <- gets m_data_pagesz ;;
      modify (set_data_blk_store
                (Some (make_blkstore
                         (ctor_create size WRITEBACK_CACHE 0 (plain_blob blob) pagesz
                            "data" true (Some data_completion_cb)))))
  | Some vb =>
      pagesz <- gets m_data_pagesz ;;
      modify (set_data_blk_store
                (Some (make_blkstore
                         (ctor_load vb WRITEBACK_CACHE pagesz "data"
                            (if failed vb then true else false) true
                            (Some data_completion_cb))))) ;;
      if failed vb then
        modify (set_vdev_failed true) ;; vdev_in_failed_state
      else ret tt
  end.

Definition create_index_blkstore (vb : option vdev_info_block) : M unit :=
  match vb with
  | None =>
      let blob := {| type := INDEX_STORE |} in
      cap <- get_total_cap ;;
      cfg <- gets hs_config ;;
      let size := u64 (2 * cap) / 100 in
      let size := round_up size (phys_page_size (drive_attr cfg)) in
      modify (set_index_blk_store
                (Some (make_blkstore
                         (ctor_create size RD_MODIFY_WRITEBACK_CACHE 0 (plain_blob blob)
                            (atomic_phys_page_size (drive_attr cfg)) "index" true None))))
  | Some vb =>
      cfg <- gets hs_config ;;
      modify (set_index_blk_store
                (Some (make_blkstore
                         (ctor_load vb RD_MODIFY_WRITEBACK_CACHE
                            (atomic_phys_page_size (drive_attr cfg)) "index"
                            (if failed vb then true else false) true None)))) ;;
      if failed vb then
        modify (set_vdev_failed true) ;; vdev_in_failed_state
      else ret tt
  end.

(** Deprecated in the source, and still called on first boot. *)
Definition create_sb_blkstore (vb : option vdev_info_block) : M unit :=
  match vb with
  | None =>
      let blob := {| sb_base := {| type := SB_STORE |}; blkid := BlkId_invalid |} in
      cap <- get_total_cap ;;
      cfg <- gets hs_config ;;
      let size := u64 (1 * cap) / 100 in
      let size := round_up size (phys_page_size (drive_attr cfg)) in
      modify (set_sb_blk_store
                (Some (make_blkstore
                         (ctor_create size PASS_THRU
                            (u64 (Z.of_nat (List.length (devices (input cfg))) - 1))
                            (sb_blob blob)
                            (atomic_phys_page_size (drive_attr cfg)) "superblock"
                            false None)))) ;;
      bid <- alloc_sb_blk (atomic_phys_page_size (drive_attr cfg)) ;;
      let blob := {| sb_base := {| type := SB_STORE |}; blkid := bid |} in
      sb <- deref "m_sb_blk_store" m_sb_blk_store ;;
      modify (set_sb_blk_store (Some (update_vb_context blob sb)))
  | Some vb =>
      cfg <- gets hs_config ;;
      modify (set_sb_blk_store
                (Some (make_blkstore
                         (ctor_load vb PASS_THRU
                            (atomic_phys_page_size (drive_attr cfg)) "superblock"
                            false false None)))) ;;
      if failed vb then
        modify (set_vdev_failed true) ;; vdev_in_failed_state
      else if negb (is_valid (ctx_blkid (context_data vb))) then
        init_was_failed
      else
        (* [read_nmirror] is called and its buffers are dropped. *)
        ret tt
  end.

Definition create_meta_blkstore (vb : option vdev_info_block) : M unit :=
  match vb with
  | None =>
      let blob := {| type := META_STORE |} in
      cap <- get_total_cap ;;
      cfg <- gets hs_config ;;
      let size := u64 (1 * cap) / 100 in
      let size := round_up size (phys_page_size (drive_attr cfg)) in
      modify (set_meta_blk_store
                (Some (make_blkstore
                         (ctor_create size PASS_THRU 0 (plain_blob blob)
                            (META_BLK_PAGE_SZ env) "meta" false None)))) ;;
      modify (set_meta_blk_mgr (Some {| meta_sb_blob := None; meta_init := true |}))
  | Some vb =>
      modify (set_meta_blk_store
                (Some (make_blkstore
                         (ctor_load vb PASS_THRU (META_BLK_PAGE_SZ env) "meta"
                            (if failed vb then true else false) false None)))) ;;
      if failed vb then
        modify (set_vdev_failed true) ;; vdev_in_failed_state
      else if negb (is_valid (ctx_blkid (context_data vb))) then
        init_was_failed
      else
        modify (set_meta_blk_mgr
                  (Some {| meta_sb_blob := Some (context_data vb); meta_init := false |}))
  end.

Definition create_logdev_blkstore (vb : option vdev_info_block) : M unit :=
  match vb with
  | None =>
      let blob := {| type := LOGDEV_STORE |} in
      cap <- get_total_cap ;;
      cfg <- gets hs_config ;;
      let size := u64 (1 * cap) / 100 in
      let size := round_up size (phys_page_size (drive_attr cfg)) in
      modify (set_logdev_blk_store
                (Some (make_blkstore
                         (ctor_create size PASS_THRU 0 (plain_blob blob)
                            (atomic_phys_page_size (drive_attr cfg)) "logdev" false
                            (Some process_logdev_completions)))))
  | Some vb =>
      cfg <- gets hs_config ;;
      modify (set_logdev_blk_store
                (Some (make_blkstore
                         (ctor_load vb PASS_THRU
                            (atomic_phys_page_size (drive_attr cfg)) "logdev"
                            (if failed vb then true else false) false
                            (Some process_logdev_completions))))) ;;
      if failed vb then
        modify (set_vdev_failed true) ;; vdev_in_failed_state
      else ret tt
  end.

(** The constructor that belongs to a store type. *)
Definition create_blkstore (t : blkstore_type) : option vdev_info_block -> M unit :=
  match t with
  | DATA_STORE => create_data_blkstore
  | INDEX_STORE => create_index_blkstore
  | SB_STORE => create_sb_blkstore
  | LOGDEV_STORE => create_logdev_blkstore
  | META_STORE => create_meta_blkstore
  end.

Definition new_vdev_found (vb : vdev_info_block) : M unit :=
  let blob_type := ctx_type (context_data vb) in
  if blob_type =? 1 then create_data_blkstore (Some vb)
  else if blob_type =? 2 then create_index_blkstore (Some vb)
  else if blob_type =? 3 then create_sb_blkstore (Some vb)
  else if blob_type =? 4 then create_logdev_blkstore (Some vb)
  else if blob_type =? 5 then create_meta_blkstore (Some vb)
  else hs_assert false "Unknown blkstore_type".

(** Modelled from the spec: [DeviceManager::add_devices] is outside the given
    sources.  It "opens every device, reads its header, and either detects a
    previously initialized fleet and returns false, or writes a fresh layout
    and returns true"; during reattach it invokes the vdev-found callback
    "once per persisted vdev".  An exception of the callback leaves through
    [add_devices].  The failures of [add_devices] itself (a device that does
    not open, drives that do not match, a layout that does not parse) are
    not part of this model: here it stops only where the callback does. *)
Definition add_devices (disk : Media) (on_vdev_found : vdev_info_block -> M unit) : M bool :=
  dm <- deref "m_dev_mgr" m_dev_mgr ;;
  modify (set_dev_mgr (Some (dm_attach disk dm))) ;;
  if media_formatted disk then
    for_each on_vdev_found (media_vdevs disk) ;; ret false
  else ret true.

(** Modelled from the spec: [DeviceManager::init_done], called at the end of
    start-up. *)
Definition init_done : M unit :=
  dm <- deref "m_dev_mgr" m_dev_mgr ;;
  modify (set_dev_mgr (Some (dm_mark_init_done dm))).

Definition init_devices (disk : Media) : M unit :=
  cfg <- gets hs_config ;;
  first_time_boot <- add_devices disk new_vdev_found ;;
  cap <- get_total_cap ;;
  hs_assert (MIN_DISK_CAP_SUPPORTED env <? cap / Z.of_nat (List.length (devices (input cfg))))
    "total_cap / devices.size() > MIN_DISK_CAP_SUPPORTED" ;;
  cap <- get_total_cap ;;
  hs_assert (cap <? MAX_SUPPORTED_CAP env) "total_cap < MAX_SUPPORTED_CAP" ;;
  (if first_time_boot then
     create_data_blkstore None ;;
     create_index_blkstore None ;;
     create_sb_blkstore None ;;
     create_logdev_blkstore None ;;
     create_meta_blkstore None
   else ret tt) ;;
  init_done ;;
  cap <- get_total_cap ;;
  modify (set_resource_total_cap (Some cap)).

Definition data_recovery_done : M unit :=
  first <- is_first_time_boot ;;
  if negb first then
    d <- deref "m_data_blk_store" m_data_blk_store ;;
    modify (set_data_blk_store (Some (recovery_done d)))
  else ret tt.

Definition indx_recovery_done : M unit :=
  first <- is_first_time_boot ;;
  if negb first then
    i <- deref "m_index_blk_store" m_index_blk_store ;;
    modify (set_index_blk_store (Some (recovery_done i)))
  else ret tt.

Definition available_size : M Z := gets m_size_avail.

End Facade.

(** ** The first-boot layout, as a table

    What [init_devices] passes to the five constructors on a first boot, for
    a static configuration [cfg], a total capacity [cap] and a data page size
    [pagesz]. *)

Definition default_share (t : blkstore_type) : Z :=
  match t with
  | DATA_STORE => 90 | INDEX_STORE => 2 | SB_STORE => 1
  | LOGDEV_STORE => 1 | META_STORE => 1
  end.

Definition first_boot_size (cfg : HomeStoreStaticConfig) (cap : Z) (t : blkstore_type) : Z :=
  round_up (u64 (default_share t * cap) / 100) (phys_page_size (drive_attr cfg)).

Definition first_boot_ctor (env : Collaborators) (cfg : HomeStoreStaticConfig)
    (cap pagesz : Z) (t : blkstore_type) : BlkStoreCtor :=
  let atomic := atomic_phys_page_size (drive_attr cfg) in
  match t with
  | DATA_STORE =>
      ctor_create (first_boot_size cfg cap t) WRITEBACK_CACHE 0
        (plain_blob {| type := DATA_STORE |}) pagesz "data" true
        (Some data_completion_cb)
  | INDEX_STORE =>
      ctor_create (first_boot_size cfg cap t) RD_MODIFY_WRITEBACK_CACHE 0
        (plain_blob {| type := INDEX_STORE |}) atomic "index" true None
  | SB_STORE =>
      ctor_create (first_boot_size cfg cap t) PASS_THRU
        (u64 (Z.of_nat (List.length (devices (input cfg))) - 1))
        (sb_blob {| sb_base := {| type := SB_STORE |}; blkid := BlkId_invalid |})
        atomic "superblock" false None
  | LOGDEV_STORE =>
      ctor_create (first_boot_size cfg cap t) PASS_THRU 0
        (plain_blob {| type := LOGDEV_STORE |}) atomic "logdev" false
        (Some process_logdev_completions)
  | META_STORE =>
      ctor_create (first_boot_size cfg cap t) PASS_THRU 0
        (plain_blob {| type := META_STORE |}) (META_BLK_PAGE_SZ env) "meta" false None
  end.

(** ** The reattach, as a table

    What a constructor passes to [BlkStore] for a vdev record [vb] found on
    media, the member it assigns, and whether it goes on to read a root
    [BlkId] from the record's context. *)

Definition load_ctor (env : Collaborators) (cfg : HomeStoreStaticConfig)
    (pagesz : Z) (t : blkstore_type) (vb : vdev_info_block) : BlkStoreCtor :=
  let atomic := atomic_phys_page_size (drive_attr cfg) in
  match t with
  | DATA_STORE =>
      ctor_load vb WRITEBACK_CACHE pagesz "data" (failed vb) true
        (Some data_completion_cb)
  | INDEX_STORE =>
      ctor_load vb RD_MODIFY_WRITEBACK_CACHE atomic "index" (failed vb) true None
  | SB_STORE => ctor_load vb PASS_THRU atomic "superblock" false false None
  | LOGDEV_STORE =>
      ctor_load vb PASS_THRU atomic "logdev" (failed vb) false
        (Some process_logdev_completions)
  | META_STORE =>
      ctor_load vb PASS_THRU (META_BLK_PAGE_SZ env) "meta" (failed vb) false None
  end.

Definition set_blk_store (t : blkstore_type) (v : option BlkStore) : HomeStore -> HomeStore :=
  match t with
  | DATA_STORE => set_data_blk_store v
  | INDEX_STORE => set_index_blk_store v
  | SB_STORE => set_sb_blk_store v
  | LOGDEV_STORE => set_logdev_blk_store v
  | META_STORE => set_meta_blk_store v
  end.

Definition reads_root_blkid (t : blkstore_type) : bool :=
  match t with SB_STORE | META_STORE => true | _ => false end.

(** The hints [alloc_sb_blk] builds. *)
Definition sb_alloc_hints : blk_alloc_hints :=
  {| desired_temp := 0; dev_id_hint := -1; is_contiguous := true |}.

(** Projections of the constructor arguments. *)
Definition ctor_size (c : BlkStoreCtor) : option Z :=
  match c with
  | ctor_create size _ _ _ _ _ _ _ => Some size
  | ctor_load _ _ _ _ _ _ _ => None
  end.

Definition ctor_cache_type (c : BlkStoreCtor) : BlkStoreCacheType :=
  match c with
  | ctor_create _ ct _ _ _ _ _ _ => ct
  | ctor_load _ ct _ _ _ _ _ => ct
  end.

Definition ctor_mirrors (c : BlkStoreCtor) : option Z :=
  match c with
  | ctor_create _ _ m _ _ _ _ _ => Some m
  | ctor_load _ _ _ _ _ _ _ => None
  end.

Definition ctor_blob (c : BlkStoreCtor) : option context_blob :=
  match c with
  | ctor_create _ _ _ b _ _ _ _ => Some b
  | ctor_load _ _ _ _ _ _ _ => None
  end.

Definition ctor_page_size (c : BlkStoreCtor) : Z :=
  match c with
  | ctor_create _ _ _ _ p _ _ _ => p
  | ctor_load _ _ p _ _ _ _ => p
  end.

Definition ctor_vb (c : BlkStoreCtor) : option vdev_info_block :=
  match c with
  | ctor_create _ _ _ _ _ _ _ _ => None
  | ctor_load vb _ _ _ _ _ _ => Some vb
  end.

(** ** States the facade reaches *)

(** Observations of the state that no reattach constructor changes. *)
Record reattach_frame (s s' : HomeStore) : Prop := {
  frame_dev_mgr : m_dev_mgr s' = m_dev_mgr s;
  frame_config : hs_config s' = hs_config s;
  frame_pagesz : m_data_pagesz s' = m_data_pagesz s;
  frame_total_cap : resource_total_cap s' = resource_total_cap s;
  frame_cache : m_cache s' = m_cache s
}.

(** The state from which the vdev-found events are dispatched. *)
Definition attached (disk : Media) (dm : DeviceManager) (s : HomeStore) : HomeStore :=
  set_dev_mgr (Some (dm_attach disk dm)) s.


Section Reached.

Variable env : Collaborators.

(** The store a first-boot constructor builds. *)
Definition store_created (cfg : HomeStoreStaticConfig) (pagesz cap : Z)
    (t : blkstore_type) : BlkStore :=
  make_blkstore (first_boot_ctor env cfg cap pagesz t).

(** A state that carries a given configuration, data page size and total
    capacity. *)
Definition configured (cfg : HomeStoreStaticConfig) (pagesz cap : Z) (s : HomeStore) : Prop :=
  hs_config s = cfg /\ m_data_pagesz s = pagesz
  /\ exists dm, m_dev_mgr s = Some dm /\ dm_total_cap dm = cap.

(** The outcome of the request for the block of the boot record. *)
Definition sb_root_alloc (cfg : HomeStoreStaticConfig) (pagesz cap : Z)
  : BlkAllocStatus * BlkId :=
  alloc_contiguous_blk env (store_created cfg pagesz cap SB_STORE)
    (atomic_phys_page_size (drive_attr cfg)) sb_alloc_hints.

(** The superblock store once the block of the boot record is allocated. *)
Definition sb_store_with_root (cfg : HomeStoreStaticConfig) (pagesz cap : Z) : BlkStore :=
  update_vb_context
    {| sb_base := {| type := SB_STORE |}; blkid := snd (sb_root_alloc cfg pagesz cap) |}
    (record_alloc (atomic_phys_page_size (drive_attr cfg)) (snd (sb_root_alloc cfg pagesz cap))
       (store_created cfg pagesz cap SB_STORE)).

(** The two capacity assertions of [init_devices]. *)
Definition capacity_supported (cfg : HomeStoreStaticConfig) (cap : Z) : Prop :=
  MIN_DISK_CAP_SUPPORTED env < cap / Z.of_nat (List.length (devices (input cfg)))
  /\ cap < MAX_SUPPORTED_CAP env.

(** The state at the [throw] when the block of the boot record is refused on
    a first boot: the data, index and superblock stores are constructed. *)
Definition first_boot_no_space_state (disk : Media) (s : HomeStore) (dm : DeviceManager)
  : HomeStore :=
  let cfg := hs_config s in
  let pagesz := m_data_pagesz s in
  let cap := media_total_cap disk in
  set_sb_blk_store (Some (store_created cfg pagesz cap SB_STORE))
    (set_index_blk_store (Some (store_created cfg pagesz cap INDEX_STORE))
       (set_data_blk_store (Some (store_created cfg pagesz cap DATA_STORE))
          (set_available_size (first_boot_size cfg cap DATA_STORE)
             (set_dev_mgr (Some (dm_attach disk dm)) s)))).

(** The state in which [init_devices] leaves a fresh engine when the block is
    granted. *)
Definition first_boot_state (disk : Media) (s : HomeStore) (dm : DeviceManager) : HomeStore :=
  let cfg := hs_config s in
  let pagesz := m_data_pagesz s in
  let cap := media_total_cap disk in
  set_resource_total_cap (Some cap)
    (set_dev_mgr (Some (dm_mark_init_done (dm_attach disk dm)))
       (set_meta_blk_mgr (Some {| meta_sb_blob := None; meta_init := true |})
          (set_meta_blk_store (Some (store_created cfg pagesz cap META_STORE))
             (set_logdev_blk_store (Some (store_created cfg pagesz cap LOGDEV_STORE))
                (set_sb_blk_store (Some (sb_store_with_root cfg pagesz cap))
                   (set_sb_blk_store
                      (Some (record_alloc (atomic_phys_page_size (drive_attr cfg))
                               (snd (sb_root_alloc cfg pagesz cap))
                               (store_created cfg pagesz cap SB_STORE)))
                      (first_boot_no_space_state disk s dm))))))).

(** The state once the reattach constructor for [vb] has assigned its store. *)
Definition store_loaded (t : blkstore_type) (vb : vdev_info_block) (s : HomeStore) : HomeStore :=
  set_blk_store t
    (Some (make_blkstore (load_ctor env (hs_config s) (m_data_pagesz s) t vb))) s.

End Reached.

(** ** Further members and observations *)

(** [get_data_pagesz] and [print_checksum]. *)
Definition get_data_pagesz : M Z := gets m_data_pagesz.
Definition print_checksum : M bool := gets m_print_checksum.

(** The end of a start-up that returns: the device manager is told
    [init_done] and [ResourceMgr::set_total_cap] publishes the capacity. *)
Definition started (disk : Media) (dm : DeviceManager) (s : HomeStore) : HomeStore :=
  set_resource_total_cap (Some (media_total_cap disk))
    (set_dev_mgr (Some (dm_mark_init_done (dm_attach disk dm))) s).

(** A record whose constructor returns: it is not failed, its tag is one of
    the five, and where a root [BlkId] is read it is valid. *)
Definition loads_cleanly (vb : vdev_info_block) : bool :=
  negb (failed vb)
  && match blkstore_type_of_val (ctx_type (context_data vb)) with
     | Some t => negb (reads_root_blkid t) || is_valid (ctx_blkid (context_data vb))
     | None => false
     end.

(** The last record of the catalog that carries the tag of [t]. *)
Fixpoint last_of_type (t : blkstore_type) (l : list vdev_info_block)
  : option vdev_info_block :=
  match l with
  | [] => None
  | vb :: rest =>
      match last_of_type t rest with
      | Some v => Some v
      | None =>
          if ctx_type (context_data vb) =? blkstore_type_val t then Some vb else None
      end
  end.

(** The blob of a store as last written: by [update_vb_context] if it was
    called, else by the constructor. *)
Definition sb_store_blob (sb : BlkStore) : option sb_blkstore_blob :=
  match bs_vb_context sb with
  | Some b => Some b
  | None =>
      match ctor_blob (bs_ctor sb) with
      | Some (sb_blob b) => Some b
      | _ => None
      end
  end.

(** Modelled from the spec: the device manager is outside the given sources;
    it "persists the record" of a vdev with its [context_blob], and
    [update_vb_context] "rewrites the vdev's [context_data]".  This is the
    record found at the next start for a store whose blob is [b], while the
    vdev is healthy. *)
Definition sb_vdev_record (id : Z) (b : sb_blkstore_blob) : vdev_info_block :=
  {| vdev_id := id;
     context_data := {| ctx_type := blkstore_type_val (type (sb_base b));
                        ctx_blkid := blkid b |};
     failed := false |}.

(** Further projections of the constructor arguments. *)
Definition ctor_name (c : BlkStoreCtor) : string :=
  match c with
  | ctor_create _ _ _ _ _ n _ _ => n
  | ctor_load _ _ _ n _ _ _ => n
  end.

Definition ctor_auto_recovery (c : BlkStoreCtor) : bool :=
  match c with
  | ctor_create _ _ _ _ _ _ a _ => a
  | ctor_load _ _ _ _ _ a _ => a
  end.

Definition ctor_comp_cb (c : BlkStoreCtor) : option comp_callback :=
  match c with
  | ctor_create _ _ _ _ _ _ _ cb => cb
  | ctor_load _ _ _ _ _ _ cb => cb
  end.

Definition ctor_is_failed (c : BlkStoreCtor) : option bool :=
  match c with
  | ctor_create _ _ _ _ _ _ _ _ => None
  | ctor_load _ _ _ _ f _ _ => Some f
  end.

(** The two capacity assertions of [init_devices], as the code tests them. *)
Definition capacity_checks (env : Collaborators) (cfg : HomeStoreStaticConfig) (cap : Z)
  : bool :=
  (MIN_DISK_CAP_SUPPORTED env <? cap / Z.of_nat (List.length (devices (input cfg))))
  && (cap <? MAX_SUPPORTED_CAP env).

(** The five first-boot sizes together. *)
Definition first_boot_total (cfg : HomeStoreStaticConfig) (cap : Z) : Z :=
  first_boot_size cfg cap DATA_STORE + first_boot_size cfg cap INDEX_STORE
  + first_boot_size cfg cap SB_STORE + first_boot_size cfg cap LOGDEV_STORE
  + first_boot_size cfg cap META_STORE.

(** ** A concrete engine for the scenarios

    Two devices of 1 GiB with 4 KiB pages, an allocator that hands out
    consecutive pages of one chunk until the store is full, and stores that
    report the size they were created with. *)

Definition demo_size (b : BlkStore) : Z :=
  match ctor_size (bs_ctor b) with Some sz => sz | None => 0 end.

Definition demo_used_size (b : BlkStore) : Z :=
  fold_right (fun a acc => fst a + acc) 0 (bs_allocated b).

Definition demo_alloc (b : BlkStore) (sz : Z) (h : blk_alloc_hints)
  : BlkAllocStatus * BlkId :=
  if demo_used_size b + sz <=? demo_size b then
    (SUCCESS, BlkId_at 0 (demo_used_size b / 4096) (sz / 4096))
  else (ALLOC_FAILED 1, BlkId_invalid).

Definition demo_env : Collaborators :=
  {| logmsg_assert_stops := false;
     MIN_DISK_CAP_SUPPORTED := 2 ^ 20;
     MAX_SUPPORTED_CAP := 2 ^ 50;
     META_BLK_PAGE_SZ := 512;
     get_attributes := fun _ _ => {| phys_page_size := 4096; atomic_phys_page_size := 4096 |};
     get_cache_size := 2 ^ 24;
     alloc_contiguous_blk := demo_alloc;
     get_size := demo_size;
     get_used_size := demo_used_size |}.

(** The same engine where a failed assertion stops the process. *)
Definition strict_env : Collaborators :=
  {| logmsg_assert_stops := true;
     MIN_DISK_CAP_SUPPORTED := 2 ^ 20;
     MAX_SUPPORTED_CAP := 2 ^ 50;
     META_BLK_PAGE_SZ := 512;
     get_attributes := fun _ _ => {| phys_page_size := 4096; atomic_phys_page_size := 4096 |};
     get_cache_size := 2 ^ 24;
     alloc_contiguous_blk := demo_alloc;
     get_size := demo_size;
     get_used_size := demo_used_size |}.

(** The same engine with a superblock allocator that is out of space. *)
Definition full_env : Collaborators :=
  {| logmsg_assert_stops := false;
     MIN_DISK_CAP_SUPPORTED := 2 ^ 20;
     MAX_SUPPORTED_CAP := 2 ^ 50;
     META_BLK_PAGE_SZ := 512;
     get_attributes := fun _ _ => {| phys_page_size := 4096; atomic_phys_page_size := 4096 |};
     get_cache_size := 2 ^ 24;
     alloc_contiguous_blk := fun _ _ _ => (ALLOC_FAILED 1, BlkId_invalid);
     get_size := demo_size;
     get_used_size := demo_used_size |}.

Definition demo_input : hs_input_params :=
  {| devices := [ {| dev_names := "/dev/a" |}; {| dev_names := "/dev/b" |} ];
     device_type := 0;
     input_drive_attr := None;
     min_virtual_page_size := 8192;
     is_restricted_mode := false |}.

Definition fresh_media : Media :=
  {| media_formatted := false; media_total_cap := 2 ^ 31; media_vdevs := [] |}.

Definition found_vdev (id : Z) (t : blkstore_type) (root : BlkId) (is_failed : bool)
  : vdev_info_block :=
  {| vdev_id := id;
     context_data := {| ctx_type := blkstore_type_val t; ctx_blkid := root |};
     failed := is_failed |}.

(** Media of an earlier boot on which the INDEX vdev is marked failed. *)
Definition index_failed_media : Media :=
  {| media_formatted := true;
     media_total_cap := 2 ^ 31;
     media_vdevs :=
       [ found_vdev 0 DATA_STORE BlkId_invalid false;
         found_vdev 1 INDEX_STORE BlkId_invalid true;
         found_vdev 2 LOGDEV_STORE BlkId_invalid false;
         found_vdev 3 META_STORE (BlkId_at 0 0 1) false ] |}.

(** Media of an earlier boot with four healthy vdevs. *)
Definition healthy_media : Media :=
  {| media_formatted := true;
     media_total_cap := 2 ^ 31;
     media_vdevs :=
       [ found_vdev 0 DATA_STORE BlkId_invalid false;
         found_vdev 1 INDEX_STORE BlkId_invalid false;
         found_vdev 2 LOGDEV_STORE BlkId_invalid false;
         found_vdev 3 META_STORE (BlkId_at 0 0 1) false ] |}.

(** Media of an earlier boot whose META vdev never got its root block. *)
Definition unrooted_meta_media : Media :=
  {| media_formatted := true;
     media_total_cap := 2 ^ 31;
     media_vdevs :=
       [ found_vdev 0 DATA_STORE BlkId_invalid false;
         found_vdev 3 META_STORE BlkId_invalid false;
         found_vdev 1 INDEX_STORE BlkId_invalid false ] |}.


(** Media of an earlier boot whose second record carries a tag that is none
    of the five. *)
Definition unknown_tag_media : Media :=
  {| media_formatted := true;
     media_total_cap := 2 ^ 31;
     media_vdevs :=
       [ found_vdev 0 DATA_STORE BlkId_invalid false;
         {| vdev_id := 9;
            context_data := {| ctx_type := 7; ctx_blkid := BlkId_invalid |};
            failed := false |};
         found_vdev 1 INDEX_STORE BlkId_invalid false ] |}.

(** The device manager [init] builds for [demo_input]. *)
Definition demo_dev_mgr : DeviceManager := DeviceManager_new demo_input.

(** The engine after [init]. *)
Definition booted (env : Collaborators) (inp : hs_input_params) : HomeStore :=
  snd (init env inp HomeStore_default).

End Engine.

Module LogStore.

(** ** Data model of a log store *)

(** [logstore_seq_num_t] is a signed 64-bit integer. *)
Definition logstore_seq_num_min : Z := - 2 ^ 63.
Definition logstore_seq_num_max : Z := 2 ^ 63 - 1.

Definition invalid_lsn : Z := logstore_seq_num_min.

(** Modelled from the spec: [logdev_key] is declared in
    [log_store_internal.hpp], outside the given sources; it is "batch id +
    intra-batch offset", "the unit of device-side truncation".  Keys are
    compared by batch, then by offset. *)
Record logdev_key : Set := { batch_id : Z; offset_in_batch : Z }.

(** Modelled from the spec: the order of [logdev_key]. *)
Definition logdev_key_leb (a b : logdev_key) : bool :=
  (batch_id a <? batch_id b)
  || ((batch_id a =? batch_id b) && (offset_in_batch a <=? offset_in_batch b)).

(** Modelled from the spec: the smaller of two keys. *)
Definition logdev_key_min (a b : logdev_key) : logdev_key :=
  if logdev_key_leb a b then a else b.

(** Modelled from the spec: a truncation barrier is "an {LSN, logdev_key}
    pair aligned to a flush batch boundary". *)
Record seq_ld_key_pair : Set := { barrier_lsn : Z; barrier_key : logdev_key }.

(** Modelled from the spec: the safe-truncation boundary "{lsn, logdev_key}";
    its key is invalid ([None]) when the store "does not have any valid
    logdev key to truncate". *)
Record truncation_info : Set := { seq_num : Z; ld_key : option logdev_key }.

(** Modelled from the spec: the status of a record slot. *)
Inductive slot_status : Set :=
| EMPTY | ISSUED | COMPLETED | TRUNCATED | GAP_FILLED.

(** Modelled from the spec: [sisl::StreamTracker] is outside the given
    sources; it is "a dense stream tracker mapping contiguous LSNs starting at
    the truncation floor to record slots".  [st_first] is the first LSN that
    has a slot; every LSN below it is TRUNCATED, every LSN past the last slot
    is EMPTY. *)
Record StreamTracker : Set := { st_first : Z; st_slots : list slot_status }.

(** Modelled from the spec: the status of the slot of [lsn]; "any slot <=
    [truncated_upto] is TRUNCATED". *)
Definition slot_at (t : StreamTracker) (lsn : Z) : slot_status :=
  if lsn <? st_first t then TRUNCATED
  else nth (Z.to_nat (lsn - st_first t)) (st_slots t) EMPTY.

(** The members of [HomeLogStore] that carry data. *)
Record HomeLogStore : Set := {
  m_store_id : Z;
  m_records : StreamTracker;
  m_append_mode : bool;
  m_seq_num : Z;
  m_flush_batch_max_lsn : Z;
  m_truncation_barriers : list seq_ld_key_pair;
  m_safe_truncation_boundary : truncation_info
}.

(** ** Member functions defined in the header *)

Definition truncated_upto (s : HomeLogStore) : Z :=
  let ts := seq_num (m_safe_truncation_boundary s) in
  if ts =? logstore_seq_num_max then -1 else ts.

Definition get_store_id (s : HomeLogStore) : Z := m_store_id s.

(** [seq_num()]; the plain name is the field of [truncation_info]. *)
Definition get_seq_num (s : HomeLogStore) : Z := m_seq_num s.

(** ** Member functions declared in the header *)

(** Modelled from the spec: a slot counts for the completed watermark when it
    "is COMPLETED or GAP-FILLED". *)
Definition is_completed (st : slot_status) : bool :=
  match st with COMPLETED | GAP_FILLED => true | _ => false end.

(** Modelled from the spec: a slot counts for the issued watermark when its
    sequence number is "already issued" (log_store.hpp:230): the write is
    ISSUED, or it is past that and COMPLETED, or the slot is GAP-FILLED,
    since [fill_gap] "ensures that get_contiguous_issued and completed
    seq_num methods move forward" (log_store.hpp:180-182). *)
Definition is_issued (st : slot_status) : bool :=
  match st with ISSUED | COMPLETED | GAP_FILLED => true | _ => false end.

(** Modelled from the spec: the number of leading slots that satisfy [p]. *)
Fixpoint contiguous_run (p : slot_status -> bool) (slots : list slot_status) : nat :=
  match slots with
  | [] => O
  | st :: rest => if p st then S (contiguous_run p rest) else O
  end.

(** Modelled from the spec: the scan from [from + 1] upwards over the slots
    that satisfy [p]; it returns the last sequence number reached. *)
Definition contiguous_upto (p : slot_status -> bool) (t : StreamTracker) (from : Z) : Z :=
  if from + 1 <? st_first t then from
  else from + Z.of_nat (contiguous_run p (skipn (Z.to_nat (from + 1 - st_first t)) (st_slots t))).

(** Modelled from the spec: [get_contiguous_completed_seq_num] is declared
    here and defined in [log_store.cpp], outside the given sources.  The
    search "begins (exclusive)" at [from] and returns the sequence number
    "upto which contiguous number is completed (inclusive)"; a slot counts as
    completed when it is COMPLETED or GAP-FILLED. *)
Definition get_contiguous_completed_seq_num (s : HomeLogStore) (from : Z) : Z :=
  contiguous_upto is_completed (m_records s) from.

(** Modelled from the spec: [get_contiguous_issued_seq_num] is declared here
    and defined in [log_store.cpp]; it is the same scan over the slots that
    are already issued, and "if it is same as input from, then there are no
    more new contiguous issued" (log_store.hpp:230-236). *)
Definition get_contiguous_issued_seq_num (s : HomeLogStore) (from : Z) : Z :=
  contiguous_upto is_issued (m_records s) from.

(** Modelled from the spec: [pre_device_truncation] is declared here and
    defined in [log_store.cpp]; it "returns this store's current safe
    boundary, or an invalid boundary if it has none yet". *)
Definition pre_device_truncation (s : HomeLogStore) : truncation_info :=
  m_safe_truncation_boundary s.

(** Modelled from the spec: [post_device_truncation] is declared here and
    defined in [log_store.cpp]; it "confirms the device has actually
    truncated up to [ld_key]; drops stale barriers". *)
Definition post_device_truncation (trunc_upto_key : logdev_key) (s : HomeLogStore) : HomeLogStore :=
  {| m_store_id := m_store_id s;
     m_records := m_records s;
     m_append_mode := m_append_mode s;
     m_seq_num := m_seq_num s;
     m_flush_batch_max_lsn := m_flush_batch_max_lsn s;
     m_truncation_barriers :=
       filter (fun b => negb (logdev_key_leb (barrier_key b) trunc_upto_key))
         (m_truncation_barriers s);
     m_safe_truncation_boundary := m_safe_truncation_boundary s |}.

(** ** The safe-truncation protocol *)

(** Modelled from the spec: the log device is outside the given sources; of
    its state only the keys it was asked to truncate to are kept, latest
    first. *)
Record LogDev : Set := { truncate_calls : list logdev_key }.

(** Modelled from the spec: [Log Device::truncate(logdev_key)]. *)
Definition truncate (k : logdev_key) (d : LogDev) : LogDev :=
  {| truncate_calls := k :: truncate_calls d |}.

(** Modelled from the spec: step 2 of the protocol, "the engine takes the min
    over all stores sharing one Log Device"; a store that returns an invalid
    boundary is ignored ("the caller should simply ignore this return
    value"). *)
Fixpoint min_safe_ld_key (stores : list HomeLogStore) : option logdev_key :=
  match stores with
  | [] => None
  | s :: rest =>
      match ld_key (pre_device_truncation s), min_safe_ld_key rest with
      | None, m => m
      | Some k, None => Some k
      | Some k, Some m => Some (logdev_key_min k m)
      end
  end.

(** Modelled from the spec: one round of the protocol.  "1. Each store
    returns its [pre_device_truncation()] boundary.  2. The engine takes the
    min over all stores sharing one Log Device.  3. It invokes
    [Log Device::truncate(min_ld_key)].  4. On success it calls each store's
    [post_device_truncation(min_ld_key)]." *)
Definition device_truncate (d : LogDev) (stores : list HomeLogStore)
  : LogDev * list HomeLogStore :=
  match min_safe_ld_key stores with
  | None => (d, stores)
  | Some min_ld_key =>
      (truncate min_ld_key d, map (post_device_truncation min_ld_key) stores)
  end.

(** A store whose slots from sequence number 0 on have the given statuses. *)
Definition store_with_slots (slots : list slot_status) : HomeLogStore :=
  {| m_store_id := 1; m_records := {| st_first := 0; st_slots := slots |};
     m_append_mode := false; m_seq_num := Z.of_nat (List.length slots);
     m_flush_batch_max_lsn := invalid_lsn; m_truncation_barriers := [];
     m_safe_truncation_boundary := {| seq_num := -1; ld_key := None |} |}.

(** A store whose safe boundary is LSN [lsn] at key ([batch], [offset]). *)
Definition store_with_boundary (id lsn batch offset : Z) : HomeLogStore :=
  {| m_store_id := id; m_records := {| st_first := lsn + 1; st_slots := [] |};
     m_append_mode := false; m_seq_num := lsn + 1;
     m_flush_batch_max_lsn := invalid_lsn; m_truncation_barriers := [];
     m_safe_truncation_boundary :=
       {| seq_num := lsn;
          ld_key := Some {| batch_id := batch; offset_in_batch := offset |} |} |}.

End LogStore.

(** * Properties *)

(** ** Arithmetic of the machine integers and of [round_up] *)

Lemma u64_small (z : Z) : 0 <= z < 2 ^ 64 -> u64 z = z.
Proof. intro H. unfold u64. now apply Z.mod_small. Qed.

Lemma u64_range (z : Z) : 0 <= u64 z < 2 ^ 64.
Proof. unfold u64. apply Z.mod_pos_bound. lia. Qed.

Lemma round_up_multiple (n m : Z) : (m | round_up n m).
Proof. unfold round_up. exists ((n + m - 1) / m). reflexivity. Qed.

Lemma round_up_bounds (n m : Z) : 0 < m -> n <= round_up n m < n + m.
Proof.
  intro Hm. unfold round_up.
  pose proof (Z.div_mod (n + m - 1) m ltac:(lia)) as Hdm.
  pose proof (Z.mod_pos_bound (n + m - 1) m Hm) as Hr.
  nia.
Qed.

Lemma round_up_least (n m k : Z) :
  0 < m -> (m | k) -> n <= k -> round_up n m <= k.
Proof.
  intros Hm [q ->] Hle.
  pose proof (round_up_bounds n m Hm) as [_ Hlt].
  destruct (round_up_multiple n m) as [r Hr]. rewrite Hr in *.
  assert (r < q + 1) by nia. nia.
Qed.

(** ** The log store *)

Section LogStoreProperties.

Import LogStore.

(** *** Contiguous sequence numbers *)

Lemma contiguous_run_all (p : slot_status -> bool) (l : list slot_status) (i : nat) :
  (i < contiguous_run p l)%nat -> p (nth i l EMPTY) = true.
Proof.
  revert i. induction l as [|st rest IH]; simpl; intros i Hi; [lia|].
  destruct (p st) eqn:Hp; [|lia].
  destruct i as [|i]; [exact Hp|]. apply IH. lia.
Qed.

Lemma contiguous_run_stop (p : slot_status -> bool) (l : list slot_status) :
  p EMPTY = false -> p (nth (contiguous_run p l) l EMPTY) = false.
Proof.
  intro He. induction l as [|st rest IH]; simpl; [exact He|].
  destruct (p st) eqn:Hp; [exact IH|exact Hp].
Qed.

Lemma contiguous_upto_ge (p : slot_status -> bool) (t : StreamTracker) (from : Z) :
  from <= contiguous_upto p t from.
Proof. unfold contiguous_upto. destruct (from + 1 <? st_first t); lia. Qed.

Lemma contiguous_upto_all (p : slot_status -> bool) (t : StreamTracker) (from j : Z) :
  from < j <= contiguous_upto p t from -> p (slot_at t j) = true.
Proof.
  unfold contiguous_upto, slot_at.
  destruct (from + 1 <? st_first t) eqn:Hlow; [lia|].
  apply Z.ltb_ge in Hlow. intros [Hlo Hhi].
  destruct (j <? st_first t) eqn:Hj; [apply Z.ltb_lt in Hj; lia|].
  set (n := Z.to_nat (from + 1 - st_first t)) in *.
  replace (Z.to_nat (j - st_first t)) with (n + Z.to_nat (j - from - 1))%nat by lia.
  rewrite <- nth_skipn. apply contiguous_run_all. lia.
Qed.

Lemma contiguous_upto_next (p : slot_status -> bool) (t : StreamTracker) (from : Z) :
  p EMPTY = false -> p TRUNCATED = false ->
  p (slot_at t (contiguous_upto p t from + 1)) = false.
Proof.
  intros He Ht. unfold contiguous_upto, slot_at.
  destruct (from + 1 <? st_first t) eqn:Hlow; [rewrite Hlow; exact Ht|].
  apply Z.ltb_ge in Hlow.
  set (n := Z.to_nat (from + 1 - st_first t)).
  set (r := contiguous_run p (skipn n (st_slots t))).
  destruct (from + Z.of_nat r + 1 <? st_first t) eqn:Hj; [apply Z.ltb_lt in Hj; lia|].
  replace (Z.to_nat (from + Z.of_nat r + 1 - st_first t)) with (n + r)%nat by lia.
  rewrite <- nth_skipn. apply contiguous_run_stop, He.
Qed.

(** C1, as amended.  For every log store and every [from],
    [get_contiguous_completed_seq_num from] returns a [k >= from] such that
    every slot in (from, k] is COMPLETED or GAP-FILLED, and [k] is the largest
    such value: slot [k + 1] is neither, so no larger bound has all its slots
    completed.  The same holds of [get_contiguous_issued_seq_num] for the
    slots that are already issued: their status is ISSUED, COMPLETED or
    GAP-FILLED. *)
Theorem get_contiguous_seq_num_largest (s : HomeLogStore) (from : Z) :
  let completed j :=
    slot_at (m_records s) j = COMPLETED \/ slot_at (m_records s) j = GAP_FILLED in
  let issued j :=
    slot_at (m_records s) j = ISSUED \/ slot_at (m_records s) j = COMPLETED
    \/ slot_at (m_records s) j = GAP_FILLED in
  let kc := get_contiguous_completed_seq_num s from in
  let ki := get_contiguous_issued_seq_num s from in
  (from <= kc
   /\ (forall j, from < j <= kc -> completed j)
   /\ (forall k, from <= k -> (forall j, from < j <= k -> completed j) -> k <= kc))
  /\ (from <= ki
      /\ (forall j, from < j <= ki -> issued j)
      /\ (forall k, from <= k -> (forall j, from < j <= k -> issued j) -> k <= ki)).
Proof.
  cbv zeta. unfold get_contiguous_completed_seq_num, get_contiguous_issued_seq_num.
  split; (split; [apply contiguous_upto_ge|split]).
  - intros j Hj. apply contiguous_upto_all in Hj.
    destruct (slot_at (m_records s) j); simpl in Hj; auto; discriminate.
  - intros k _ Hall.
    destruct (Z_le_gt_dec k (contiguous_upto is_completed (m_records s) from))
      as [Hle|Hgt]; [exact Hle|exfalso].
    pose proof (contiguous_upto_ge is_completed (m_records s) from) as Hge.
    pose proof (contiguous_upto_next is_completed (m_records s) from eq_refl eq_refl) as Hn.
    destruct (Hall (contiguous_upto is_completed (m_records s) from + 1) ltac:(lia))
      as [Hc|Hc]; rewrite Hc in Hn; discriminate.
  - intros j Hj. apply contiguous_upto_all in Hj.
    destruct (slot_at (m_records s) j); simpl in Hj; auto; discriminate.
  - intros k _ Hall.
    destruct (Z_le_gt_dec k (contiguous_upto is_issued (m_records s) from))
      as [Hle|Hgt]; [exact Hle|exfalso].
    pose proof (contiguous_upto_ge is_issued (m_records s) from) as Hge.
    pose proof (contiguous_upto_next is_issued (m_records s) from eq_refl eq_refl) as Hn.
    destruct (Hall (contiguous_upto is_issued (m_records s) from + 1) ltac:(lia))
      as [Hc|[Hc|Hc]]; rewrite Hc in Hn; discriminate.
Qed.

(** C1, as stated, does not hold of the issued watermark.  Sequence numbers
    0 and 2 are issued and the gap at 1 is filled: the issued scan from -1
    moves over the filled gap and returns 2, so slot 1 lies in (from, k]
    and its status is GAP-FILLED, not ISSUED. *)
Lemma issued_scan_passes_filled_gap_counterexample :
  let s := store_with_slots [ISSUED; GAP_FILLED; ISSUED] in
  get_contiguous_issued_seq_num s (-1) = 2
  /\ slot_at (m_records s) 1 = GAP_FILLED
  /\ ~ (forall j, -1 < j <= get_contiguous_issued_seq_num s (-1) ->
         slot_at (m_records s) j = ISSUED).
Proof.
  cbv zeta. split; [reflexivity|]. split; [reflexivity|].
  intro H. specialize (H 1). change (-1 < 1 <= 2 -> GAP_FILLED = ISSUED) in H.
  assert (Hj : -1 < 1 <= 2) by lia. specialize (H Hj). discriminate.
Qed.

(** Scenario "gap fill advances watermark": LSNs 0, 1, 3, 4 are written, then
    the gap at 2 is filled. *)
Example gap_fill_advances_watermark :
  let store slots :=
    {| m_store_id := 0; m_records := {| st_first := 0; st_slots := slots |};
       m_append_mode := false; m_seq_num := 5;
       m_flush_batch_max_lsn := invalid_lsn; m_truncation_barriers := [];
       m_safe_truncation_boundary :=
         {| seq_num := logstore_seq_num_max; ld_key := None |} |} in
  get_contiguous_completed_seq_num
    (store [COMPLETED; COMPLETED; EMPTY; COMPLETED; COMPLETED]) (-1) = 1
  /\ get_contiguous_completed_seq_num
       (store [COMPLETED; COMPLETED; GAP_FILLED; COMPLETED; COMPLETED]) (-1) = 4
  /\ truncated_upto (store []) = -1.
Proof. repeat split. Qed.

(** *** The safe-truncation protocol *)

Lemma logdev_key_leb_refl (a : logdev_key) : logdev_key_leb a a = true.
Proof.
  unfold logdev_key_leb. rewrite Z.eqb_refl, Z.leb_refl, Z.ltb_irrefl. reflexivity.
Qed.

Lemma logdev_key_leb_spec (a b : logdev_key) :
  logdev_key_leb a b = true <->
  batch_id a < batch_id b
  \/ (batch_id a = batch_id b /\ offset_in_batch a <= offset_in_batch b).
Proof.
  unfold logdev_key_leb.
  rewrite orb_true_iff, andb_true_iff, Z.ltb_lt, Z.eqb_eq, Z.leb_le. reflexivity.
Qed.

Lemma logdev_key_leb_trans (a b c : logdev_key) :
  logdev_key_leb a b = true -> logdev_key_leb b c = true -> logdev_key_leb a c = true.
Proof. rewrite !logdev_key_leb_spec. lia. Qed.

Lemma logdev_key_leb_total (a b : logdev_key) :
  logdev_key_leb a b = false -> logdev_key_leb b a = true.
Proof.
  intro H. apply logdev_key_leb_spec.
  destruct (logdev_key_leb_spec a b) as [_ Hb].
  destruct (Z_lt_le_dec (batch_id b) (batch_id a)) as [Hlt|Hle]; [now left|].
  right. split.
  - destruct (Z.eq_dec (batch_id a) (batch_id b)) as [He|Hne]; [now symmetry|].
    rewrite Hb in H; [discriminate|lia].
  - destruct (Z_le_gt_dec (offset_in_batch b) (offset_in_batch a)) as [Ho|Ho]; [exact Ho|].
    rewrite Hb in H; [discriminate|].
    destruct (Z.eq_dec (batch_id a) (batch_id b)); lia.
Qed.

Lemma logdev_key_min_le_l (a b : logdev_key) : logdev_key_leb (logdev_key_min a b) a = true.
Proof.
  unfold logdev_key_min. destruct (logdev_key_leb a b) eqn:H.
  - apply logdev_key_leb_refl.
  - now apply logdev_key_leb_total.
Qed.

Lemma logdev_key_min_le_r (a b : logdev_key) : logdev_key_leb (logdev_key_min a b) b = true.
Proof.
  unfold logdev_key_min. destruct (logdev_key_leb a b) eqn:H.
  - exact H.
  - apply logdev_key_leb_refl.
Qed.

Lemma min_safe_ld_key_lower_bound (stores : list HomeLogStore) :
  forall k, min_safe_ld_key stores = Some k ->
  forall s b, In s stores -> ld_key (pre_device_truncation s) = Some b ->
  logdev_key_leb k b = true.
Proof.
  induction stores as [|s0 rest IH]; simpl; intros k Hk s b Hin Hb; [contradiction|].
  destruct (ld_key (pre_device_truncation s0)) as [k0|] eqn:H0;
    destruct (min_safe_ld_key rest) as [m|] eqn:Hm.
  - injection Hk as <-. destruct Hin as [<-|Hin].
    + rewrite H0 in Hb. injection Hb as <-. apply logdev_key_min_le_l.
    + eapply logdev_key_leb_trans; [apply logdev_key_min_le_r|].
      eapply IH; eauto.
  - injection Hk as <-. destruct Hin as [<-|Hin].
    + rewrite H0 in Hb. injection Hb as <-. apply logdev_key_leb_refl.
    + destruct rest as [|s1 rest']; [contradiction|].
      exfalso. clear IH H0.
      revert s Hin Hb Hm. generalize (s1 :: rest') as l.
      induction l as [|x l IHl]; simpl; intros s Hin Hb Hm; [contradiction|].
      destruct Hin as [<-|Hin].
      * rewrite Hb in Hm. destruct (min_safe_ld_key l); discriminate.
      * destruct (ld_key (pre_device_truncation x)); [destruct (min_safe_ld_key l); discriminate|].
        eapply IHl; eauto.
  - destruct Hin as [<-|Hin]; [congruence|]. eapply IH; eauto.
  - discriminate.
Qed.

Lemma min_safe_ld_key_attained (stores : list HomeLogStore) :
  forall k, min_safe_ld_key stores = Some k ->
  exists s, In s stores /\ ld_key (pre_device_truncation s) = Some k.
Proof.
  induction stores as [|s0 rest IH]; simpl; intros k Hk; [discriminate|].
  destruct (ld_key (pre_device_truncation s0)) as [k0|] eqn:H0;
    destruct (min_safe_ld_key rest) as [m|] eqn:Hm.
  - injection Hk as <-. unfold logdev_key_min. destruct (logdev_key_leb k0 m).
    + exists s0. auto.
    + destruct (IH m eq_refl) as (s & Hin & Hs). exists s. auto.
  - injection Hk as <-. exists s0. auto.
  - destruct (IH k Hk) as (s & Hin & Hs). exists s. auto.
  - discriminate.
Qed.

Lemma min_safe_ld_key_some (stores : list HomeLogStore) (s : HomeLogStore) (b : logdev_key) :
  In s stores -> ld_key (pre_device_truncation s) = Some b ->
  exists k, min_safe_ld_key stores = Some k.
Proof.
  induction stores as [|s0 rest IH]; simpl; intros Hin Hb; [contradiction|].
  destruct Hin as [<-|Hin].
  - rewrite Hb. destruct (min_safe_ld_key rest); eauto.
  - destruct (IH Hin Hb) as [m ->].
    destruct (ld_key (pre_device_truncation s0)); eauto.
Qed.

Lemma min_safe_ld_key_none (stores : list HomeLogStore) :
  (forall s, In s stores -> ld_key (pre_device_truncation s) = None) ->
  min_safe_ld_key stores = None.
Proof.
  induction stores as [|s0 rest IH]; simpl; intro H; [reflexivity|].
  rewrite (H s0 (or_introl eq_refl)). apply IH. intros s Hs. apply H. now right.
Qed.

(** A round in which no store has a valid boundary truncates nothing. *)
Lemma device_truncate_nothing_to_do (d : LogDev) (stores : list HomeLogStore) :
  (forall s, In s stores -> ld_key (pre_device_truncation s) = None) ->
  device_truncate d stores = (d, stores).
Proof.
  intro H. unfold device_truncate. now rewrite (min_safe_ld_key_none stores H).
Qed.

(** C2.  In a round of the global truncation protocol over the stores that
    share one log device, the key the device is asked to truncate to is not
    beyond the safe boundary of any store that returned a valid one from
    [pre_device_truncation]; it is itself the boundary of one of the stores,
    hence the minimum of the valid boundaries. *)
Theorem device_truncate_within_min_boundary
    (d : LogDev) (stores : list HomeLogStore) (s : HomeLogStore) (b : logdev_key) :
  In s stores ->
  ld_key (pre_device_truncation s) = Some b ->
  exists k,
    min_safe_ld_key stores = Some k
    /\ truncate_calls (fst (device_truncate d stores)) = k :: truncate_calls d
    /\ logdev_key_leb k b = true
    /\ (forall s' b', In s' stores -> ld_key (pre_device_truncation s') = Some b' ->
                      logdev_key_leb k b' = true)
    /\ (exists s0, In s0 stores /\ ld_key (pre_device_truncation s0) = Some k).
Proof.
  intros Hin Hb.
  destruct (min_safe_ld_key_some stores s b Hin Hb) as [k Hk].
  exists k. split; [exact Hk|]. split.
  - unfold device_truncate. rewrite Hk. reflexivity.
  - split; [eapply min_safe_ld_key_lower_bound; eauto|].
    split; [intros s' b'; eapply min_safe_ld_key_lower_bound; eauto|].
    now apply min_safe_ld_key_attained.
Qed.

(** Scenario "truncation safety across stores": S1 is truncated to LSN 100
    at key K1 = (7, 0), S2 to LSN 50 at key K0 = (3, 16). *)
Lemma device_truncate_within_min_boundary_witness :
  exists k,
    min_safe_ld_key [store_with_boundary 1 100 7 0; store_with_boundary 2 50 3 16] = Some k
    /\ k = {| batch_id := 3; offset_in_batch := 16 |}.
Proof.
  destruct (device_truncate_within_min_boundary
              {| truncate_calls := [] |}
              [store_with_boundary 1 100 7 0; store_with_boundary 2 50 3 16]
              (store_with_boundary 1 100 7 0)
              {| batch_id := 7; offset_in_batch := 0 |}
              (or_introl eq_refl) eq_refl) as (k & Hk & _).
  exists k. split; [exact Hk|].
  simpl in Hk. injection Hk as <-. reflexivity.
Defined.

End LogStoreProperties.

(** ** The engine facade *)

Section EngineProperties.

Import Engine.
Local Open Scope hs_scope.

Variable env : Collaborators.

(** *** Running the monad *)

Lemma bind_Ret {A B} (c : M A) (k : A -> M B) (s s' : HomeStore) (a : A) :
  c s = (Ret a, s') -> bind c k s = k a s'.
Proof. intro H. unfold bind. rewrite H. reflexivity. Qed.

Lemma bind_Throw {A B} (c : M A) (k : A -> M B) (s s' : HomeStore) (e : exn) :
  c s = (Throw e, s') -> bind c k s = (Throw e, s').
Proof. intro H. unfold bind. rewrite H. reflexivity. Qed.

Lemma bind_Fault {A B} (c : M A) (k : A -> M B) (s s' : HomeStore) (f : fault) :
  c s = (Fault f, s') -> bind c k s = (Fault f, s').
Proof. intro H. unfold bind. rewrite H. reflexivity. Qed.

Lemma bind_gets {A B} (f : HomeStore -> A) (k : A -> M B) (s : HomeStore) :
  bind (gets f) k s = k (f s) s.
Proof. reflexivity. Qed.

Lemma bind_modify {B} (f : HomeStore -> HomeStore) (k : unit -> M B) (s : HomeStore) :
  bind (modify f) k s = k tt (f s).
Proof. reflexivity. Qed.

Lemma bind_ret {A B} (a : A) (k : A -> M B) (s : HomeStore) :
  bind (ret a) k s = k a s.
Proof. reflexivity. Qed.

Lemma deref_Some {A} (member : string) (f : HomeStore -> option A) (s : HomeStore) (a : A) :
  f s = Some a -> deref member f s = (Ret a, s).
Proof. intro H. unfold deref. rewrite H. reflexivity. Qed.

Lemma deref_None {A} (member : string) (f : HomeStore -> option A) (s : HomeStore) :
  f s = None -> deref member f s = (Fault (null_dereference member), s).
Proof. intro H. unfold deref. rewrite H. reflexivity. Qed.

Lemma get_total_cap_run (s : HomeStore) (dm : DeviceManager) :
  m_dev_mgr s = Some dm -> get_total_cap s = (Ret (dm_total_cap dm), s).
Proof.
  intro H. unfold get_total_cap.
  rewrite (bind_Ret _ _ _ _ _ (deref_Some _ _ _ _ H)). reflexivity.
Qed.

Lemma is_first_time_boot_run (s : HomeStore) (dm : DeviceManager) :
  m_dev_mgr s = Some dm -> is_first_time_boot s = (Ret (dm_first_time_boot dm), s).
Proof.
  intro H. unfold is_first_time_boot.
  rewrite (bind_Ret _ _ _ _ _ (deref_Some _ _ _ _ H)). reflexivity.
Qed.

(** An assertion never changes the state; it returns where it holds or
    where a failed assertion does not stop, and stops otherwise. *)
Lemma hs_assert_passes (c : bool) (msg : string) :
  c = true \/ logmsg_assert_stops env = false -> hs_assert env c msg = ret tt.
Proof.
  unfold hs_assert. intros [-> | ->]; [reflexivity|].
  destruct c; reflexivity.
Qed.

Lemma hs_assert_stops (c : bool) (msg : string) :
  c = false -> logmsg_assert_stops env = true ->
  hs_assert env c msg = abort (assert_failure msg).
Proof. unfold hs_assert. intros -> ->. reflexivity. Qed.

Lemma hs_assert_cases (c : bool) (msg : string) (s : HomeStore) :
  hs_assert env c msg s = (Ret tt, s)
  \/ (c = false /\ logmsg_assert_stops env = true
      /\ hs_assert env c msg s = (Fault (assert_failure msg), s)).
Proof.
  unfold hs_assert.
  destruct c; [left; reflexivity|].
  destruct (logmsg_assert_stops env); [right|left]; auto.
Qed.

Lemma hs_assert_state (c : bool) (msg : string) (s : HomeStore) :
  snd (hs_assert env c msg s) = s.
Proof.
  destruct (hs_assert_cases c msg s) as [-> | (_ & _ & ->)]; reflexivity.
Qed.

(** Steps over a leading [gets], [modify] or [ret]. *)
Ltac mstep :=
  first [rewrite bind_gets | rewrite bind_modify | rewrite bind_ret]; cbv beta.

(** *** The constructors on a first boot *)

Lemma configured_total_cap (cfg : HomeStoreStaticConfig) (pagesz cap : Z) (s : HomeStore) :
  configured cfg pagesz cap s -> get_total_cap s = (Ret cap, s).
Proof.
  intros (_ & _ & dm & Hdm & <-). now apply get_total_cap_run.
Qed.

Lemma create_data_blkstore_new (cfg : HomeStoreStaticConfig) (pagesz cap : Z) (s : HomeStore) :
  configured cfg pagesz cap s ->
  create_data_blkstore None s =
  (Ret tt,
   set_data_blk_store (Some (store_created env cfg pagesz cap DATA_STORE))
     (set_available_size (first_boot_size cfg cap DATA_STORE) s)).
Proof.
  intro H. unfold create_data_blkstore.
  rewrite (bind_Ret _ _ _ _ _ (configured_total_cap _ _ _ _ H)).
  destruct H as (Hc & Hp & _).
  repeat mstep.
  change (m_data_pagesz (set_available_size _ s)) with (m_data_pagesz s).
  rewrite Hc, Hp. reflexivity.
Qed.

Lemma create_index_blkstore_new (cfg : HomeStoreStaticConfig) (pagesz cap : Z) (s : HomeStore) :
  configured cfg pagesz cap s ->
  create_index_blkstore None s =
  (Ret tt, set_index_blk_store (Some (store_created env cfg pagesz cap INDEX_STORE)) s).
Proof.
  intro H. unfold create_index_blkstore.
  rewrite (bind_Ret _ _ _ _ _ (configured_total_cap _ _ _ _ H)).
  destruct H as (Hc & Hp & _).
  repeat mstep. rewrite Hc. reflexivity.
Qed.

Lemma create_logdev_blkstore_new (cfg : HomeStoreStaticConfig) (pagesz cap : Z) (s : HomeStore) :
  configured cfg pagesz cap s ->
  create_logdev_blkstore None s =
  (Ret tt, set_logdev_blk_store (Some (store_created env cfg pagesz cap LOGDEV_STORE)) s).
Proof.
  intro H. unfold create_logdev_blkstore.
  rewrite (bind_Ret _ _ _ _ _ (configured_total_cap _ _ _ _ H)).
  destruct H as (Hc & Hp & _).
  repeat mstep. rewrite Hc. reflexivity.
Qed.

Lemma create_meta_blkstore_new (cfg : HomeStoreStaticConfig) (pagesz cap : Z) (s : HomeStore) :
  configured cfg pagesz cap s ->
  create_meta_blkstore env None s =
  (Ret tt,
   set_meta_blk_mgr (Some {| meta_sb_blob := None; meta_init := true |})
     (set_meta_blk_store (Some (store_created env cfg pagesz cap META_STORE)) s)).
Proof.
  intro H. unfold create_meta_blkstore.
  rewrite (bind_Ret _ _ _ _ _ (configured_total_cap _ _ _ _ H)).
  destruct H as (Hc & Hp & _).
  repeat mstep. rewrite Hc. reflexivity.
Qed.

(** [alloc_sb_blk] on a state whose superblock store is [sb]. *)
Lemma alloc_sb_blk_run (sz : Z) (s : HomeStore) (sb : BlkStore) :
  m_sb_blk_store s = Some sb ->
  alloc_sb_blk env sz s =
  if is_success (fst (alloc_contiguous_blk env sb sz sb_alloc_hints)) then
    (Ret (snd (alloc_contiguous_blk env sb sz sb_alloc_hints)),
     set_sb_blk_store
       (Some (record_alloc sz (snd (alloc_contiguous_blk env sb sz sb_alloc_hints)) sb)) s)
  else (Throw space_not_available_exn, s).
Proof.
  intro H. unfold alloc_sb_blk.
  rewrite (bind_Ret _ _ _ _ _ (deref_Some _ _ _ _ H)).
  fold sb_alloc_hints.
  destruct (alloc_contiguous_blk env sb sz sb_alloc_hints) as [status bid].
  simpl fst; simpl snd. destruct (is_success status); reflexivity.
Qed.

Lemma create_sb_blkstore_new (cfg : HomeStoreStaticConfig) (pagesz cap : Z) (s : HomeStore) :
  configured cfg pagesz cap s ->
  create_sb_blkstore env None s =
  if is_success (fst (sb_root_alloc env cfg pagesz cap)) then
    (Ret tt, set_sb_blk_store (Some (sb_store_with_root env cfg pagesz cap))
               (set_sb_blk_store
                  (Some (record_alloc (atomic_phys_page_size (drive_attr cfg))
                           (snd (sb_root_alloc env cfg pagesz cap))
                           (store_created env cfg pagesz cap SB_STORE)))
                  (set_sb_blk_store (Some (store_created env cfg pagesz cap SB_STORE)) s)))
  else
    (Throw space_not_available_exn,
     set_sb_blk_store (Some (store_created env cfg pagesz cap SB_STORE)) s).
Proof.
  intro H. unfold create_sb_blkstore.
  rewrite (bind_Ret _ _ _ _ _ (configured_total_cap _ _ _ _ H)).
  destruct H as (Hc & _ & _).
  do 2 mstep. rewrite Hc.
  change (make_blkstore _) with (store_created env cfg pagesz cap SB_STORE).
  pose proof (alloc_sb_blk_run (atomic_phys_page_size (drive_attr cfg))
                (set_sb_blk_store (Some (store_created env cfg pagesz cap SB_STORE)) s)
                (store_created env cfg pagesz cap SB_STORE) eq_refl) as Ha.
  fold (sb_root_alloc env cfg pagesz cap) in Ha.
  destruct (is_success (fst (sb_root_alloc env cfg pagesz cap))).
  - rewrite (bind_Ret _ _ _ _ _ Ha). reflexivity.
  - rewrite (bind_Throw _ _ _ _ _ Ha). reflexivity.
Qed.

(** *** [init_devices] on a first boot *)

Lemma add_devices_fresh (disk : Media) (cb : vdev_info_block -> M unit)
    (s : HomeStore) (dm : DeviceManager) :
  m_dev_mgr s = Some dm ->
  media_formatted disk = false ->
  add_devices disk cb s = (Ret true, set_dev_mgr (Some (dm_attach disk dm)) s).
Proof.
  intros H Hf. unfold add_devices.
  rewrite (bind_Ret _ _ _ _ _ (deref_Some _ _ _ _ H)).
  mstep. rewrite Hf. reflexivity.
Qed.

Lemma init_done_run (s : HomeStore) (dm : DeviceManager) :
  m_dev_mgr s = Some dm ->
  init_done s = (Ret tt, set_dev_mgr (Some (dm_mark_init_done dm)) s).
Proof.
  intro H. unfold init_done.
  rewrite (bind_Ret _ _ _ _ _ (deref_Some _ _ _ _ H)). reflexivity.
Qed.

(** The two capacity assertions let the run through: they hold, or a failed
    assertion does not stop. *)
Lemma capacity_checks_pass (cfg : HomeStoreStaticConfig) (cap : Z) :
  capacity_checks env cfg cap || negb (logmsg_assert_stops env) = true ->
  ((MIN_DISK_CAP_SUPPORTED env <? cap / Z.of_nat (List.length (devices (input cfg)))) = true
   \/ logmsg_assert_stops env = false)
  /\ ((cap <? MAX_SUPPORTED_CAP env) = true \/ logmsg_assert_stops env = false).
Proof.
  unfold capacity_checks.
  destruct (MIN_DISK_CAP_SUPPORTED env <? cap / Z.of_nat (List.length (devices (input cfg))));
    destruct (cap <? MAX_SUPPORTED_CAP env);
    destruct (logmsg_assert_stops env); simpl; intro H;
    try discriminate; auto.
Qed.

Lemma capacity_supported_checks (cfg : HomeStoreStaticConfig) (cap : Z) :
  capacity_supported env cfg cap ->
  capacity_checks env cfg cap || negb (logmsg_assert_stops env) = true.
Proof.
  intros [Hmin Hmax]. apply Z.ltb_lt in Hmin. apply Z.ltb_lt in Hmax.
  unfold capacity_checks. rewrite Hmin, Hmax. reflexivity.
Qed.

Lemma init_devices_first_boot_run_through
    (disk : Media) (s : HomeStore) (dm : DeviceManager) :
  m_dev_mgr s = Some dm ->
  media_formatted disk = false ->
  capacity_checks env (hs_config s) (media_total_cap disk)
  || negb (logmsg_assert_stops env) = true ->
  init_devices env disk s =
  if is_success
       (fst (sb_root_alloc env (hs_config s) (m_data_pagesz s) (media_total_cap disk)))
  then (Ret tt, first_boot_state env disk s dm)
  else (Throw space_not_available_exn, first_boot_no_space_state env disk s dm).
Proof.
  intros Hdm Hfresh Hok.
  destruct (capacity_checks_pass _ _ Hok) as [Hmin Hmax].
  set (cfg := hs_config s) in *. set (pagesz := m_data_pagesz s).
  set (cap := media_total_cap disk) in *.
  unfold init_devices. mstep. fold cfg.
  rewrite (bind_Ret _ _ _ _ _ (add_devices_fresh disk _ s dm Hdm Hfresh)).
  set (s1 := set_dev_mgr (Some (dm_attach disk dm)) s).
  assert (H1 : configured cfg pagesz cap s1).
  { repeat split. exists (dm_attach disk dm). split; reflexivity. }
  rewrite (bind_Ret _ _ _ _ _ (configured_total_cap _ _ _ _ H1)).
  rewrite (hs_assert_passes _ _ Hmin). mstep.
  rewrite (bind_Ret _ _ _ _ _ (configured_total_cap _ _ _ _ H1)).
  rewrite (hs_assert_passes _ _ Hmax). mstep.
  pose proof (create_data_blkstore_new _ _ _ s1 H1) as Hd.
  set (s2 := set_data_blk_store _ _) in Hd.
  assert (H2 : configured cfg pagesz cap s2) by exact H1.
  pose proof (create_index_blkstore_new _ _ _ s2 H2) as Hi.
  set (s3 := set_index_blk_store _ _) in Hi.
  assert (H3 : configured cfg pagesz cap s3) by exact H1.
  pose proof (create_sb_blkstore_new _ _ _ s3 H3) as Hs.
  unfold first_boot_state, first_boot_no_space_state. cbv zeta.
  fold cfg pagesz cap s1 s2 s3.
  destruct (is_success (fst (sb_root_alloc env cfg pagesz cap))).
  - set (s4 := set_sb_blk_store (Some (sb_store_with_root _ _ _ _)) _) in *.
    assert (H4 : configured cfg pagesz cap s4) by exact H1.
    pose proof (create_logdev_blkstore_new _ _ _ s4 H4) as Hl.
    set (s5 := set_logdev_blk_store _ _) in *.
    assert (H5 : configured cfg pagesz cap s5) by exact H1.
    pose proof (create_meta_blkstore_new _ _ _ s5 H5) as Hm.
    set (s6 := set_meta_blk_mgr _ _) in *.
    rewrite (bind_Ret _ _ s1 s6 tt).
    + rewrite (bind_Ret _ _ _ _ _ (init_done_run s6 (dm_attach disk dm) eq_refl)).
      set (s7 := set_dev_mgr _ s6).
      rewrite (bind_Ret _ _ _ _ _
                 (get_total_cap_run s7 (dm_mark_init_done (dm_attach disk dm)) eq_refl)).
      reflexivity.
    + rewrite (bind_Ret _ _ _ _ _ Hd), (bind_Ret _ _ _ _ _ Hi),
        (bind_Ret _ _ _ _ _ Hs), (bind_Ret _ _ _ _ _ Hl). exact Hm.
  - rewrite (bind_Throw _ _ s1
               (set_sb_blk_store (Some (store_created env cfg pagesz cap SB_STORE)) s3)
               space_not_available_exn);
      [reflexivity|].
    rewrite (bind_Ret _ _ _ _ _ Hd), (bind_Ret _ _ _ _ _ Hi).
    rewrite (bind_Throw _ _ _ _ _ Hs). reflexivity.
Qed.

Lemma init_devices_first_boot_run (disk : Media) (s : HomeStore) (dm : DeviceManager) :
  m_dev_mgr s = Some dm ->
  media_formatted disk = false ->
  capacity_supported env (hs_config s) (media_total_cap disk) ->
  init_devices env disk s =
  if is_success
       (fst (sb_root_alloc env (hs_config s) (m_data_pagesz s) (media_total_cap disk)))
  then (Ret tt, first_boot_state env disk s dm)
  else (Throw space_not_available_exn, first_boot_no_space_state env disk s dm).
Proof.
  intros Hdm Hfresh Hcap.
  apply init_devices_first_boot_run_through; auto using capacity_supported_checks.
Qed.

(** *** The constructors on reattach *)

Lemma blkstore_type_of_val_val (t : blkstore_type) :
  blkstore_type_of_val (blkstore_type_val t) = Some t.
Proof. destruct t; reflexivity. Qed.

Lemma blkstore_type_of_val_Some (z : Z) (t : blkstore_type) :
  blkstore_type_of_val z = Some t -> z = blkstore_type_val t.
Proof.
  unfold blkstore_type_of_val.
  destruct (z =? 1) eqn:H1; [apply Z.eqb_eq in H1; intros [= <-]; exact H1|].
  destruct (z =? 2) eqn:H2; [apply Z.eqb_eq in H2; intros [= <-]; exact H2|].
  destruct (z =? 3) eqn:H3; [apply Z.eqb_eq in H3; intros [= <-]; exact H3|].
  destruct (z =? 4) eqn:H4; [apply Z.eqb_eq in H4; intros [= <-]; exact H4|].
  destruct (z =? 5) eqn:H5; [apply Z.eqb_eq in H5; intros [= <-]; exact H5|].
  discriminate.
Qed.

(** The single dispatch site: the tag decides the constructor, and an unknown
    tag runs none, only the assertion of the default branch. *)
Lemma new_vdev_found_decode (vb : vdev_info_block) (s : HomeStore) :
  new_vdev_found env vb s =
  match blkstore_type_of_val (ctx_type (context_data vb)) with
  | Some t => create_blkstore env t (Some vb) s
  | None => hs_assert env false "Unknown blkstore_type" s
  end.
Proof.
  unfold new_vdev_found, blkstore_type_of_val.
  destruct (ctx_type (context_data vb) =? 1); [reflexivity|].
  destruct (ctx_type (context_data vb) =? 2); [reflexivity|].
  destruct (ctx_type (context_data vb) =? 3); [reflexivity|].
  destruct (ctx_type (context_data vb) =? 4); [reflexivity|].
  destruct (ctx_type (context_data vb) =? 5); reflexivity.
Qed.

Lemma create_blkstore_load (t : blkstore_type) (vb : vdev_info_block) (s : HomeStore) :
  create_blkstore env t (Some vb) s =
  if failed vb then
    (Throw vdev_in_failed_state_exn, set_vdev_failed true (store_loaded env t vb s))
  else if reads_root_blkid t && negb (is_valid (ctx_blkid (context_data vb))) then
    (Throw init_was_failed_exn, store_loaded env t vb s)
  else
    (Ret tt,
     match t with
     | META_STORE =>
         set_meta_blk_mgr
           (Some {| meta_sb_blob := Some (context_data vb); meta_init := false |})
           (store_loaded env t vb s)
     | _ => store_loaded env t vb s
     end).
Proof.
  destruct t; unfold create_blkstore, store_loaded, load_ctor, set_blk_store,
    reads_root_blkid.
  - unfold create_data_blkstore. repeat mstep. destruct (failed vb); reflexivity.
  - unfold create_index_blkstore. repeat mstep. destruct (failed vb); reflexivity.
  - unfold create_sb_blkstore. repeat mstep. destruct (failed vb); [reflexivity|].
    destruct (is_valid (ctx_blkid (context_data vb))); reflexivity.
  - unfold create_logdev_blkstore. repeat mstep. destruct (failed vb); reflexivity.
  - unfold create_meta_blkstore. repeat mstep. destruct (failed vb); [reflexivity|].
    destruct (is_valid (ctx_blkid (context_data vb))); reflexivity.
Qed.

(** What a reattach constructor touches: the member of its own type, the
    failed flag and, for META, the meta-block manager. *)

Lemma blk_store_of_set_same (t : blkstore_type) (v : option BlkStore) (s : HomeStore) :
  blk_store_of t (set_blk_store t v s) = v.
Proof. destruct t; reflexivity. Qed.

Lemma blk_store_of_set_other (t t' : blkstore_type) (v : option BlkStore) (s : HomeStore) :
  t' <> t -> blk_store_of t' (set_blk_store t v s) = blk_store_of t' s.
Proof. destruct t, t'; intro H; try reflexivity; now contradiction H. Qed.

Lemma reattach_frame_refl (s : HomeStore) : reattach_frame s s.
Proof. now split. Qed.

Lemma reattach_frame_trans (s1 s2 s3 : HomeStore) :
  reattach_frame s1 s2 -> reattach_frame s2 s3 -> reattach_frame s1 s3.
Proof. intros [] []. split; congruence. Qed.

Lemma create_blkstore_load_frame (t : blkstore_type) (vb : vdev_info_block) (s : HomeStore) :
  reattach_frame s (snd (create_blkstore env t (Some vb) s)).
Proof.
  rewrite create_blkstore_load. unfold store_loaded.
  destruct (failed vb);
    [|destruct (reads_root_blkid t && negb (is_valid (ctx_blkid (context_data vb))))];
    destruct t; split; reflexivity.
Qed.

Lemma create_blkstore_load_same (t : blkstore_type) (vb : vdev_info_block) (s : HomeStore) :
  blk_store_of t (snd (create_blkstore env t (Some vb) s)) =
  Some (make_blkstore (load_ctor env (hs_config s) (m_data_pagesz s) t vb)).
Proof.
  rewrite create_blkstore_load. unfold store_loaded.
  destruct (failed vb);
    [|destruct (reads_root_blkid t && negb (is_valid (ctx_blkid (context_data vb))))];
    destruct t; reflexivity.
Qed.

Lemma create_blkstore_load_other (t t' : blkstore_type) (vb : vdev_info_block) (s : HomeStore) :
  t' <> t ->
  blk_store_of t' (snd (create_blkstore env t (Some vb) s)) = blk_store_of t' s.
Proof.
  intro Hne. rewrite create_blkstore_load. unfold store_loaded.
  destruct (failed vb);
    [|destruct (reads_root_blkid t && negb (is_valid (ctx_blkid (context_data vb))))];
    destruct t, t'; try reflexivity; now contradiction Hne.
Qed.

Lemma new_vdev_found_frame (vb : vdev_info_block) (s : HomeStore) :
  reattach_frame s (snd (new_vdev_found env vb s)).
Proof.
  rewrite new_vdev_found_decode.
  destruct (blkstore_type_of_val (ctx_type (context_data vb))) as [t|].
  - apply create_blkstore_load_frame.
  - rewrite hs_assert_state. apply reattach_frame_refl.
Qed.

Lemma new_vdev_found_other (t' : blkstore_type) (vb : vdev_info_block) (s : HomeStore) :
  blkstore_type_of_val (ctx_type (context_data vb)) <> Some t' ->
  blk_store_of t' (snd (new_vdev_found env vb s)) = blk_store_of t' s.
Proof.
  intro Hne. rewrite new_vdev_found_decode.
  destruct (blkstore_type_of_val (ctx_type (context_data vb))) as [t|];
    [|now rewrite hs_assert_state].
  apply create_blkstore_load_other. congruence.
Qed.

(** *** The loop over the vdev records *)

Lemma for_each_cons {A} (f : A -> M unit) (x : A) (l : list A) (s : HomeStore) :
  for_each f (x :: l) s =
  match f x s with
  | (Ret _, s') => for_each f l s'
  | (Throw e, s') => (Throw e, s')
  | (Fault g, s') => (Fault g, s')
  end.
Proof. reflexivity. Qed.

Lemma for_each_app {A} (f : A -> M unit) (l1 l2 : list A) (s : HomeStore) :
  for_each f (l1 ++ l2) s =
  match for_each f l1 s with
  | (Ret _, s') => for_each f l2 s'
  | (Throw e, s') => (Throw e, s')
  | (Fault g, s') => (Fault g, s')
  end.
Proof.
  revert s. induction l1 as [|x l1 IH]; intro s; [reflexivity|].
  rewrite <- app_comm_cons, !for_each_cons.
  destruct (f x s) as [[[]|e|g] s']; [apply IH|reflexivity|reflexivity].
Qed.

(** A relation every step keeps is kept by the loop, whatever its outcome. *)
Lemma for_each_invariant {A} (R : HomeStore -> HomeStore -> Prop) (f : A -> M unit)
    (l : list A) :
  (forall s, R s s) ->
  (forall s1 s2 s3, R s1 s2 -> R s2 s3 -> R s1 s3) ->
  (forall x s, In x l -> R s (snd (f x s))) ->
  forall s, R s (snd (for_each f l s)).
Proof.
  intros Hrefl Htrans. induction l as [|x l IH]; intros Hstep s; [apply Hrefl|].
  rewrite for_each_cons.
  pose proof (Hstep x s (or_introl eq_refl)) as Hx.
  destruct (f x s) as [[[]|e|g] s']; simpl in Hx; [|exact Hx|exact Hx].
  eapply Htrans; [exact Hx|]. apply IH. intros y s0 Hy. apply Hstep. now right.
Qed.

Lemma for_each_new_vdev_found_frame (l : list vdev_info_block) (s : HomeStore) :
  reattach_frame s (snd (for_each (new_vdev_found env) l s)).
Proof.
  apply for_each_invariant.
  - apply reattach_frame_refl.
  - apply reattach_frame_trans.
  - intros vb s0 _. apply new_vdev_found_frame.
Qed.

(** A store type none of whose records is in the list keeps its member. *)
Lemma for_each_new_vdev_found_other (t' : blkstore_type) (l : list vdev_info_block)
    (s : HomeStore) :
  (forall vb, In vb l -> blkstore_type_of_val (ctx_type (context_data vb)) <> Some t') ->
  blk_store_of t' (snd (for_each (new_vdev_found env) l s)) = blk_store_of t' s.
Proof.
  intro Hl.
  apply (for_each_invariant (fun s1 s2 => blk_store_of t' s2 = blk_store_of t' s1)).
  - reflexivity.
  - intros s1 s2 s3 H12 H23. congruence.
  - intros vb s0 Hin. apply new_vdev_found_other. now apply Hl.
Qed.

(** *** [init_devices] on reattach *)

Lemma add_devices_formatted (disk : Media) (cb : vdev_info_block -> M unit)
    (s : HomeStore) (dm : DeviceManager) :
  m_dev_mgr s = Some dm ->
  media_formatted disk = true ->
  add_devices disk cb s =
  match for_each cb (media_vdevs disk) (set_dev_mgr (Some (dm_attach disk dm)) s) with
  | (Ret _, s') => (Ret false, s')
  | (Throw e, s') => (Throw e, s')
  | (Fault g, s') => (Fault g, s')
  end.
Proof.
  intros H Hf. unfold add_devices.
  rewrite (bind_Ret _ _ _ _ _ (deref_Some _ _ _ _ H)).
  mstep. rewrite Hf. unfold bind.
  destruct (for_each cb (media_vdevs disk) _) as [[[]|e|g] s']; reflexivity.
Qed.

(** An exception of a constructor leaves [init_devices] as it is, with the
    state of the [throw]. *)
Lemma init_devices_reattach_throw (disk : Media) (s s' : HomeStore) (dm : DeviceManager)
    (e : exn) :
  m_dev_mgr s = Some dm ->
  media_formatted disk = true ->
  for_each (new_vdev_found env) (media_vdevs disk) (attached disk dm s) = (Throw e, s') ->
  init_devices env disk s = (Throw e, s').
Proof.
  intros Hdm Hf Hrun. unfold init_devices. mstep.
  erewrite bind_Throw; [reflexivity|].
  rewrite (add_devices_formatted disk _ s dm Hdm Hf).
  unfold attached in Hrun. rewrite Hrun. reflexivity.
Qed.

(** Before [init] there is no device manager to attach the devices to. *)
Lemma init_devices_without_dev_mgr (disk : Media) (s : HomeStore) :
  m_dev_mgr s = None ->
  init_devices env disk s = (Fault (null_dereference "m_dev_mgr"), s).
Proof.
  intro H. unfold init_devices. mstep. unfold add_devices.
  erewrite bind_Fault; [reflexivity|].
  erewrite bind_Fault; [reflexivity|]. now apply deref_None.
Qed.

(** After the events, [init_devices] constructs no store. *)
Lemma init_devices_reattach_stores (disk : Media) (s : HomeStore) (dm : DeviceManager)
    (t : blkstore_type) :
  m_dev_mgr s = Some dm ->
  media_formatted disk = true ->
  blk_store_of t (snd (init_devices env disk s)) =
  blk_store_of t (snd (for_each (new_vdev_found env) (media_vdevs disk) (attached disk dm s))).
Proof.
  intros Hdm Hf. unfold init_devices. mstep.
  pose proof (add_devices_formatted disk (new_vdev_found env) s dm Hdm Hf) as Ha.
  pose proof (for_each_new_vdev_found_frame (media_vdevs disk) (attached disk dm s)) as Hfr.
  fold (attached disk dm s) in Ha.
  destruct (for_each (new_vdev_found env) (media_vdevs disk) (attached disk dm s))
    as [[[]|e|g] s1]; simpl snd in *.
  - rewrite (bind_Ret _ _ _ _ _ Ha).
    assert (H1 : m_dev_mgr s1 = Some (dm_attach disk dm)).
    { rewrite (frame_dev_mgr _ _ Hfr). reflexivity. }
    rewrite (bind_Ret _ _ _ _ _ (get_total_cap_run s1 _ H1)). cbv beta.
    match goal with
    | |- context [hs_assert env ?c ?m] =>
        destruct (hs_assert_cases c m s1) as [Hp | (_ & _ & Hp)]
    end; [|rewrite (bind_Fault _ _ _ _ _ Hp); reflexivity].
    rewrite (bind_Ret _ _ _ _ _ Hp).
    rewrite (bind_Ret _ _ _ _ _ (get_total_cap_run s1 _ H1)). cbv beta.
    match goal with
    | |- context [hs_assert env ?c ?m] =>
        destruct (hs_assert_cases c m s1) as [Hq | (_ & _ & Hq)]
    end; [|rewrite (bind_Fault _ _ _ _ _ Hq); reflexivity].
    rewrite (bind_Ret _ _ _ _ _ Hq). mstep.
    rewrite (bind_Ret _ _ _ _ _ (init_done_run s1 _ H1)).
    erewrite bind_Ret; [|apply get_total_cap_run; reflexivity].
    destruct t; reflexivity.
  - rewrite (bind_Throw _ _ _ _ _ Ha). reflexivity.
  - rewrite (bind_Fault _ _ _ _ _ Ha). reflexivity.
Qed.

(** *** Start-up, allocation, recovery and capacity *)

Lemma first_boot_state_stores (disk : Media) (s : HomeStore) (dm : DeviceManager)
    (t : blkstore_type) :
  exists bs,
    blk_store_of t (first_boot_state env disk s dm) = Some bs
    /\ bs_ctor bs =
       first_boot_ctor env (hs_config s) (media_total_cap disk) (m_data_pagesz s) t.
Proof. destruct t; eexists; split; reflexivity. Qed.

Lemma tag_not_of_type (z : Z) (t : blkstore_type) :
  z <> blkstore_type_val t -> blkstore_type_of_val z <> Some t.
Proof. intros Hne H. apply Hne. now apply blkstore_type_of_val_Some. Qed.

(** C3, as amended.  On the first boot of an engine that has been through
    [init], with a capacity that passes the two capacity assertions,
    [init_devices] does construct the SUPERBLOCK store, with the first-boot
    parameters of its type, whether or not the block of the boot record is
    then granted; on reattach an engine that had no SUPERBLOCK store has one
    afterwards only if a vdev record tagged [SB_STORE] was found on the
    media. *)
Theorem init_devices_constructs_sb_store (disk : Media) (s : HomeStore) :
  (forall dm,
   m_dev_mgr s = Some dm ->
   media_formatted disk = false ->
   capacity_supported env (hs_config s) (media_total_cap disk) ->
   exists sb,
     m_sb_blk_store (snd (init_devices env disk s)) = Some sb
     /\ bs_ctor sb =
        first_boot_ctor env (hs_config s) (media_total_cap disk) (m_data_pagesz s) SB_STORE)
  /\ (media_formatted disk = true ->
      m_sb_blk_store s = None ->
      m_sb_blk_store (snd (init_devices env disk s)) <> None ->
      exists vb,
        In vb (media_vdevs disk)
        /\ ctx_type (context_data vb) = blkstore_type_val SB_STORE).
Proof.
  split.
  - intros dm Hdm Hfresh Hcap.
    rewrite (init_devices_first_boot_run disk s dm Hdm Hfresh Hcap).
    destruct (is_success _); eexists; split; reflexivity.
  - intros Hfmt Hnone Hsome.
    destruct (m_dev_mgr s) as [dm|] eqn:Hdm;
      [|exfalso; apply Hsome;
        rewrite (init_devices_without_dev_mgr disk s Hdm); exact Hnone].
    destruct (existsb (fun vb => ctx_type (context_data vb) =? blkstore_type_val SB_STORE)
                (media_vdevs disk)) eqn:Hex.
    + apply existsb_exists in Hex. destruct Hex as (vb & Hin & Heq).
      exists vb. split; [exact Hin|]. now apply Z.eqb_eq.
    + exfalso. apply Hsome.
      change (blk_store_of SB_STORE (snd (init_devices env disk s)) = None).
      rewrite (init_devices_reattach_stores disk s dm SB_STORE Hdm Hfmt).
      rewrite for_each_new_vdev_found_other; [exact Hnone|].
      intros vb Hin. apply tag_not_of_type. intro Heq.
      assert (Htrue : existsb
                        (fun vb => ctx_type (context_data vb) =? blkstore_type_val SB_STORE)
                        (media_vdevs disk) = true).
      { apply existsb_exists. exists vb. split; [exact Hin|]. now apply Z.eqb_eq. }
      congruence.
Qed.

(** The blob a first-boot constructor hands to its store. *)
Lemma create_blkstore_new_blob (t : blkstore_type) (s : HomeStore) (dm : DeviceManager) :
  m_dev_mgr s = Some dm ->
  exists bs,
    blk_store_of t (snd (create_blkstore env t None s)) = Some bs
    /\ ctor_blob (bs_ctor bs) =
       Some (match t with
             | SB_STORE =>
                 sb_blob {| sb_base := {| type := SB_STORE |}; blkid := BlkId_invalid |}
             | _ => plain_blob {| type := t |}
             end).
Proof.
  intro Hdm.
  assert (Hc : configured (hs_config s) (m_data_pagesz s) (dm_total_cap dm) s).
  { repeat split. exists dm. now split. }
  destruct t; unfold create_blkstore.
  - rewrite (create_data_blkstore_new _ _ _ s Hc). eexists. split; reflexivity.
  - rewrite (create_index_blkstore_new _ _ _ s Hc). eexists. split; reflexivity.
  - rewrite (create_sb_blkstore_new _ _ _ s Hc).
    destruct (is_success _); eexists; split; reflexivity.
  - rewrite (create_logdev_blkstore_new _ _ _ s Hc). eexists. split; reflexivity.
  - rewrite (create_meta_blkstore_new _ _ _ s Hc). eexists. split; reflexivity.
Qed.

Lemma tag_of_no_type (z : Z) :
  (forall t, z <> blkstore_type_val t) -> blkstore_type_of_val z = None.
Proof.
  intro H. destruct (blkstore_type_of_val z) as [t|] eqn:Ht; [|reflexivity].
  exfalso. apply (H t). now apply blkstore_type_of_val_Some.
Qed.

(** C4, as amended.  The blob given to a store at creation, in an engine that
    has been through [init], is [{type}] for DATA, INDEX, LOGDEV and META and
    [{type, blkid}] for SUPERBLOCK.  At reattach the facade reads the
    leading tag of the record's context.  When it is the tag of a store type,
    the facade runs the constructor of exactly that type, which builds the
    store of that type from the record and leaves the other stores alone; for
    a record that is not failed, the constructors of SUPERBLOCK and of META
    both go on to read a root [BlkId] from the context and throw
    [init_failed] when it is invalid, and those of DATA, INDEX and LOGDEV
    read nothing more and return.  When the tag is that of no store type, no
    constructor runs: only the assertion of the default branch, and the state
    is as before. *)
Theorem new_vdev_found_dispatches_on_tag (vb : vdev_info_block) (s : HomeStore) :
  (forall dm t0,
      m_dev_mgr s = Some dm ->
      exists bs,
      blk_store_of t0 (snd (create_blkstore env t0 None s)) = Some bs
      /\ ctor_blob (bs_ctor bs) =
         Some (match t0 with
               | SB_STORE =>
                   sb_blob {| sb_base := {| type := SB_STORE |}; blkid := BlkId_invalid |}
               | _ => plain_blob {| type := t0 |}
               end))
  /\ (forall t,
        ctx_type (context_data vb) = blkstore_type_val t ->
        new_vdev_found env vb s = create_blkstore env t (Some vb) s
        /\ (exists bs,
              blk_store_of t (snd (new_vdev_found env vb s)) = Some bs
              /\ ctor_vb (bs_ctor bs) = Some vb)
        /\ (forall t', t' <> t ->
              blk_store_of t' (snd (new_vdev_found env vb s)) = blk_store_of t' s)
        /\ (failed vb = false ->
            fst (new_vdev_found env vb s) =
            if reads_root_blkid t && negb (is_valid (ctx_blkid (context_data vb)))
            then Throw init_was_failed_exn else Ret tt))
  /\ ((forall t, ctx_type (context_data vb) <> blkstore_type_val t) ->
      new_vdev_found env vb s = hs_assert env false "Unknown blkstore_type" s
      /\ snd (new_vdev_found env vb s) = s)
  /\ (forall t, reads_root_blkid t = true <-> t = SB_STORE \/ t = META_STORE).
Proof.
  split; [intros dm t0 Hdm; now apply (create_blkstore_new_blob t0 s dm)|].
  split; [|split].
  - intros t Htag.
    assert (Hdec : new_vdev_found env vb s = create_blkstore env t (Some vb) s).
    { rewrite new_vdev_found_decode, Htag, blkstore_type_of_val_val. reflexivity. }
    split; [exact Hdec|]. rewrite Hdec. split.
    + rewrite create_blkstore_load_same. eexists. split; [reflexivity|].
      destruct t; reflexivity.
    + split; [intros t' Hne; now apply create_blkstore_load_other|].
      intro Hok. rewrite create_blkstore_load, Hok.
      destruct (reads_root_blkid t && negb (is_valid (ctx_blkid (context_data vb))));
        reflexivity.
  - intro Hnone.
    assert (Hdec : new_vdev_found env vb s = hs_assert env false "Unknown blkstore_type" s).
    { rewrite new_vdev_found_decode, (tag_of_no_type _ Hnone). reflexivity. }
    split; [exact Hdec|]. rewrite Hdec. apply hs_assert_state.
  - intro t. destruct t; simpl; split; intro H; try discriminate; auto;
      destruct H as [H|H]; discriminate.
Qed.


(** C5.  On a first boot every vdev gets the size [share * cap / 100] (integer
    division; 90 for DATA, 2 for INDEX, 1 for SUPERBLOCK, LOGDEV and META)
    rounded up to the physical page size: the least multiple of the page size
    that is not below that fraction.  The product is taken in 64 bits; the
    capacity is one for which [90 * cap] does not wrap. *)
Theorem first_boot_vdev_sizes
    (disk : Media) (s : HomeStore) (dm : DeviceManager) (t : blkstore_type) :
  m_dev_mgr s = Some dm ->
  media_formatted disk = false ->
  capacity_supported env (hs_config s) (media_total_cap disk) ->
  is_success
    (fst (sb_root_alloc env (hs_config s) (m_data_pagesz s) (media_total_cap disk))) = true ->
  0 < phys_page_size (drive_attr (hs_config s)) ->
  0 <= media_total_cap disk ->
  90 * media_total_cap disk < 2 ^ 64 ->
  let page := phys_page_size (drive_attr (hs_config s)) in
  let share :=
    match t with
    | DATA_STORE => 90 * media_total_cap disk / 100
    | INDEX_STORE => 2 * media_total_cap disk / 100
    | SB_STORE | LOGDEV_STORE | META_STORE => 1 * media_total_cap disk / 100
    end in
  exists s' bs size,
    init_devices env disk s = (Ret tt, s')
    /\ blk_store_of t s' = Some bs
    /\ ctor_size (bs_ctor bs) = Some size
    /\ size = round_up share page
    /\ (page | size)
    /\ share <= size < share + page
    /\ (forall k, (page | k) -> share <= k -> size <= k).
Proof.
  intros Hdm Hfresh Hcap Halloc Hpage Hpos Hwrap page share.
  pose proof (init_devices_first_boot_run disk s dm Hdm Hfresh Hcap) as Hrun.
  rewrite Halloc in Hrun.
  destruct (first_boot_state_stores disk s dm t) as (bs & Hbs & Hctor).
  exists (first_boot_state env disk s dm), bs, (round_up share page).
  split; [exact Hrun|]. split; [exact Hbs|]. split.
  - rewrite Hctor. unfold share, page.
    destruct t; unfold first_boot_ctor, first_boot_size, default_share, ctor_size;
      rewrite u64_small by lia; reflexivity.
  - split; [reflexivity|]. split; [apply round_up_multiple|].
    split; [now apply round_up_bounds|].
    intros k Hk Hle. now apply round_up_least.
Qed.

(** What [init] leaves behind. *)
Lemma init_run (inp : hs_input_params) :
  devices inp <> [] ->
  init env inp HomeStore_default = (Ret tt, booted env inp)
  /\ input (hs_config (booted env inp)) = inp
  /\ m_data_pagesz (booted env inp) = min_virtual_page_size inp
  /\ m_dev_mgr (booted env inp) = Some (DeviceManager_new inp)
  /\ (forall t, blk_store_of t (booted env inp) = None).
Proof.
  intro Hne. unfold booted, init.
  destruct (devices inp) as [|d rest] eqn:Hd; [now contradiction Hne|].
  simpl Nat.eqb. cbv iota.
  destruct (input_drive_attr inp) as [a|]; unfold get_drive_attrs; repeat mstep;
    (split; [reflexivity|]); repeat split; intros []; reflexivity.
Qed.

(** C6.  On a first boot after [init inp], [init_devices] constructs the five
    stores with the parameters of the table: DATA with WRITEBACK caching, 0
    mirrors and page size [min_virtual_page_size]; INDEX with
    READ-MODIFY-WRITEBACK caching, 0 mirrors and the atomic physical page
    size; SUPERBLOCK with PASS_THRU, (number of devices - 1) mirrors and the
    atomic physical page size; LOGDEV with PASS_THRU, 0 mirrors and the atomic
    physical page size; META with PASS_THRU, 0 mirrors and the META page
    size. *)
Theorem first_boot_store_parameters (inp : hs_input_params) (disk : Media) :
  devices inp <> [] ->
  Z.of_nat (List.length (devices inp)) < 2 ^ 64 ->
  media_formatted disk = false ->
  capacity_supported env (hs_config (booted env inp)) (media_total_cap disk) ->
  is_success
    (fst (sb_root_alloc env (hs_config (booted env inp)) (m_data_pagesz (booted env inp))
            (media_total_cap disk))) = true ->
  let atomic := atomic_phys_page_size (drive_attr (hs_config (booted env inp))) in
  let params b := (ctor_cache_type (bs_ctor b), ctor_mirrors (bs_ctor b),
                   ctor_page_size (bs_ctor b)) in
  exists s' data index sb logdev meta,
    init_devices env disk (booted env inp) = (Ret tt, s')
    /\ m_data_blk_store s' = Some data
    /\ m_index_blk_store s' = Some index
    /\ m_sb_blk_store s' = Some sb
    /\ m_logdev_blk_store s' = Some logdev
    /\ m_meta_blk_store s' = Some meta
    /\ params data = (WRITEBACK_CACHE, Some 0, min_virtual_page_size inp)
    /\ params index = (RD_MODIFY_WRITEBACK_CACHE, Some 0, atomic)
    /\ params sb = (PASS_THRU, Some (Z.of_nat (List.length (devices inp)) - 1), atomic)
    /\ params logdev = (PASS_THRU, Some 0, atomic)
    /\ params meta = (PASS_THRU, Some 0, META_BLK_PAGE_SZ env).
Proof.
  intros Hne Hlen Hfresh Hcap Halloc atomic params.
  destruct (init_run inp Hne) as (_ & Hinp & Hpg & Hdm & _).
  pose proof (init_devices_first_boot_run disk _ _ Hdm Hfresh Hcap) as Hrun.
  rewrite Halloc in Hrun.
  assert (Hn : 0 < Z.of_nat (List.length (devices inp))).
  { destruct (devices inp); [now contradiction Hne|simpl List.length; lia]. }
  do 6 eexists. split; [exact Hrun|].
  do 5 (split; [reflexivity|]).
  unfold params, first_boot_ctor. cbn [bs_ctor make_blkstore store_created
    sb_store_with_root update_vb_context record_alloc ctor_cache_type ctor_mirrors
    ctor_page_size first_boot_ctor].
  rewrite Hpg, Hinp. rewrite u64_small by lia.
  repeat split.
Qed.

(** C8.  [alloc_sb_blk sz] asks the superblock store for [sz] bytes with the
    contiguous hint set.  When the allocator answers [SUCCESS] it returns the
    [BlkId] the allocator assigned; otherwise it throws
    [homestore_exception] with the code [space_not_avail], returns no
    [BlkId], and leaves the state as it was. *)
Theorem alloc_sb_blk_success_or_space_not_avail (sz : Z) (s : HomeStore) (sb : BlkStore) :
  m_sb_blk_store s = Some sb ->
  let hints := {| desired_temp := 0; dev_id_hint := -1; is_contiguous := true |} in
  let status := fst (alloc_contiguous_blk env sb sz hints) in
  let bid := snd (alloc_contiguous_blk env sb sz hints) in
  is_contiguous hints = true
  /\ (status = SUCCESS ->
      alloc_sb_blk env sz s =
      (Ret bid, set_sb_blk_store (Some (record_alloc sz bid sb)) s))
  /\ (status <> SUCCESS ->
      alloc_sb_blk env sz s =
      (Throw (homestore_exception "space not available" space_not_avail), s)).
Proof.
  intros Hsb hints status bid. split; [reflexivity|].
  pose proof (alloc_sb_blk_run sz s sb Hsb) as Hrun.
  fold hints in Hrun. change sb_alloc_hints with hints in Hrun.
  fold status bid in Hrun. split.
  - intro Hok. rewrite Hok in Hrun. exact Hrun.
  - intro Hko. destruct status; [now contradiction Hko|exact Hrun].
Qed.

Lemma recovery_done_counts (b : BlkStore) :
  bs_recovery_done (recovery_done b) = S (bs_recovery_done b).
Proof. reflexivity. Qed.

(** C9.  [data_recovery_done] calls [recovery_done] on the data store exactly
    when the boot is not a first boot, and [indx_recovery_done] does the same
    on the index store; on a first boot both leave the whole state, hence
    every block store, as it was. *)
Theorem recovery_done_forwarded_iff_not_first_boot
    (s : HomeStore) (dm : DeviceManager) (d i : BlkStore) :
  m_dev_mgr s = Some dm ->
  m_data_blk_store s = Some d ->
  m_index_blk_store s = Some i ->
  data_recovery_done s =
    (Ret tt,
     if dm_first_time_boot dm then s else set_data_blk_store (Some (recovery_done d)) s)
  /\ indx_recovery_done s =
     (Ret tt,
      if dm_first_time_boot dm then s else set_index_blk_store (Some (recovery_done i)) s)
  /\ (m_data_blk_store (snd (data_recovery_done s)) = Some (recovery_done d)
      <-> dm_first_time_boot dm = false)
  /\ (m_index_blk_store (snd (indx_recovery_done s)) = Some (recovery_done i)
      <-> dm_first_time_boot dm = false)
  /\ (dm_first_time_boot dm = true ->
      snd (data_recovery_done s) = s /\ snd (indx_recovery_done s) = s).
Proof.
  intros Hdm Hd Hi.
  assert (Hdata : data_recovery_done s =
                  (Ret tt, if dm_first_time_boot dm then s
                           else set_data_blk_store (Some (recovery_done d)) s)).
  { unfold data_recovery_done.
    rewrite (bind_Ret _ _ _ _ _ (is_first_time_boot_run s dm Hdm)).
    destruct (dm_first_time_boot dm); [reflexivity|]. cbn [negb].
    rewrite (bind_Ret _ _ _ _ _ (deref_Some _ _ _ _ Hd)). reflexivity. }
  assert (Hindx : indx_recovery_done s =
                  (Ret tt, if dm_first_time_boot dm then s
                           else set_index_blk_store (Some (recovery_done i)) s)).
  { unfold indx_recovery_done.
    rewrite (bind_Ret _ _ _ _ _ (is_first_time_boot_run s dm Hdm)).
    destruct (dm_first_time_boot dm); [reflexivity|]. cbn [negb].
    rewrite (bind_Ret _ _ _ _ _ (deref_Some _ _ _ _ Hi)). reflexivity. }
  split; [exact Hdata|]. split; [exact Hindx|].
  rewrite Hdata, Hindx. simpl snd.
  destruct (dm_first_time_boot dm).
  - split; [|split; [|auto]].
    + rewrite Hd. split; [|discriminate]. intros [= H].
      apply (f_equal bs_recovery_done) in H. rewrite recovery_done_counts in H. lia.
    + rewrite Hi. split; [|discriminate]. intros [= H].
      apply (f_equal bs_recovery_done) in H. rewrite recovery_done_counts in H. lia.
  - split; [|split; [|discriminate]]; split; reflexivity.
Qed.

(** C10.  With the data and the index store constructed,
    [get_system_capacity] reports as used total the sum of the used sizes of
    the data and the index store, and as initial total the sum of their sizes
    (64-bit sums; the two stores fit the 64-bit capacity of the devices).  The
    report is the same in every state with these two stores: the superblock,
    logdev and meta stores do not enter it. *)
Theorem get_system_capacity_totals (s : HomeStore) (d i : BlkStore) :
  m_data_blk_store s = Some d ->
  m_index_blk_store s = Some i ->
  0 <= get_used_size env d -> 0 <= get_used_size env i ->
  get_used_size env d + get_used_size env i < 2 ^ 64 ->
  0 <= get_size env d -> 0 <= get_size env i ->
  get_size env d + get_size env i < 2 ^ 64 ->
  exists cap,
    get_system_capacity env s = (Ret cap, s)
    /\ used_data_size cap = get_used_size env d
    /\ used_index_size cap = get_used_size env i
    /\ used_total_size cap = get_used_size env d + get_used_size env i
    /\ initial_total_size cap = get_size env d + get_size env i
    /\ (forall s',
          m_data_blk_store s' = Some d -> m_index_blk_store s' = Some i ->
          get_system_capacity env s' = (Ret cap, s')).
Proof.
  intros Hd Hi Hud Hui Hu Hsd Hsi Hs.
  assert (Hrun : forall s0,
             m_data_blk_store s0 = Some d -> m_index_blk_store s0 = Some i ->
             get_system_capacity env s0 =
             (Ret {| used_data_size := get_used_size env d;
                     used_index_size := get_used_size env i;
                     used_total_size := u64 (get_used_size env d + get_used_size env i);
                     initial_total_size := u64 (get_size env d + get_size env i) |}, s0)).
  { intros s0 Hd0 Hi0. unfold get_system_capacity, get_data_blkstore, get_index_blkstore.
    rewrite (bind_Ret _ _ _ _ _ (deref_Some _ _ _ _ Hd0)).
    rewrite (bind_Ret _ _ _ _ _ (deref_Some _ _ _ _ Hi0)).
    rewrite (bind_Ret _ _ _ _ _ (deref_Some _ _ _ _ Hd0)).
    rewrite (bind_Ret _ _ _ _ _ (deref_Some _ _ _ _ Hi0)).
    reflexivity. }
  eexists. split; [apply Hrun; assumption|].
  simpl. rewrite !u64_small by lia.
  repeat split. intros s' Hd' Hi'. rewrite (Hrun s' Hd' Hi').
  rewrite !u64_small by lia. reflexivity.
Qed.

End EngineProperties.

(** ** Scenarios on the concrete engine *)

Section Scenarios.

Import Engine.

Ltac decide_by_computation :=
  solve [vm_compute; reflexivity | vm_compute; discriminate
        | split; vm_compute; reflexivity].

(** C3 does not hold of the code: on the first boot of a fresh engine with two
    1 GiB devices, [init_devices] returns normally and the SUPERBLOCK store,
    absent before, is constructed. *)
Lemma first_boot_creates_sb_store_counterexample :
  media_formatted fresh_media = false
  /\ m_sb_blk_store (booted demo_env demo_input) = None
  /\ fst (init_devices demo_env fresh_media (booted demo_env demo_input)) = Ret tt
  /\ m_dev_mgr (snd (init_devices demo_env fresh_media (booted demo_env demo_input))) =
     Some (dm_mark_init_done (dm_attach fresh_media demo_dev_mgr))
  /\ dm_first_time_boot (dm_mark_init_done (dm_attach fresh_media demo_dev_mgr)) = true
  /\ m_sb_blk_store (snd (init_devices demo_env fresh_media (booted demo_env demo_input)))
     <> None.
Proof. repeat split; try decide_by_computation. Qed.

Lemma init_devices_constructs_sb_store_witness :
  exists sb,
    m_sb_blk_store (snd (init_devices demo_env fresh_media (booted demo_env demo_input))) =
    Some sb
    /\ ctor_cache_type (bs_ctor sb) = PASS_THRU
    /\ ctor_mirrors (bs_ctor sb) = Some 1.
Proof.
  destruct (proj1 (init_devices_constructs_sb_store demo_env fresh_media
                     (booted demo_env demo_input))
              demo_dev_mgr eq_refl eq_refl ltac:(decide_by_computation))
    as (sb & Hsb & Hctor).
  exists sb. split; [exact Hsb|]. rewrite Hctor. split; reflexivity.
Defined.

(** C4 does not hold of the code for META: two META records that differ only
    in the [BlkId] that follows the tag are treated differently, so the
    context of a META vdev is read as [{type, blkid}] too. *)
Lemma meta_context_carries_root_blkid_counterexample :
  let vb1 := found_vdev 3 META_STORE BlkId_invalid false in
  let vb2 := found_vdev 3 META_STORE (BlkId_at 0 0 1) false in
  ctx_type (context_data vb1) = ctx_type (context_data vb2)
  /\ fst (new_vdev_found demo_env vb1 (booted demo_env demo_input)) =
     Throw (homestore_exception "init was failed last time. Should retry it with init"
              init_failed)
  /\ fst (new_vdev_found demo_env vb2 (booted demo_env demo_input)) = Ret tt
  /\ meta_blk_mgr (snd (new_vdev_found demo_env vb2 (booted demo_env demo_input))) =
     Some {| meta_sb_blob := Some (context_data vb2); meta_init := false |}.
Proof. repeat split. Qed.

Lemma new_vdev_found_dispatches_on_tag_witness :
  new_vdev_found demo_env (found_vdev 3 META_STORE (BlkId_at 0 0 1) false)
    (booted demo_env demo_input) =
  create_meta_blkstore demo_env (Some (found_vdev 3 META_STORE (BlkId_at 0 0 1) false))
    (booted demo_env demo_input).
Proof.
  destruct (new_vdev_found_dispatches_on_tag demo_env
              (found_vdev 3 META_STORE (BlkId_at 0 0 1) false)
              (booted demo_env demo_input)) as (_ & Hknown & _).
  exact (proj1 (Hknown META_STORE eq_refl)).
Defined.

Lemma first_boot_vdev_sizes_witness :
  exists s' bs,
    init_devices demo_env fresh_media (booted demo_env demo_input) = (Ret tt, s')
    /\ blk_store_of DATA_STORE s' = Some bs
    /\ ctor_size (bs_ctor bs) = Some 1932738560.
Proof.
  destruct (first_boot_vdev_sizes demo_env fresh_media (booted demo_env demo_input)
              demo_dev_mgr DATA_STORE eq_refl eq_refl
              ltac:(decide_by_computation) ltac:(decide_by_computation)
              ltac:(decide_by_computation) ltac:(decide_by_computation)
              ltac:(decide_by_computation))
    as (s' & bs & size & Hrun & Hbs & Hsize & Heq & _).
  exists s', bs. split; [exact Hrun|]. split; [exact Hbs|].
  rewrite Hsize, Heq. reflexivity.
Defined.

Lemma first_boot_store_parameters_witness :
  exists s' sb,
    init_devices demo_env fresh_media (booted demo_env demo_input) = (Ret tt, s')
    /\ m_sb_blk_store s' = Some sb
    /\ ctor_mirrors (bs_ctor sb) = Some 1.
Proof.
  destruct (first_boot_store_parameters demo_env demo_input fresh_media
              ltac:(discriminate) ltac:(decide_by_computation) eq_refl
              ltac:(decide_by_computation) ltac:(decide_by_computation))
    as (s' & data & index & sb & logdev & meta & Hrun & _ & _ & Hsb & _ & _ & _ & _ & Hp & _).
  exists s', sb. split; [exact Hrun|]. split; [exact Hsb|].
  injection Hp as _ Hm _. exact Hm.
Defined.



(** Scenario "out of space" for the superblock store: the allocator refuses
    the block of the boot record. *)
Example alloc_sb_blk_out_of_space :
  fst (init_devices full_env fresh_media (booted full_env demo_input)) =
  Throw (homestore_exception "space not available" space_not_avail).
Proof. reflexivity. Qed.

Lemma alloc_sb_blk_success_or_space_not_avail_witness :
  fst (alloc_sb_blk demo_env 4096
         (first_boot_no_space_state demo_env fresh_media (booted demo_env demo_input)
            demo_dev_mgr)) = Ret (BlkId_at 0 0 1).
Proof.
  destruct (alloc_sb_blk_success_or_space_not_avail demo_env 4096
              (first_boot_no_space_state demo_env fresh_media (booted demo_env demo_input)
                 demo_dev_mgr)
              (store_created demo_env (hs_config (booted demo_env demo_input))
                 (m_data_pagesz (booted demo_env demo_input))
                 (media_total_cap fresh_media) SB_STORE)
              eq_refl) as (_ & Hok & _).
  rewrite (Hok eq_refl). reflexivity.
Defined.

Lemma recovery_done_forwarded_iff_not_first_boot_witness :
  let s := first_boot_state demo_env fresh_media (booted demo_env demo_input) demo_dev_mgr in
  data_recovery_done s = (Ret tt, s) /\ indx_recovery_done s = (Ret tt, s).
Proof.
  intro s.
  destruct (recovery_done_forwarded_iff_not_first_boot s
              (dm_mark_init_done (dm_attach fresh_media demo_dev_mgr))
              (store_created demo_env (hs_config (booted demo_env demo_input))
                 (m_data_pagesz (booted demo_env demo_input))
                 (media_total_cap fresh_media) DATA_STORE)
              (store_created demo_env (hs_config (booted demo_env demo_input))
                 (m_data_pagesz (booted demo_env demo_input))
                 (media_total_cap fresh_media) INDEX_STORE)
              eq_refl eq_refl eq_refl) as (Hd & Hi & _).
  split; [exact Hd|exact Hi].
Defined.

Lemma get_system_capacity_totals_witness :
  let s := first_boot_state demo_env fresh_media (booted demo_env demo_input) demo_dev_mgr in
  exists cap,
    get_system_capacity demo_env s = (Ret cap, s)
    /\ used_total_size cap = 0
    /\ initial_total_size cap = 1932738560 + 42950656.
Proof.
  intro s.
  destruct (get_system_capacity_totals demo_env s
              (store_created demo_env (hs_config (booted demo_env demo_input))
                 (m_data_pagesz (booted demo_env demo_input))
                 (media_total_cap fresh_media) DATA_STORE)
              (store_created demo_env (hs_config (booted demo_env demo_input))
                 (m_data_pagesz (booted demo_env demo_input))
                 (media_total_cap fresh_media) INDEX_STORE)
              eq_refl eq_refl
              ltac:(decide_by_computation) ltac:(decide_by_computation)
              ltac:(decide_by_computation) ltac:(decide_by_computation)
              ltac:(decide_by_computation) ltac:(decide_by_computation))
    as (cap & Hrun & _ & _ & Hused & Hinit & _).
  exists cap. split; [exact Hrun|]. split.
  - rewrite Hused. reflexivity.
  - rewrite Hinit. reflexivity.
Defined.

End Scenarios.

(** ** Further properties of the engine facade *)

Section EngineFurtherProperties.

Import Engine.
Local Open Scope hs_scope.

Variable env : Collaborators.

Ltac mstep :=
  first [rewrite bind_gets | rewrite bind_modify | rewrite bind_ret]; cbv beta.

(** *** [init] *)

(** X1.  [init] returns exactly when the device list is not empty.  On an
    empty list it throws [std::invalid_argument] and changes nothing.
    Otherwise the drive attributes are those of the input when it carries
    them and else those probed on the first device alone, [min_io_size] is
    the smaller of the virtual page size and the atomic page size, and no
    block store is constructed or dropped. *)
Theorem init_checks_devices_and_configures (inp : hs_input_params) (s : HomeStore) :
  (fst (init env inp s) = Ret tt <-> devices inp <> [])
  /\ (devices inp = [] ->
      init env inp s = (Throw (std_invalid_argument "null device list"), s))
  /\ (forall d rest,
        devices inp = d :: rest ->
        let s' := snd (init env inp s) in
        let attr :=
          match input_drive_attr inp with
          | Some a => a
          | None => get_attributes env (dev_names d) (device_type inp)
          end in
        hs_config s' =
          {| input := inp; drive_attr := attr;
             engine_min_io_size :=
               Z.min (min_virtual_page_size inp) (u32 (atomic_phys_page_size attr)) |}
        /\ engine_min_io_size (hs_config s') <= min_virtual_page_size inp
        /\ engine_min_io_size (hs_config s') < 2 ^ 32
        /\ m_data_pagesz s' = min_virtual_page_size inp
        /\ m_cache s' = Some {| cache_size := get_cache_size env;
                                cache_page_size := atomic_phys_page_size attr |}
        /\ m_dev_mgr s' = Some (DeviceManager_new inp)
        /\ (forall t, blk_store_of t s' = blk_store_of t s)
        /\ m_vdev_failed s' = m_vdev_failed s).
Proof.
  unfold init. destruct (devices inp) as [|d rest] eqn:Hd; simpl Nat.eqb; cbv iota.
  - split; [split; [discriminate|intro H; now contradiction H]|].
    split; [reflexivity|]. discriminate.
  - assert (Hb : forall a, Z.min (min_virtual_page_size inp) (u32 a) < 2 ^ 32).
    { intro a. pose proof (Z.mod_pos_bound a (2 ^ 32) ltac:(lia)). unfold u32. lia. }
    destruct (input_drive_attr inp) as [a|]; unfold get_drive_attrs; repeat mstep.
    + split; [split; [discriminate|reflexivity]|]. split; [discriminate|].
      intros d0 rest0 [= <- <-]. cbn.
      repeat split; try reflexivity; try apply Z.le_min_l; try apply Hb.
    + split; [split; [discriminate|reflexivity]|]. split; [discriminate|].
      intros d0 rest0 [= <- <-]. cbn.
      repeat split; try reflexivity; try apply Z.le_min_l; try apply Hb.
Qed.

(** *** First boot *)

(** X2.  When the allocator refuses the block of the boot record on a first
    boot, [init_devices] throws [space_not_avail] with the data, index and
    superblock stores constructed and the logdev and meta stores, the
    meta-block manager, [init_done] and the published capacity untouched; the
    superblock store is left without a root: nothing allocated, no context
    update. *)
Theorem first_boot_out_of_space (disk : Media) (s : HomeStore) (dm : DeviceManager) :
  m_dev_mgr s = Some dm ->
  media_formatted disk = false ->
  capacity_supported env (hs_config s) (media_total_cap disk) ->
  is_success
    (fst (sb_root_alloc env (hs_config s) (m_data_pagesz s) (media_total_cap disk))) = false ->
  let r := init_devices env disk s in
  let created := store_created env (hs_config s) (m_data_pagesz s) (media_total_cap disk) in
  fst r = Throw (homestore_exception "space not available" space_not_avail)
  /\ m_data_blk_store (snd r) = Some (created DATA_STORE)
  /\ m_index_blk_store (snd r) = Some (created INDEX_STORE)
  /\ m_sb_blk_store (snd r) = Some (created SB_STORE)
  /\ bs_allocated (created SB_STORE) = []
  /\ bs_vb_context (created SB_STORE) = None
  /\ m_logdev_blk_store (snd r) = m_logdev_blk_store s
  /\ m_meta_blk_store (snd r) = m_meta_blk_store s
  /\ meta_blk_mgr (snd r) = meta_blk_mgr s
  /\ m_dev_mgr (snd r) = Some (dm_attach disk dm)
  /\ dm_init_done (dm_attach disk dm) = dm_init_done dm
  /\ resource_total_cap (snd r) = resource_total_cap s.
Proof.
  intros Hdm Hfresh Hcap Halloc r created. unfold r.
  rewrite (init_devices_first_boot_run env disk s dm Hdm Hfresh Hcap), Halloc.
  repeat split.
Qed.

(** X3.  A first boot that returns leaves the superblock store rooted: the
    one block it allocated, of the atomic page size, is the [BlkId] written
    into its context; [available_size] is the size of the data store; the
    meta-block manager is started for initialisation without a root blob; the
    boot is marked as first, [init_done] is told and the capacity published;
    the failed flag is as before. *)
Theorem first_boot_roots_superblock (disk : Media) (s : HomeStore) (dm : DeviceManager) :
  m_dev_mgr s = Some dm ->
  media_formatted disk = false ->
  capacity_supported env (hs_config s) (media_total_cap disk) ->
  is_success
    (fst (sb_root_alloc env (hs_config s) (m_data_pagesz s) (media_total_cap disk))) = true ->
  let bid := snd (sb_root_alloc env (hs_config s) (m_data_pagesz s) (media_total_cap disk)) in
  exists s' sb data dm',
    init_devices env disk s = (Ret tt, s')
    /\ m_sb_blk_store s' = Some sb
    /\ bs_allocated sb = [(atomic_phys_page_size (drive_attr (hs_config s)), bid)]
    /\ bs_vb_context sb = Some {| sb_base := {| type := SB_STORE |}; blkid := bid |}
    /\ m_data_blk_store s' = Some data
    /\ ctor_size (bs_ctor data) = Some (m_size_avail s')
    /\ fst (available_size s') = Ret (first_boot_size (hs_config s) (media_total_cap disk)
                                        DATA_STORE)
    /\ meta_blk_mgr s' = Some {| meta_sb_blob := None; meta_init := true |}
    /\ m_dev_mgr s' = Some dm'
    /\ dm_first_time_boot dm' = true
    /\ dm_init_done dm' = true
    /\ dm_total_cap dm' = media_total_cap disk
    /\ resource_total_cap s' = Some (media_total_cap disk)
    /\ m_vdev_failed s' = m_vdev_failed s.
Proof.
  intros Hdm Hfresh Hcap Halloc bid.
  pose proof (init_devices_first_boot_run env disk s dm Hdm Hfresh Hcap) as Hrun.
  rewrite Halloc in Hrun.
  do 4 eexists. split; [exact Hrun|].
  repeat (split; [reflexivity|]).
  split; [cbn; now rewrite Hfresh|].
  repeat split.
Qed.

Lemma first_boot_total_bound (cfg : HomeStoreStaticConfig) (cap : Z) :
  0 < phys_page_size (drive_attr cfg) ->
  0 <= cap ->
  90 * cap < 2 ^ 64 ->
  first_boot_total cfg cap < 95 * cap / 100 + 5 * phys_page_size (drive_attr cfg) + 1.
Proof.
  intros Hp Hc Hw. unfold first_boot_total, first_boot_size, default_share.
  rewrite !u64_small by lia.
  set (p := phys_page_size (drive_attr cfg)) in *.
  pose proof (round_up_bounds (90 * cap / 100) p Hp) as B1.
  pose proof (round_up_bounds (2 * cap / 100) p Hp) as B2.
  pose proof (round_up_bounds (1 * cap / 100) p Hp) as B3.
  assert (Hsum : 90 * cap / 100 + 2 * cap / 100 + 3 * (1 * cap / 100) <= 95 * cap / 100).
  { pose proof (Z.div_mod (90 * cap) 100 ltac:(lia)).
    pose proof (Z.mod_pos_bound (90 * cap) 100 ltac:(lia)).
    pose proof (Z.div_mod (2 * cap) 100 ltac:(lia)).
    pose proof (Z.mod_pos_bound (2 * cap) 100 ltac:(lia)).
    pose proof (Z.div_mod (1 * cap) 100 ltac:(lia)).
    pose proof (Z.mod_pos_bound (1 * cap) 100 ltac:(lia)).
    apply Z.div_le_lower_bound; lia. }
  lia.
Qed.

(** X4.  The first-boot layout fits the devices: when the capacity holds at
    least a hundred physical pages, the sizes of the five vdevs created on a
    first boot add up to no more than the total capacity (95% of it, plus at
    most one page of rounding for each vdev). *)
Theorem first_boot_layout_fits_capacity (disk : Media) (s : HomeStore) (dm : DeviceManager) :
  m_dev_mgr s = Some dm ->
  media_formatted disk = false ->
  capacity_supported env (hs_config s) (media_total_cap disk) ->
  is_success
    (fst (sb_root_alloc env (hs_config s) (m_data_pagesz s) (media_total_cap disk))) = true ->
  0 < phys_page_size (drive_attr (hs_config s)) ->
  100 * phys_page_size (drive_attr (hs_config s)) <= media_total_cap disk ->
  90 * media_total_cap disk < 2 ^ 64 ->
  exists s' data index sb logdev meta zd zi zs zl zm,
    init_devices env disk s = (Ret tt, s')
    /\ m_data_blk_store s' = Some data /\ ctor_size (bs_ctor data) = Some zd
    /\ m_index_blk_store s' = Some index /\ ctor_size (bs_ctor index) = Some zi
    /\ m_sb_blk_store s' = Some sb /\ ctor_size (bs_ctor sb) = Some zs
    /\ m_logdev_blk_store s' = Some logdev /\ ctor_size (bs_ctor logdev) = Some zl
    /\ m_meta_blk_store s' = Some meta /\ ctor_size (bs_ctor meta) = Some zm
    /\ zd + zi + zs + zl + zm <= media_total_cap disk.
Proof.
  intros Hdm Hfresh Hcap Halloc Hp Hpages Hw.
  pose proof (init_devices_first_boot_run env disk s dm Hdm Hfresh Hcap) as Hrun.
  rewrite Halloc in Hrun.
  do 11 eexists. split; [exact Hrun|].
  do 10 (split; [reflexivity|]).
  pose proof (first_boot_total_bound (hs_config s) (media_total_cap disk) Hp
                ltac:(lia) Hw) as Hb.
  unfold first_boot_total in Hb.
  assert (95 * media_total_cap disk / 100 + 5 * phys_page_size (drive_attr (hs_config s))
          <= media_total_cap disk).
  { pose proof (Z.div_mod (95 * media_total_cap disk) 100 ltac:(lia)).
    pose proof (Z.mod_pos_bound (95 * media_total_cap disk) 100 ltac:(lia)).
    lia. }
  lia.
Qed.

(** *** All the ways through [init_devices] *)

Lemma capacity_checks_true (cfg : HomeStoreStaticConfig) (cap : Z) :
  capacity_checks env cfg cap = true <-> capacity_supported env cfg cap.
Proof.
  unfold capacity_checks, capacity_supported.
  rewrite andb_true_iff, !Z.ltb_lt. reflexivity.
Qed.

(** Where a failed assertion stops, a start-up whose capacity assertions do
    not hold stops after the devices are attached (and, on reattach, the
    vdev-found events dispatched). *)
Lemma init_devices_unsupported_capacity (disk : Media) (s s1 : HomeStore) (dm : DeviceManager)
    (first : bool) :
  m_dev_mgr s = Some dm ->
  add_devices disk (new_vdev_found env) s = (Ret first, s1) ->
  m_dev_mgr s1 = Some (dm_attach disk dm) ->
  capacity_checks env (hs_config s) (media_total_cap disk) = false ->
  logmsg_assert_stops env = true ->
  exists f, init_devices env disk s = (Fault f, s1).
Proof.
  intros Hdm Hadd H1 Hcap Hstop. unfold init_devices. mstep.
  rewrite (bind_Ret _ _ _ _ _ Hadd).
  rewrite (bind_Ret _ _ _ _ _ (get_total_cap_run s1 _ H1)).
  change (dm_total_cap (dm_attach disk dm)) with (media_total_cap disk).
  unfold capacity_checks in Hcap. apply andb_false_iff in Hcap.
  destruct (MIN_DISK_CAP_SUPPORTED env <? _) eqn:Hmin.
  - destruct Hcap as [Hcap|Hcap]; [discriminate|].
    rewrite (hs_assert_passes env true _ (or_introl eq_refl)). mstep.
    rewrite (bind_Ret _ _ _ _ _ (get_total_cap_run s1 _ H1)).
    change (dm_total_cap (dm_attach disk dm)) with (media_total_cap disk).
    rewrite Hcap, (hs_assert_stops env false _ eq_refl Hstop). eexists. reflexivity.
  - rewrite (hs_assert_stops env false _ eq_refl Hstop). eexists. reflexivity.
Qed.

Lemma init_devices_reattach_run_through
    (disk : Media) (s : HomeStore) (dm : DeviceManager) :
  m_dev_mgr s = Some dm ->
  media_formatted disk = true ->
  capacity_checks env (hs_config s) (media_total_cap disk)
  || negb (logmsg_assert_stops env) = true ->
  init_devices env disk s =
  match for_each (new_vdev_found env) (media_vdevs disk) (attached disk dm s) with
  | (Ret _, s1) => (Ret tt, started disk dm s1)
  | (Throw e, s1) => (Throw e, s1)
  | (Fault f, s1) => (Fault f, s1)
  end.
Proof.
  intros Hdm Hf Hok.
  destruct (capacity_checks_pass env _ _ Hok) as [Hmin Hmax].
  unfold init_devices. mstep.
  pose proof (add_devices_formatted disk (new_vdev_found env) s dm Hdm Hf) as Ha.
  pose proof (for_each_new_vdev_found_frame env (media_vdevs disk) (attached disk dm s))
    as Hfr.
  fold (attached disk dm s) in Ha.
  destruct (for_each (new_vdev_found env) (media_vdevs disk) (attached disk dm s))
    as [[[]|e|g] s1]; simpl snd in *.
  - rewrite (bind_Ret _ _ _ _ _ Ha).
    assert (H1 : m_dev_mgr s1 = Some (dm_attach disk dm)).
    { rewrite (frame_dev_mgr _ _ Hfr). reflexivity. }
    rewrite (bind_Ret _ _ _ _ _ (get_total_cap_run s1 _ H1)).
    change (dm_total_cap (dm_attach disk dm)) with (media_total_cap disk).
    rewrite (hs_assert_passes env _ _ Hmin). mstep.
    rewrite (bind_Ret _ _ _ _ _ (get_total_cap_run s1 _ H1)).
    change (dm_total_cap (dm_attach disk dm)) with (media_total_cap disk).
    rewrite (hs_assert_passes env _ _ Hmax). do 2 mstep.
    rewrite (bind_Ret _ _ _ _ _ (init_done_run s1 _ H1)).
    erewrite bind_Ret; [|apply get_total_cap_run; reflexivity].
    reflexivity.
  - rewrite (bind_Throw _ _ _ _ _ Ha). reflexivity.
  - rewrite (bind_Fault _ _ _ _ _ Ha). reflexivity.
Qed.

Lemma init_devices_reattach_run (disk : Media) (s : HomeStore) (dm : DeviceManager) :
  m_dev_mgr s = Some dm ->
  media_formatted disk = true ->
  capacity_supported env (hs_config s) (media_total_cap disk) ->
  init_devices env disk s =
  match for_each (new_vdev_found env) (media_vdevs disk) (attached disk dm s) with
  | (Ret _, s1) => (Ret tt, started disk dm s1)
  | (Throw e, s1) => (Throw e, s1)
  | (Fault f, s1) => (Fault f, s1)
  end.
Proof.
  intros Hdm Hf Hcap.
  apply init_devices_reattach_run_through; auto using capacity_supported_checks.
Qed.

(** What [init_devices] does, by cases: without device manager; stopped at
    a capacity assertion; on a first boot; on reattach. *)
Lemma init_devices_cases (disk : Media) (s : HomeStore) :
  (m_dev_mgr s = None /\ init_devices env disk s = (Fault (null_dereference "m_dev_mgr"), s))
  \/ (exists dm,
        m_dev_mgr s = Some dm
        /\ (((capacity_checks env (hs_config s) (media_total_cap disk) = false
              /\ logmsg_assert_stops env = true)
             /\ exists f s1,
                  init_devices env disk s = (Fault f, s1)
                  /\ ((media_formatted disk = false /\ s1 = attached disk dm s)
                      \/ (media_formatted disk = true
                          /\ for_each (new_vdev_found env) (media_vdevs disk)
                               (attached disk dm s) = (Ret tt, s1))))
            \/ (media_formatted disk = false
                /\ (init_devices env disk s = (Ret tt, first_boot_state env disk s dm)
                    \/ init_devices env disk s =
                       (Throw space_not_available_exn,
                        first_boot_no_space_state env disk s dm)))
            \/ (media_formatted disk = true
                /\ init_devices env disk s =
                   match for_each (new_vdev_found env) (media_vdevs disk)
                           (attached disk dm s) with
                   | (Ret _, s1) => (Ret tt, started disk dm s1)
                   | (Throw e, s1) => (Throw e, s1)
                   | (Fault f, s1) => (Fault f, s1)
                   end))).
Proof.
  destruct (m_dev_mgr s) as [dm|] eqn:Hdm;
    [right; exists dm; split; [reflexivity|]
    |left; split; [reflexivity|now apply init_devices_without_dev_mgr]].
  destruct (capacity_checks env (hs_config s) (media_total_cap disk)
            || negb (logmsg_assert_stops env)) eqn:Hok.
  - right. destruct (media_formatted disk) eqn:Hf.
    + right. split; [reflexivity|]. now apply init_devices_reattach_run_through.
    + left. split; [reflexivity|].
      rewrite (init_devices_first_boot_run_through env disk s dm Hdm Hf Hok).
      destruct (is_success _); [now left|now right].
  - apply orb_false_iff in Hok. destruct Hok as [Hc Hstop].
    apply negb_false_iff in Hstop.
    destruct (media_formatted disk) eqn:Hf.
    + pose proof (add_devices_formatted disk (new_vdev_found env) s dm Hdm Hf) as Ha.
      pose proof (for_each_new_vdev_found_frame env (media_vdevs disk) (attached disk dm s))
        as Hfr.
      fold (attached disk dm s) in Ha.
      destruct (for_each (new_vdev_found env) (media_vdevs disk) (attached disk dm s))
        as [[[]|e|g] s1] eqn:Hrun; simpl snd in *.
      * left. split; [now split|].
        assert (H1 : m_dev_mgr s1 = Some (dm_attach disk dm)).
        { rewrite (frame_dev_mgr _ _ Hfr). reflexivity. }
        destruct (init_devices_unsupported_capacity disk s s1 dm false Hdm Ha H1 Hc Hstop)
          as [f Hrunf].
        exists f, s1. split; [exact Hrunf|right; now split].
      * right. right. split; [reflexivity|].
        unfold init_devices. mstep. rewrite (bind_Throw _ _ _ _ _ Ha). reflexivity.
      * right. right. split; [reflexivity|].
        unfold init_devices. mstep. rewrite (bind_Fault _ _ _ _ _ Ha). reflexivity.
    + left. split; [now split|].
      destruct (init_devices_unsupported_capacity disk s (attached disk dm s) dm true Hdm
                  (add_devices_fresh disk _ s dm Hdm Hf) eq_refl Hc Hstop) as [f Hrunf].
      exists f, (attached disk dm s). split; [exact Hrunf|left; now split].
Qed.

(** *** One record *)

Lemma blkstore_type_val_inj (a b : blkstore_type) :
  blkstore_type_val a = blkstore_type_val b -> a = b.
Proof. destruct a, b; simpl; intro H; congruence. Qed.

(** X5.  What the constructor of a record with a known tag does is decided in
    this order: a failed record throws the runtime error, whatever its root
    block; a healthy SUPERBLOCK or META record with an invalid root block
    throws [init_failed]; every other record is loaded and the call
    returns. *)
Theorem new_vdev_found_outcome
    (vb : vdev_info_block) (t : blkstore_type) (s : HomeStore) :
  ctx_type (context_data vb) = blkstore_type_val t ->
  (fst (new_vdev_found env vb s) = Throw (std_runtime_error "vdev in failed state")
   <-> failed vb = true)
  /\ (fst (new_vdev_found env vb s) =
        Throw (homestore_exception "init was failed last time. Should retry it with init"
                 init_failed)
      <-> failed vb = false /\ reads_root_blkid t = true
          /\ is_valid (ctx_blkid (context_data vb)) = false)
  /\ (fst (new_vdev_found env vb s) = Ret tt <-> loads_cleanly vb = true).
Proof.
  intro Htag. unfold loads_cleanly.
  rewrite new_vdev_found_decode, Htag, blkstore_type_of_val_val, create_blkstore_load.
  destruct (failed vb); simpl.
  - repeat split; try discriminate; auto. intros (H & _); discriminate.
  - destruct (reads_root_blkid t); simpl;
      [destruct (is_valid (ctx_blkid (context_data vb))); simpl|];
      repeat split; try discriminate; auto; intros (_ & H1 & H2); discriminate.
Qed.

Lemma tag_out_of_range (z : Z) :
  z < 1 \/ 5 < z -> forall t, z <> blkstore_type_val t.
Proof. intros H t. destruct t; simpl; lia. Qed.

(** X6.  A record whose tag is none of the five constructs nothing: the
    dispatch runs the assertion of its default branch alone and the state is
    as it was.  Where a failed assertion stops, [init_devices] stops at that
    record on reattach, with only the records before it loaded; where it does
    not, the record is passed over and the catalog is dispatched as if the
    record were not in it. *)
Theorem unknown_tag_constructs_nothing
    (disk : Media) (s s1 : HomeStore) (dm : DeviceManager)
    (pre post : list vdev_info_block) (vb : vdev_info_block) :
  m_dev_mgr s = Some dm ->
  media_formatted disk = true ->
  media_vdevs disk = pre ++ vb :: post ->
  for_each (new_vdev_found env) pre (attached disk dm s) = (Ret tt, s1) ->
  ctx_type (context_data vb) < 1 \/ 5 < ctx_type (context_data vb) ->
  snd (new_vdev_found env vb s1) = s1
  /\ (logmsg_assert_stops env = true ->
      new_vdev_found env vb s1 = (Fault (assert_failure "Unknown blkstore_type"), s1)
      /\ init_devices env disk s = (Fault (assert_failure "Unknown blkstore_type"), s1))
  /\ (logmsg_assert_stops env = false ->
      new_vdev_found env vb s1 = (Ret tt, s1)
      /\ for_each (new_vdev_found env) (media_vdevs disk) (attached disk dm s) =
         for_each (new_vdev_found env) (pre ++ post) (attached disk dm s)).
Proof.
  intros Hdm Hf Hl Hpre Htag.
  assert (Hvb : new_vdev_found env vb s1 = hs_assert env false "Unknown blkstore_type" s1).
  { rewrite new_vdev_found_decode, (tag_of_no_type _ (tag_out_of_range _ Htag)).
    reflexivity. }
  split; [rewrite Hvb; apply hs_assert_state|]. split.
  - intro Hstop. rewrite (hs_assert_stops env false _ eq_refl Hstop) in Hvb.
    split; [exact Hvb|].
    pose proof (add_devices_formatted disk (new_vdev_found env) s dm Hdm Hf) as Ha.
    fold (attached disk dm s) in Ha.
    rewrite Hl, for_each_app, Hpre, for_each_cons, Hvb in Ha.
    unfold init_devices. mstep. rewrite (bind_Fault _ _ _ _ _ Ha). reflexivity.
  - intro Hgo. rewrite (hs_assert_passes env false _ (or_intror Hgo)) in Hvb.
    split; [exact Hvb|].
    rewrite Hl, !for_each_app, Hpre, for_each_cons, Hvb. reflexivity.
Qed.

(** *** The failed flag *)

Lemma new_vdev_found_flag (vb : vdev_info_block) (s : HomeStore) :
  (fst (new_vdev_found env vb s) = Throw vdev_in_failed_state_exn
   /\ m_vdev_failed (snd (new_vdev_found env vb s)) = true)
  \/ (fst (new_vdev_found env vb s) <> Throw vdev_in_failed_state_exn
      /\ m_vdev_failed (snd (new_vdev_found env vb s)) = m_vdev_failed s).
Proof.
  rewrite new_vdev_found_decode.
  destruct (blkstore_type_of_val (ctx_type (context_data vb))) as [t|].
  2: { right.
       destruct (hs_assert_cases env false "Unknown blkstore_type" s)
         as [-> | (_ & _ & ->)]; (split; [discriminate|reflexivity]). }
  rewrite create_blkstore_load. unfold store_loaded.
  destruct (failed vb); [left; split; reflexivity|].
  destruct (reads_root_blkid t && negb (is_valid (ctx_blkid (context_data vb))));
    right; (split; [discriminate|destruct t; reflexivity]).
Qed.

Lemma for_each_new_vdev_found_flag (l : list vdev_info_block) :
  forall s,
    (fst (for_each (new_vdev_found env) l s) = Throw vdev_in_failed_state_exn
     /\ m_vdev_failed (snd (for_each (new_vdev_found env) l s)) = true)
    \/ (fst (for_each (new_vdev_found env) l s) <> Throw vdev_in_failed_state_exn
        /\ m_vdev_failed (snd (for_each (new_vdev_found env) l s)) = m_vdev_failed s).
Proof.
  induction l as [|vb l IH]; intro s; [right; split; [discriminate|reflexivity]|].
  rewrite for_each_cons.
  pose proof (new_vdev_found_flag vb s) as Hvb.
  destruct (new_vdev_found env vb s) as [[[]|e|g] s1]; simpl fst in *; simpl snd in *.
  - destruct Hvb as [[Hvb _]|[_ Hvb]]; [discriminate|].
    rewrite <- Hvb. apply IH.
  - exact Hvb.
  - exact Hvb.
Qed.

(** X7.  After [init_devices], whatever the media and the outcome, the flag
    [m_vdev_failed] is set exactly when it was set before or the exception
    that left [init_devices] is the runtime error of a failed vdev; no path
    clears the flag, and no other error sets it. *)
Theorem vdev_failed_flag_tracks_failed_throw (disk : Media) (s : HomeStore) :
  m_vdev_failed (snd (init_devices env disk s)) = true
  <-> m_vdev_failed s = true
      \/ fst (init_devices env disk s) = Throw (std_runtime_error "vdev in failed state").
Proof.
  assert (Hlaw :
    (fst (init_devices env disk s) = Throw vdev_in_failed_state_exn
     /\ m_vdev_failed (snd (init_devices env disk s)) = true)
    \/ (fst (init_devices env disk s) <> Throw vdev_in_failed_state_exn
        /\ m_vdev_failed (snd (init_devices env disk s)) = m_vdev_failed s)).
  { destruct (init_devices_cases disk s)
      as [[_ Hrun]|(dm & Hdm & [(_ & f & s1 & Hrun & Hs1)|[(_ & Hrun)|(_ & Hrun)]])].
    - rewrite Hrun. right. split; [discriminate|reflexivity].
    - rewrite Hrun. right. split; [discriminate|]. simpl snd.
      destruct Hs1 as [[_ ->]|[_ Hpre]]; [reflexivity|].
      pose proof (for_each_new_vdev_found_flag (media_vdevs disk) (attached disk dm s))
        as Hfl.
      rewrite Hpre in Hfl. destruct Hfl as [[Hfl _]|[_ Hfl]]; [discriminate|exact Hfl].
    - destruct Hrun as [Hrun|Hrun]; rewrite Hrun; right;
        (split; [discriminate|reflexivity]).
    - rewrite Hrun.
      pose proof (for_each_new_vdev_found_flag (media_vdevs disk) (attached disk dm s))
        as Hfl.
      destruct (for_each (new_vdev_found env) (media_vdevs disk) (attached disk dm s))
        as [[[]|e|g] s1]; simpl fst in *; simpl snd in *.
      + right. split; [discriminate|].
        destruct Hfl as [[Hfl _]|[_ Hfl]]; [discriminate|exact Hfl].
      + exact Hfl.
      + exact Hfl. }
  change (std_runtime_error "vdev in failed state") with vdev_in_failed_state_exn.
  destruct Hlaw as [[Hthrow Hflag]|[Hthrow Hflag]].
  - split; [now right|intros _; exact Hflag].
  - rewrite Hflag. split; [now left|].
    intros [H|H]; [exact H|now contradiction Hthrow].
Qed.

(** X8.  Start-up is completed only when [init_devices] returns: then the
    device manager has been told [init_done] and the total capacity of the
    media is published.  When a constructor throws or an assertion stops the
    run, the device manager has not been told [init_done] and the published
    capacity is the one from before. *)
Theorem start_up_completes_only_on_return
    (disk : Media) (s : HomeStore) (dm : DeviceManager) :
  m_dev_mgr s = Some dm ->
  (fst (init_devices env disk s) = Ret tt ->
   m_dev_mgr (snd (init_devices env disk s)) = Some (dm_mark_init_done (dm_attach disk dm))
   /\ resource_total_cap (snd (init_devices env disk s)) = Some (media_total_cap disk))
  /\ (fst (init_devices env disk s) <> Ret tt ->
      (exists dm',
         m_dev_mgr (snd (init_devices env disk s)) = Some dm'
         /\ dm_init_done dm' = dm_init_done dm)
      /\ resource_total_cap (snd (init_devices env disk s)) = resource_total_cap s).
Proof.
  intro Hdm.
  assert (Hfr : forall s1,
             for_each (new_vdev_found env) (media_vdevs disk) (attached disk dm s) = s1 ->
             (exists dm',
                m_dev_mgr (snd s1) = Some dm' /\ dm_init_done dm' = dm_init_done dm)
             /\ resource_total_cap (snd s1) = resource_total_cap s).
  { intros s1 <-.
    pose proof (for_each_new_vdev_found_frame env (media_vdevs disk) (attached disk dm s))
      as Hfr.
    rewrite (frame_dev_mgr _ _ Hfr), (frame_total_cap _ _ Hfr).
    split; [|reflexivity]. exists (dm_attach disk dm). split; reflexivity. }
  destruct (init_devices_cases disk s)
    as [[Hnone _]|(dm0 & Hdm0 & [(_ & f & s1 & Hrun & Hs1)|[(_ & Hrun)|(_ & Hrun)]])];
    [congruence| | |]; rewrite Hdm in Hdm0; injection Hdm0 as <-.
  - rewrite Hrun. split; [discriminate|]. intros _. simpl snd.
    destruct Hs1 as [[_ ->]|[_ Hpre]]; [|exact (Hfr _ Hpre)].
    split; [|reflexivity]. exists (dm_attach disk dm). split; reflexivity.
  - destruct Hrun as [Hrun|Hrun]; rewrite Hrun.
    + split; [intros _; split; reflexivity|intro H; now contradiction H].
    + split; [discriminate|intros _]. split; [|reflexivity].
      exists (dm_attach disk dm). split; reflexivity.
  - rewrite Hrun.
    specialize (Hfr _ eq_refl).
    destruct (for_each (new_vdev_found env) (media_vdevs disk) (attached disk dm s))
      as [[[]|e|g] s1]; simpl fst in *; simpl snd in *.
    + split; [intros _; split; reflexivity|intro H; now contradiction H].
    + split; [discriminate|intros _; exact Hfr].
    + split; [discriminate|intros _; exact Hfr].
Qed.

(** *** Reattach *)

Lemma loads_cleanly_inv (vb : vdev_info_block) :
  loads_cleanly vb = true ->
  exists t,
    ctx_type (context_data vb) = blkstore_type_val t
    /\ failed vb = false
    /\ reads_root_blkid t && negb (is_valid (ctx_blkid (context_data vb))) = false.
Proof.
  unfold loads_cleanly. intro H. apply andb_true_iff in H. destruct H as [Hf Hr].
  destruct (blkstore_type_of_val (ctx_type (context_data vb))) as [t|] eqn:Ht;
    [|discriminate].
  exists t. split; [now apply blkstore_type_of_val_Some|].
  split; [now destruct (failed vb)|].
  destruct (reads_root_blkid t); [|reflexivity].
  simpl in *. now rewrite Hr.
Qed.

Lemma tag_eqb_type (t t' : blkstore_type) :
  (blkstore_type_val t =? blkstore_type_val t') = true <-> t = t'.
Proof.
  rewrite Z.eqb_eq. split; [apply blkstore_type_val_inj|now intros ->].
Qed.

Lemma for_each_loads_cleanly (l : list vdev_info_block) :
  forall s,
    (forall vb, In vb l -> loads_cleanly vb = true) ->
    fst (for_each (new_vdev_found env) l s) = Ret tt
    /\ forall t,
         blk_store_of t (snd (for_each (new_vdev_found env) l s)) =
         match last_of_type t l with
         | Some vb =>
             Some (make_blkstore (load_ctor env (hs_config s) (m_data_pagesz s) t vb))
         | None => blk_store_of t s
         end.
Proof.
  induction l as [|vb l IH]; intros s Hall; [split; [reflexivity|intro t; reflexivity]|].
  destruct (loads_cleanly_inv vb (Hall vb (or_introl eq_refl))) as (tv & Htag & Hok & Hroot).
  assert (Hdec : new_vdev_found env vb s = create_blkstore env tv (Some vb) s).
  { rewrite new_vdev_found_decode, Htag, blkstore_type_of_val_val. reflexivity. }
  pose proof (create_blkstore_load_frame env tv vb s) as Hfr.
  pose proof (create_blkstore_load_same env tv vb s) as Hsame.
  pose proof (fun t' => create_blkstore_load_other env tv t' vb s) as Hother.
  assert (Hret : fst (create_blkstore env tv (Some vb) s) = Ret tt).
  { rewrite create_blkstore_load, Hok, Hroot. reflexivity. }
  rewrite for_each_cons, Hdec.
  destruct (create_blkstore env tv (Some vb) s) as [o s1]. simpl fst in *; simpl snd in *.
  subst o.
  destruct (IH s1 (fun v Hv => Hall v (or_intror Hv))) as [Hfst Hstores].
  split; [exact Hfst|]. intro t. rewrite Hstores. simpl last_of_type.
  rewrite (frame_config _ _ Hfr), (frame_pagesz _ _ Hfr).
  destruct (last_of_type t l); [reflexivity|].
  rewrite Htag.
  destruct (blkstore_type_val tv =? blkstore_type_val t) eqn:Heq.
  - apply tag_eqb_type in Heq. subst t. exact Hsame.
  - apply Hother. intros ->. rewrite Z.eqb_refl in Heq. discriminate.
Qed.

(** X9.  On reattach to media whose records all load (none failed, every tag
    known, valid roots where they are read), [init_devices] returns; each
    store member is the store built from the last record of its type in the
    catalog, a later record replacing an earlier one, and the member of a
    type without record is left as it was; the failed flag is as before. *)
Theorem reattach_constructs_stores_from_records
    (disk : Media) (s : HomeStore) (dm : DeviceManager) :
  m_dev_mgr s = Some dm ->
  media_formatted disk = true ->
  capacity_supported env (hs_config s) (media_total_cap disk) ->
  (forall vb, In vb (media_vdevs disk) -> loads_cleanly vb = true) ->
  fst (init_devices env disk s) = Ret tt
  /\ (forall t,
        blk_store_of t (snd (init_devices env disk s)) =
        match last_of_type t (media_vdevs disk) with
        | Some vb =>
            Some (make_blkstore (load_ctor env (hs_config s) (m_data_pagesz s) t vb))
        | None => blk_store_of t s
        end)
  /\ m_vdev_failed (snd (init_devices env disk s)) = m_vdev_failed s.
Proof.
  intros Hdm Hf Hcap Hall.
  rewrite (init_devices_reattach_run disk s dm Hdm Hf Hcap).
  destruct (for_each_loads_cleanly (media_vdevs disk) (attached disk dm s) Hall)
    as [Hfst Hstores].
  pose proof (for_each_new_vdev_found_flag (media_vdevs disk) (attached disk dm s)) as Hfl.
  destruct (for_each (new_vdev_found env) (media_vdevs disk) (attached disk dm s))
    as [o s1]. simpl fst in *; simpl snd in *. subst o.
  split; [reflexivity|]. split.
  - intro t. rewrite <- Hstores. destruct t; reflexivity.
  - destruct Hfl as [[Hfl _]|[_ Hfl]]; [discriminate|exact Hfl].
Qed.

(** X10.  When the records [pre] have been loaded and the next record, healthy
    and of type SUPERBLOCK or META, carries an invalid root [BlkId],
    [init_devices] throws [init_failed] with that store constructed; the
    failed flag is not set by it, the meta-block manager is not started by
    it, [init_done] is not told and the capacity is not published. *)
Theorem reattach_invalid_root_throws_init_failed
    (disk : Media) (s s1 : HomeStore) (dm : DeviceManager)
    (pre post : list vdev_info_block) (vb : vdev_info_block) (t : blkstore_type) :
  m_dev_mgr s = Some dm ->
  media_formatted disk = true ->
  media_vdevs disk = pre ++ vb :: post ->
  for_each (new_vdev_found env) pre (attached disk dm s) = (Ret tt, s1) ->
  ctx_type (context_data vb) = blkstore_type_val t ->
  t = SB_STORE \/ t = META_STORE ->
  failed vb = false ->
  is_valid (ctx_blkid (context_data vb)) = false ->
  init_devices env disk s =
    (Throw (homestore_exception "init was failed last time. Should retry it with init"
              init_failed),
     store_loaded env t vb s1)
  /\ m_vdev_failed (snd (init_devices env disk s)) = m_vdev_failed s
  /\ meta_blk_mgr (snd (init_devices env disk s)) = meta_blk_mgr s1
  /\ m_dev_mgr (snd (init_devices env disk s)) = Some (dm_attach disk dm)
  /\ resource_total_cap (snd (init_devices env disk s)) = resource_total_cap s.
Proof.
  intros Hdm Hf Hl Hpre Htag Ht Hok Hroot.
  assert (Hrun : init_devices env disk s =
                 (Throw init_was_failed_exn, store_loaded env t vb s1)).
  { apply (init_devices_reattach_throw env disk s _ dm _ Hdm Hf).
    rewrite Hl, for_each_app, Hpre, for_each_cons.
    rewrite new_vdev_found_decode, Htag, blkstore_type_of_val_val.
    rewrite create_blkstore_load, Hok, Hroot.
    destruct Ht as [-> | ->]; reflexivity. }
  pose proof (for_each_new_vdev_found_frame env pre (attached disk dm s)) as Hfr.
  pose proof (for_each_new_vdev_found_flag pre (attached disk dm s)) as Hfl.
  rewrite Hpre in Hfr, Hfl. simpl fst in *; simpl snd in *.
  rewrite Hrun. simpl snd. split; [reflexivity|]. split.
  - destruct Hfl as [[Hfl _]|[_ Hfl]]; [discriminate|].
    transitivity (m_vdev_failed s1); [destruct Ht as [-> | ->]; reflexivity|].
    rewrite Hfl. reflexivity.
  - split; [destruct Ht as [-> | ->]; reflexivity|]. split.
    + transitivity (m_dev_mgr s1); [destruct Ht as [-> | ->]; reflexivity|].
      rewrite (frame_dev_mgr _ _ Hfr). reflexivity.
    + transitivity (resource_total_cap s1); [destruct Ht as [-> | ->]; reflexivity|].
      rewrite (frame_total_cap _ _ Hfr). reflexivity.
Qed.

(** X11.  The root of the superblock store makes the round trip from a first
    boot to the next start.  After a first boot, the record that carries the
    blob of the superblock store is accepted by [new_vdev_found] exactly when
    the block of the boot record was granted and is a valid [BlkId]; the
    record left by a boot that ran out of space is rejected with
    [init_failed]. *)
Theorem sb_root_round_trip
    (disk : Media) (s : HomeStore) (dm : DeviceManager) (id : Z) (s2 : HomeStore) :
  m_dev_mgr s = Some dm ->
  media_formatted disk = false ->
  capacity_supported env (hs_config s) (media_total_cap disk) ->
  let alloc := sb_root_alloc env (hs_config s) (m_data_pagesz s) (media_total_cap disk) in
  exists sb b,
    m_sb_blk_store (snd (init_devices env disk s)) = Some sb
    /\ sb_store_blob sb = Some b
    /\ blkid b = (if is_success (fst alloc) then snd alloc else BlkId_invalid)
    /\ fst (new_vdev_found env (sb_vdev_record id b) s2) =
       (if is_success (fst alloc) && is_valid (snd alloc) then Ret tt
        else Throw (homestore_exception
                      "init was failed last time. Should retry it with init" init_failed)).
Proof.
  intros Hdm Hfresh Hcap alloc.
  rewrite (init_devices_first_boot_run env disk s dm Hdm Hfresh Hcap). fold alloc.
  destruct (is_success (fst alloc)).
  - do 2 eexists. split; [reflexivity|]. split; [reflexivity|]. split; [reflexivity|].
    rewrite new_vdev_found_decode. cbn [sb_vdev_record context_data ctx_type type sb_base].
    rewrite blkstore_type_of_val_val, create_blkstore_load.
    cbn [sb_vdev_record context_data ctx_blkid blkid failed reads_root_blkid andb].
    fold alloc. destruct (is_valid (snd alloc)); reflexivity.
  - do 2 eexists. split; [reflexivity|]. split; [reflexivity|]. split; [reflexivity|].
    rewrite new_vdev_found_decode. cbn [sb_vdev_record context_data ctx_type type sb_base].
    rewrite blkstore_type_of_val_val, create_blkstore_load. reflexivity.
Qed.

(** *** Capacity and recovery *)

(** X12.  [get_system_capacity] only reads: the state is the same after it,
    whatever the outcome, and it yields a report only in a state that has both
    the data and the index store. *)
Theorem get_system_capacity_read_only (s : HomeStore) :
  snd (get_system_capacity env s) = s
  /\ (forall cap,
        fst (get_system_capacity env s) = Ret cap ->
        exists d i, m_data_blk_store s = Some d /\ m_index_blk_store s = Some i)
  /\ (m_data_blk_store s = None \/ m_index_blk_store s = None ->
      exists f, fst (get_system_capacity env s) = Fault f).
Proof.
  unfold get_system_capacity, get_data_blkstore, get_index_blkstore, bind, deref.
  destruct (m_data_blk_store s) as [d|] eqn:Hd; simpl.
  - rewrite ?Hd. destruct (m_index_blk_store s) as [i|] eqn:Hi; simpl.
    + rewrite ?Hd, ?Hi. simpl. split; [reflexivity|]. split.
      * intros cap _. now exists d, i.
      * intros [H|H]; discriminate.
    + split; [reflexivity|]. split; [discriminate|]. intros _. eexists. reflexivity.
  - split; [reflexivity|]. split; [discriminate|]. intros _. eexists. reflexivity.
Qed.

Lemma data_recovery_done_run (s : HomeStore) (dm : DeviceManager) (d : BlkStore) :
  m_dev_mgr s = Some dm ->
  m_data_blk_store s = Some d ->
  data_recovery_done s =
  (Ret tt, if dm_first_time_boot dm then s
           else set_data_blk_store (Some (recovery_done d)) s).
Proof.
  intros Hdm Hd. unfold data_recovery_done.
  rewrite (bind_Ret _ _ _ _ _ (is_first_time_boot_run s dm Hdm)).
  destruct (dm_first_time_boot dm); [reflexivity|]. cbn [negb].
  rewrite (bind_Ret _ _ _ _ _ (deref_Some _ _ _ _ Hd)). reflexivity.
Qed.

Lemma indx_recovery_done_run (s : HomeStore) (dm : DeviceManager) (i : BlkStore) :
  m_dev_mgr s = Some dm ->
  m_index_blk_store s = Some i ->
  indx_recovery_done s =
  (Ret tt, if dm_first_time_boot dm then s
           else set_index_blk_store (Some (recovery_done i)) s).
Proof.
  intros Hdm Hi. unfold indx_recovery_done.
  rewrite (bind_Ret _ _ _ _ _ (is_first_time_boot_run s dm Hdm)).
  destruct (dm_first_time_boot dm); [reflexivity|]. cbn [negb].
  rewrite (bind_Ret _ _ _ _ _ (deref_Some _ _ _ _ Hi)). reflexivity.
Qed.

(** X13.  The two recovery notifications are independent: with both stores
    present, [data_recovery_done] then [indx_recovery_done] reaches the same
    state as the other order, each touches only its own store, and nothing
    guards against repetition, so on a reattach a second
    [data_recovery_done] reaches the data store a second time. *)
Theorem recovery_done_calls_commute
    (s : HomeStore) (dm : DeviceManager) (d i : BlkStore) :
  m_dev_mgr s = Some dm ->
  m_data_blk_store s = Some d ->
  m_index_blk_store s = Some i ->
  bind data_recovery_done (fun _ => indx_recovery_done) s =
    bind indx_recovery_done (fun _ => data_recovery_done) s
  /\ m_index_blk_store (snd (data_recovery_done s)) = Some i
  /\ m_data_blk_store (snd (indx_recovery_done s)) = Some d
  /\ (dm_first_time_boot dm = false ->
      exists d2,
        m_data_blk_store
          (snd (bind data_recovery_done (fun _ => data_recovery_done) s)) = Some d2
        /\ bs_recovery_done d2 = S (S (bs_recovery_done d))).
Proof.
  intros Hdm Hd Hi.
  pose proof (data_recovery_done_run s dm d Hdm Hd) as Rd.
  pose proof (indx_recovery_done_run s dm i Hdm Hi) as Ri.
  rewrite (bind_Ret _ _ _ _ _ Rd), (bind_Ret _ _ _ _ _ Ri), Rd, Ri.
  destruct (dm_first_time_boot dm) eqn:Hfirst; cbv iota; simpl snd.
  - rewrite Rd, Ri. repeat split; try assumption. discriminate.
  - split.
    + rewrite (indx_recovery_done_run (set_data_blk_store (Some (recovery_done d)) s)
                 dm i Hdm Hi), Hfirst.
      rewrite (data_recovery_done_run (set_index_blk_store (Some (recovery_done i)) s)
                 dm d Hdm Hd), Hfirst. reflexivity.
    + split; [exact Hi|]. split; [exact Hd|]. intros _.
      rewrite (bind_Ret _ _ _ _ _ Rd). cbv iota.
      rewrite (data_recovery_done_run (set_data_blk_store (Some (recovery_done d)) s)
                 dm (recovery_done d) Hdm eq_refl), Hfirst.
      eexists. split; reflexivity.
Qed.

(** *** The meta-block manager *)

Lemma new_vdev_found_meta_start (vb : vdev_info_block) (s : HomeStore) :
  meta_blk_mgr (snd (new_vdev_found env vb s)) = meta_blk_mgr s
  \/ (ctx_type (context_data vb) = blkstore_type_val META_STORE
      /\ failed vb = false
      /\ is_valid (ctx_blkid (context_data vb)) = true
      /\ meta_blk_mgr (snd (new_vdev_found env vb s)) =
         Some {| meta_sb_blob := Some (context_data vb); meta_init := false |}).
Proof.
  rewrite new_vdev_found_decode.
  destruct (blkstore_type_of_val (ctx_type (context_data vb))) as [t|] eqn:Ht;
    [|left; now rewrite hs_assert_state].
  apply blkstore_type_of_val_Some in Ht.
  rewrite create_blkstore_load. unfold store_loaded.
  destruct (failed vb); [left; destruct t; reflexivity|].
  destruct t; simpl reads_root_blkid; simpl andb; try (left; reflexivity).
  - destruct (is_valid (ctx_blkid (context_data vb))); left; reflexivity.
  - destruct (is_valid (ctx_blkid (context_data vb))) eqn:Hv; [|left; reflexivity].
    right. repeat split; assumption.
Qed.

(** X14.  The meta-block manager is started in initialisation mode only by a
    first boot.  If a reattach starts it, it is started with [init = false]
    and with the context of a healthy META record of the catalog whose root
    [BlkId] is valid; a reattach never starts it for initialisation nor with
    an invalid root. *)
Theorem meta_blk_mgr_start_mode
    (disk : Media) (s : HomeStore) (dm : DeviceManager) (m : meta_blk_mgr_start) :
  m_dev_mgr s = Some dm ->
  meta_blk_mgr s = None ->
  meta_blk_mgr (snd (init_devices env disk s)) = Some m ->
  (media_formatted disk = false ->
   fst (init_devices env disk s) = Ret tt
   /\ m = {| meta_sb_blob := None; meta_init := true |})
  /\ (media_formatted disk = true ->
      meta_init m = false
      /\ exists vb,
           In vb (media_vdevs disk)
           /\ ctx_type (context_data vb) = blkstore_type_val META_STORE
           /\ failed vb = false
           /\ is_valid (ctx_blkid (context_data vb)) = true
           /\ meta_sb_blob m = Some (context_data vb)).
Proof.
  intros Hdm Hnone Hm.
  assert (Hloop :
    meta_blk_mgr (snd (for_each (new_vdev_found env) (media_vdevs disk)
                         (attached disk dm s))) = meta_blk_mgr (attached disk dm s)
    \/ exists vb,
         In vb (media_vdevs disk)
         /\ ctx_type (context_data vb) = blkstore_type_val META_STORE
         /\ failed vb = false
         /\ is_valid (ctx_blkid (context_data vb)) = true
         /\ meta_blk_mgr (snd (for_each (new_vdev_found env) (media_vdevs disk)
                                  (attached disk dm s))) =
            Some {| meta_sb_blob := Some (context_data vb); meta_init := false |}).
  { apply (for_each_invariant
             (fun s1 s2 =>
                meta_blk_mgr s2 = meta_blk_mgr s1
                \/ exists vb,
                     In vb (media_vdevs disk)
                     /\ ctx_type (context_data vb) = blkstore_type_val META_STORE
                     /\ failed vb = false
                     /\ is_valid (ctx_blkid (context_data vb)) = true
                     /\ meta_blk_mgr s2 =
                        Some {| meta_sb_blob := Some (context_data vb);
                                meta_init := false |})).
    - intro s0. now left.
    - intros s1 s2 s3 H12 [H23|H23]; [|now right].
      rewrite H23. exact H12.
    - intros vb s0 Hin.
      destruct (new_vdev_found_meta_start vb s0) as [H|(H1 & H2 & H3 & H4)]; [now left|].
      right. exists vb. repeat split; assumption. }
  destruct (init_devices_cases disk s)
    as [[Hn _]|(dm0 & Hdm0 & [(_ & f & s1 & Hrun & Hs1)|[(Hfmt & Hrun)|(Hfmt & Hrun)]])];
    [congruence| | |]; rewrite Hdm in Hdm0; injection Hdm0 as <-.
  - rewrite Hrun in Hm. simpl snd in Hm.
    destruct Hs1 as [[_ ->]|[Hfmt Hpre]].
    + change (meta_blk_mgr s = Some m) in Hm. congruence.
    + rewrite Hpre in Hloop. simpl snd in Hloop.
      split; [congruence|]. intros _.
      destruct Hloop as [Hl|(vb & H1 & H2 & H3 & H4 & Hl)].
      * change (meta_blk_mgr s1 = meta_blk_mgr s) in Hl. congruence.
      * rewrite Hm in Hl. injection Hl as ->. split; [reflexivity|].
        exists vb. repeat split; assumption.
  - split; [|congruence]. intros _.
    destruct Hrun as [Hrun|Hrun]; rewrite Hrun in Hm |- *; simpl snd in Hm.
    + split; [reflexivity|]. cbn in Hm. congruence.
    + cbn in Hm. congruence.
  - split; [congruence|]. intros _.
    assert (Hsnd : meta_blk_mgr (snd (init_devices env disk s)) =
                   meta_blk_mgr (snd (for_each (new_vdev_found env) (media_vdevs disk)
                                        (attached disk dm s)))).
    { rewrite Hrun.
      destruct (for_each (new_vdev_found env) (media_vdevs disk) (attached disk dm s))
        as [[[]|e|g] s1]; reflexivity. }
    rewrite Hsnd in Hm.
    destruct Hloop as [Hl|(vb & H1 & H2 & H3 & H4 & Hl)].
    + rewrite Hl in Hm. change (meta_blk_mgr s = Some m) in Hm. congruence.
    + rewrite Hm in Hl. injection Hl as ->. split; [reflexivity|].
      exists vb. repeat split; assumption.
Qed.

(** *** A store comes back as it was created *)

Lemma create_blkstore_new_ctor (t : blkstore_type) (s : HomeStore) (dm : DeviceManager) :
  m_dev_mgr s = Some dm ->
  exists bs,
    blk_store_of t (snd (create_blkstore env t None s)) = Some bs
    /\ bs_ctor bs = first_boot_ctor env (hs_config s) (dm_total_cap dm) (m_data_pagesz s) t.
Proof.
  intro Hdm.
  assert (Hc : configured (hs_config s) (m_data_pagesz s) (dm_total_cap dm) s).
  { repeat split. exists dm. now split. }
  destruct t; unfold create_blkstore.
  - rewrite (create_data_blkstore_new env _ _ _ s Hc). eexists. split; reflexivity.
  - rewrite (create_index_blkstore_new env _ _ _ s Hc). eexists. split; reflexivity.
  - rewrite (create_sb_blkstore_new env _ _ _ s Hc).
    destruct (is_success _); eexists; split; reflexivity.
  - rewrite (create_logdev_blkstore_new env _ _ _ s Hc). eexists. split; reflexivity.
  - rewrite (create_meta_blkstore_new env _ _ _ s Hc). eexists. split; reflexivity.
Qed.

(** X17.  For every store type, the constructor run at reattach gives the
    store the caching mode, page size, name, auto-recovery flag and completion
    hook that the first-boot constructor of the type gives it.  The failed
    argument is the record's flag for DATA, INDEX, LOGDEV and META; the
    SUPERBLOCK store is always constructed as not failed, also from a failed
    record. *)
Theorem reattach_matches_first_boot_configuration
    (vb : vdev_info_block) (t : blkstore_type) (s : HomeStore) (dm : DeviceManager) :
  m_dev_mgr s = Some dm ->
  ctx_type (context_data vb) = blkstore_type_val t ->
  exists created loaded,
    blk_store_of t (snd (create_blkstore env t None s)) = Some created
    /\ blk_store_of t (snd (new_vdev_found env vb s)) = Some loaded
    /\ ctor_cache_type (bs_ctor loaded) = ctor_cache_type (bs_ctor created)
    /\ ctor_page_size (bs_ctor loaded) = ctor_page_size (bs_ctor created)
    /\ ctor_name (bs_ctor loaded) = ctor_name (bs_ctor created)
    /\ ctor_auto_recovery (bs_ctor loaded) = ctor_auto_recovery (bs_ctor created)
    /\ ctor_comp_cb (bs_ctor loaded) = ctor_comp_cb (bs_ctor created)
    /\ ctor_is_failed (bs_ctor loaded) =
       Some (match t with SB_STORE => false | _ => failed vb end).
Proof.
  intros Hdm Htag.
  destruct (create_blkstore_new_ctor t s dm Hdm) as (created & Hcreated & Hctor).
  exists created. eexists. split; [exact Hcreated|].
  rewrite new_vdev_found_decode, Htag, blkstore_type_of_val_val.
  split; [apply create_blkstore_load_same|].
  rewrite Hctor. destruct t; repeat split.
Qed.

End EngineFurtherProperties.

(** ** Further properties of the log store *)

Section LogStoreFurtherProperties.

Import LogStore.

(** X15.  [truncated_upto] reports -1 for a store whose boundary still holds
    the initial sentinel (the largest sequence number), and the boundary's
    sequence number otherwise; it therefore never returns the largest
    sequence number. *)
Theorem truncated_upto_never_max (s : HomeLogStore) :
  logstore_seq_num_min <= seq_num (m_safe_truncation_boundary s) <= logstore_seq_num_max ->
  logstore_seq_num_min <= truncated_upto s < logstore_seq_num_max
  /\ (seq_num (m_safe_truncation_boundary s) = logstore_seq_num_max ->
      truncated_upto s = -1)
  /\ (seq_num (m_safe_truncation_boundary s) <> logstore_seq_num_max ->
      truncated_upto s = seq_num (m_safe_truncation_boundary s))
  /\ (truncated_upto s = -1 <->
      seq_num (m_safe_truncation_boundary s) = logstore_seq_num_max
      \/ seq_num (m_safe_truncation_boundary s) = -1).
Proof.
  unfold truncated_upto, logstore_seq_num_min, logstore_seq_num_max.
  intro Hr. destruct (Z.eqb_spec (seq_num (m_safe_truncation_boundary s)) (2 ^ 63 - 1)).
  - repeat split; try lia; auto.
  - repeat split; lia.
Qed.

Lemma contiguous_upto_max (p : slot_status -> bool) (t : StreamTracker) (from k : Z) :
  p EMPTY = false -> p TRUNCATED = false ->
  (forall j, from < j <= k -> p (slot_at t j) = true) ->
  from <= k -> k <= contiguous_upto p t from.
Proof.
  intros He Ht Hall Hle.
  destruct (Z_le_gt_dec k (contiguous_upto p t from)) as [H|H]; [exact H|exfalso].
  pose proof (contiguous_upto_ge p t from) as Hge.
  pose proof (contiguous_upto_next p t from He Ht) as Hn.
  rewrite Hall in Hn by lia. discriminate.
Qed.

Lemma contiguous_upto_resume (p : slot_status -> bool) (t : StreamTracker) (from j : Z) :
  p EMPTY = false -> p TRUNCATED = false ->
  from <= j <= contiguous_upto p t from ->
  contiguous_upto p t j = contiguous_upto p t from.
Proof.
  intros He Ht Hj.
  pose proof (contiguous_upto_ge p t j) as Hgej.
  apply Z.le_antisymm.
  - apply contiguous_upto_max; try assumption; [|lia].
    intros i Hi. destruct (Z_le_gt_dec i j) as [Hij|Hij].
    + apply (contiguous_upto_all p t from). lia.
    + apply (contiguous_upto_all p t j). lia.
  - apply contiguous_upto_max; try assumption; [|lia].
    intros i Hi. apply (contiguous_upto_all p t from). lia.
Qed.

Lemma contiguous_upto_stays (p : slot_status -> bool) (t : StreamTracker) (from : Z) :
  p EMPTY = false -> p TRUNCATED = false ->
  contiguous_upto p t from = from <-> p (slot_at t (from + 1)) = false.
Proof.
  intros He Ht. split.
  - intro H. pose proof (contiguous_upto_next p t from He Ht) as Hn.
    now rewrite H in Hn.
  - intro H. pose proof (contiguous_upto_ge p t from) as Hge.
    destruct (Z.eq_dec (contiguous_upto p t from) from) as [Heq|Hne]; [exact Heq|].
    rewrite (contiguous_upto_all p t from (from + 1)) in H by lia. discriminate.
Qed.

(** X16.  The contiguous watermarks, in the model of the header's contract.
    The completed watermark stays at [from] exactly when the slot after
    [from] is neither COMPLETED nor GAP-FILLED, and the issued watermark
    exactly when that slot is not issued at all (EMPTY, or below the first
    slot kept); a search resumed from any sequence number between [from] and
    the result returns the same result, so polling with the last result
    never skips or repeats a record; and the completed watermark is never
    ahead of the issued one. *)
Theorem contiguous_seq_num_resumes (s : HomeLogStore) (from j : Z) :
  (get_contiguous_completed_seq_num s from = from
   <-> slot_at (m_records s) (from + 1) <> COMPLETED
       /\ slot_at (m_records s) (from + 1) <> GAP_FILLED)
  /\ (get_contiguous_issued_seq_num s from = from
      <-> slot_at (m_records s) (from + 1) = EMPTY
          \/ slot_at (m_records s) (from + 1) = TRUNCATED)
  /\ (from <= j <= get_contiguous_completed_seq_num s from ->
      get_contiguous_completed_seq_num s j = get_contiguous_completed_seq_num s from)
  /\ (from <= j <= get_contiguous_issued_seq_num s from ->
      get_contiguous_issued_seq_num s j = get_contiguous_issued_seq_num s from)
  /\ get_contiguous_completed_seq_num s from <= get_contiguous_issued_seq_num s from.
Proof.
  unfold get_contiguous_completed_seq_num, get_contiguous_issued_seq_num.
  split.
  { rewrite (contiguous_upto_stays is_completed) by reflexivity.
    destruct (slot_at (m_records s) (from + 1)); simpl; split;
      try discriminate; try (intros [H1 H2]; congruence);
      intros _; split; discriminate. }
  split.
  { rewrite (contiguous_upto_stays is_issued) by reflexivity.
    destruct (slot_at (m_records s) (from + 1)); simpl; split;
      try discriminate; auto; intros [H|H]; discriminate. }
  split; [intro H; now apply contiguous_upto_resume|].
  split; [intro H; now apply contiguous_upto_resume|].
  apply contiguous_upto_max; try reflexivity; [|apply contiguous_upto_ge].
  intros i Hi. apply contiguous_upto_all in Hi.
  destruct (slot_at (m_records s) i); simpl in *; congruence.
Qed.

Lemma truncated_upto_never_max_witness :
  truncated_upto (store_with_boundary 1 100 7 0) = 100.
Proof.
  destruct (truncated_upto_never_max (store_with_boundary 1 100 7 0)
              ltac:(split; vm_compute; discriminate)) as (_ & _ & H & _).
  apply H. vm_compute. discriminate.
Defined.

End LogStoreFurtherProperties.

(** ** Further scenarios on the concrete engine *)

Section FurtherScenarios.

Import Engine.

Ltac decide_by_computation :=
  solve [vm_compute; reflexivity | vm_compute; discriminate
        | split; vm_compute; reflexivity].

Lemma first_boot_out_of_space_witness :
  m_logdev_blk_store (snd (init_devices full_env fresh_media (booted full_env demo_input)))
  = None.
Proof.
  destruct (first_boot_out_of_space full_env fresh_media (booted full_env demo_input)
              demo_dev_mgr eq_refl eq_refl ltac:(decide_by_computation) eq_refl)
    as (_ & _ & _ & _ & _ & _ & H & _).
  exact H.
Defined.

Lemma first_boot_roots_superblock_witness :
  exists s' sb,
    init_devices demo_env fresh_media (booted demo_env demo_input) = (Ret tt, s')
    /\ m_sb_blk_store s' = Some sb
    /\ bs_allocated sb = [(4096, BlkId_at 0 0 1)].
Proof.
  destruct (first_boot_roots_superblock demo_env fresh_media (booted demo_env demo_input)
              demo_dev_mgr eq_refl eq_refl ltac:(decide_by_computation) eq_refl)
    as (s' & sb & data & dm' & Hrun & Hsb & Halloc & _).
  exists s', sb. split; [exact Hrun|]. split; [exact Hsb|]. rewrite Halloc. reflexivity.
Defined.

Lemma first_boot_layout_fits_capacity_witness :
  exists s' zd zi zs zl zm : Z,
    fst (init_devices demo_env fresh_media (booted demo_env demo_input)) = Ret tt
    /\ s' = 2 ^ 31 /\ zd + zi + zs + zl + zm <= s'.
Proof.
  destruct (first_boot_layout_fits_capacity demo_env fresh_media
              (booted demo_env demo_input) demo_dev_mgr eq_refl eq_refl
              ltac:(decide_by_computation) eq_refl
              ltac:(decide_by_computation) ltac:(decide_by_computation)
              ltac:(decide_by_computation))
    as (s' & data & index & sb & logdev & meta & zd & zi & zs & zl & zm & Hrun
        & _ & _ & _ & _ & _ & _ & _ & _ & _ & _ & Hsum).
  exists (2 ^ 31), zd, zi, zs, zl, zm. rewrite Hrun.
  split; [reflexivity|]. split; [reflexivity|exact Hsum].
Defined.

Lemma new_vdev_found_outcome_witness :
  fst (new_vdev_found demo_env (found_vdev 3 META_STORE BlkId_invalid true)
         (booted demo_env demo_input)) =
  Throw (std_runtime_error "vdev in failed state").
Proof.
  apply (proj1 (new_vdev_found_outcome demo_env
                  (found_vdev 3 META_STORE BlkId_invalid true) META_STORE
                  (booted demo_env demo_input) eq_refl)).
  reflexivity.
Defined.

Lemma unknown_tag_constructs_nothing_witness :
  fst (init_devices strict_env unknown_tag_media (booted strict_env demo_input)) =
  Fault (assert_failure "Unknown blkstore_type")
  /\ m_index_blk_store
       (snd (init_devices strict_env unknown_tag_media (booted strict_env demo_input))) = None.
Proof.
  destruct (unknown_tag_constructs_nothing strict_env unknown_tag_media
              (booted strict_env demo_input)
              (snd (for_each (new_vdev_found strict_env)
                      [found_vdev 0 DATA_STORE BlkId_invalid false]
                      (attached unknown_tag_media demo_dev_mgr
                         (booted strict_env demo_input))))
              demo_dev_mgr
              [found_vdev 0 DATA_STORE BlkId_invalid false]
              [found_vdev 1 INDEX_STORE BlkId_invalid false]
              {| vdev_id := 9;
                 context_data := {| ctx_type := 7; ctx_blkid := BlkId_invalid |};
                 failed := false |}
              eq_refl eq_refl eq_refl eq_refl
              ltac:(right; vm_compute; reflexivity)) as (_ & Hstop & _).
  destruct (Hstop eq_refl) as [_ Hrun].
  rewrite Hrun. split; reflexivity.
Defined.

(** The same catalog where a failed assertion does not stop: the record is
    passed over and the INDEX record after it is loaded. *)
Example unknown_tag_passed_over :
  fst (init_devices demo_env unknown_tag_media (booted demo_env demo_input)) = Ret tt
  /\ m_index_blk_store
       (snd (init_devices demo_env unknown_tag_media (booted demo_env demo_input))) <> None.
Proof. split; [reflexivity|vm_compute; discriminate]. Qed.

Lemma start_up_completes_only_on_return_witness :
  resource_total_cap
    (snd (init_devices demo_env index_failed_media (booted demo_env demo_input))) = None
  /\ resource_total_cap
       (snd (init_devices demo_env healthy_media (booted demo_env demo_input))) =
     Some (2 ^ 31).
Proof.
  split.
  - apply (eq_trans (proj2 (proj2 (start_up_completes_only_on_return demo_env
                                     index_failed_media (booted demo_env demo_input)
                                     demo_dev_mgr eq_refl)
                              ltac:(decide_by_computation)))).
    reflexivity.
  - exact (proj2 (proj1 (start_up_completes_only_on_return demo_env healthy_media
                           (booted demo_env demo_input) demo_dev_mgr eq_refl)
                    ltac:(decide_by_computation))).
Defined.

Lemma reattach_constructs_stores_from_records_witness :
  fst (init_devices demo_env healthy_media (booted demo_env demo_input)) = Ret tt
  /\ m_sb_blk_store (snd (init_devices demo_env healthy_media (booted demo_env demo_input)))
     = None.
Proof.
  destruct (reattach_constructs_stores_from_records demo_env healthy_media
              (booted demo_env demo_input) demo_dev_mgr eq_refl eq_refl
              ltac:(decide_by_computation)
              ltac:(intros vb [<-|[<-|[<-|[<-|[]]]]]; reflexivity))
    as (Hret & Hstores & _).
  split; [exact Hret|]. exact (Hstores SB_STORE).
Defined.

Lemma reattach_invalid_root_throws_init_failed_witness :
  fst (init_devices demo_env unrooted_meta_media (booted demo_env demo_input)) =
  Throw (homestore_exception "init was failed last time. Should retry it with init"
           init_failed)
  /\ m_vdev_failed
       (snd (init_devices demo_env unrooted_meta_media (booted demo_env demo_input))) = false.
Proof.
  destruct (reattach_invalid_root_throws_init_failed demo_env unrooted_meta_media
              (booted demo_env demo_input)
              (snd (for_each (new_vdev_found demo_env)
                      [found_vdev 0 DATA_STORE BlkId_invalid false]
                      (attached unrooted_meta_media demo_dev_mgr
                         (booted demo_env demo_input))))
              demo_dev_mgr
              [found_vdev 0 DATA_STORE BlkId_invalid false]
              [found_vdev 1 INDEX_STORE BlkId_invalid false]
              (found_vdev 3 META_STORE BlkId_invalid false) META_STORE
              eq_refl eq_refl eq_refl eq_refl eq_refl (or_intror eq_refl) eq_refl eq_refl)
    as (Hrun & Hflag & _).
  split; [rewrite Hrun; reflexivity|exact Hflag].
Defined.

Lemma sb_root_round_trip_witness :
  exists sb b,
    m_sb_blk_store (snd (init_devices demo_env fresh_media (booted demo_env demo_input))) =
    Some sb
    /\ sb_store_blob sb = Some b
    /\ fst (new_vdev_found demo_env (sb_vdev_record 2 b) (booted demo_env demo_input)) =
       Ret tt.
Proof.
  destruct (sb_root_round_trip demo_env fresh_media (booted demo_env demo_input)
              demo_dev_mgr 2 (booted demo_env demo_input) eq_refl eq_refl
              ltac:(decide_by_computation)) as (sb & b & Hsb & Hb & _ & Hfound).
  exists sb, b. split; [exact Hsb|]. split; [exact Hb|]. exact Hfound.
Defined.

Lemma recovery_done_calls_commute_witness :
  let s := snd (init_devices demo_env healthy_media (booted demo_env demo_input)) in
  exists d2,
    m_data_blk_store (snd (bind data_recovery_done (fun _ => data_recovery_done) s)) =
    Some d2
    /\ bs_recovery_done d2 = 2%nat.
Proof.
  intro s.
  destruct (recovery_done_calls_commute s
              (dm_mark_init_done (dm_attach healthy_media demo_dev_mgr))
              (make_blkstore
                 (load_ctor demo_env (hs_config (booted demo_env demo_input))
                    (m_data_pagesz (booted demo_env demo_input)) DATA_STORE
                    (found_vdev 0 DATA_STORE BlkId_invalid false)))
              (make_blkstore
                 (load_ctor demo_env (hs_config (booted demo_env demo_input))
                    (m_data_pagesz (booted demo_env demo_input)) INDEX_STORE
                    (found_vdev 1 INDEX_STORE BlkId_invalid false)))
              eq_refl eq_refl eq_refl) as (_ & _ & _ & Htwice).
  destruct (Htwice eq_refl) as (d2 & Hd2 & Hcount).
  exists d2. split; [exact Hd2|]. rewrite Hcount. reflexivity.
Defined.

Lemma meta_blk_mgr_start_mode_witness :
  meta_blk_mgr (snd (init_devices demo_env healthy_media (booted demo_env demo_input))) =
  Some {| meta_sb_blob := Some {| ctx_type := 5; ctx_blkid := BlkId_at 0 0 1 |};
          meta_init := false |}
  /\ meta_init {| meta_sb_blob := Some {| ctx_type := 5; ctx_blkid := BlkId_at 0 0 1 |};
                  meta_init := false |} = false.
Proof.
  split; [reflexivity|].
  exact (proj1 (proj2 (meta_blk_mgr_start_mode demo_env healthy_media
                         (booted demo_env demo_input) demo_dev_mgr
                         {| meta_sb_blob := Some {| ctx_type := 5;
                                                    ctx_blkid := BlkId_at 0 0 1 |};
                            meta_init := false |}
                         eq_refl eq_refl eq_refl) eq_refl)).
Defined.

Lemma reattach_matches_first_boot_configuration_witness :
  exists loaded,
    m_sb_blk_store
      (snd (new_vdev_found demo_env (found_vdev 2 SB_STORE (BlkId_at 0 0 1) true)
              (booted demo_env demo_input))) = Some loaded
    /\ ctor_is_failed (bs_ctor loaded) = Some false
    /\ ctor_cache_type (bs_ctor loaded) = PASS_THRU.
Proof.
  destruct (reattach_matches_first_boot_configuration demo_env
              (found_vdev 2 SB_STORE (BlkId_at 0 0 1) true) SB_STORE
              (booted demo_env demo_input) demo_dev_mgr eq_refl eq_refl)
    as (created & loaded & Hc & Hl & Hcache & _ & _ & _ & _ & Hfailed).
  exists loaded. split; [exact Hl|]. split; [exact Hfailed|].
  rewrite Hcache.
  assert (Some created =
          Some (store_created demo_env (hs_config (booted demo_env demo_input))
                  (m_data_pagesz (booted demo_env demo_input)) 0 SB_STORE)) as Heq
    by (rewrite <- Hc; reflexivity).
  injection Heq as ->. reflexivity.
Defined.

End FurtherScenarios.
